(** * gwincc: window identity, per-window state, monitor-relative geometry
      and the background discovery loop

    A shallow embedding of [src/gwincc/__init__.py].  Python [int] is [Z],
    Python [float] is IEEE 754 binary64 as specified by the standard
    library's [SpecFloat] (precision 53, [emax] 1024), exceptions are an
    explicit result type, the Win32 / psutil calls are an interface the
    code is written against, and mutable [WindowState] objects live in a
    heap of references so that aliasing is visible. *)

From Stdlib Require Import ZArith Lia Bool List.
From Stdlib Require Import SpecFloat.
From stdpp Require Import base option list gmap strings.

Local Open Scope Z_scope.

(** ** Exceptions and results *)

Inductive exn : Type :=
  | NotImplementedError
  | ZeroDivisionError
  | OverflowError
  | ValueError
  | Win32Error        (* pywintypes.error raised by a win32 call *)
  | NoSuchProcess     (* psutil.NoSuchProcess *)
  | AccessDenied.     (* psutil.AccessDenied *)

Inductive result (A : Type) : Type :=
  | Ok (a : A)
  | Raise (e : exn).
Arguments Ok {A} a.
Arguments Raise {A} e.

Definition rbind {A B} (r : result A) (k : A -> result B) : result B :=
  match r with
  | Ok a => k a
  | Raise e => Raise e
  end.

Definition is_Ok {A} (r : result A) : bool :=
  match r with Ok _ => true | Raise _ => false end.

#[global] Instance result_ret : MRet result := fun A a => Ok a.
#[global] Instance result_bind : MBind result := fun A B k r => rbind r k.

(** ** Python floats (binary64) *)

Module PyFloat.

Definition prec : Z := 53.
Definition emax : Z := 1024.

Abbreviation float := spec_float.

Definition is_inf (x : float) : bool :=
  match x with S754_infinity _ => true | _ => false end.

Definition is_zero (x : float) : bool :=
  match x with S754_zero _ => true | _ => false end.

(** A float operation whose overflow Python reports as [OverflowError]. *)
Definition no_overflow (x : float) : result float :=
  if is_inf x then Raise OverflowError else Ok x.

(** [float(n)] for an int [n] (PyLong_AsDouble): round to nearest, ties
    to even; too large a magnitude raises [OverflowError]. *)
Definition of_int (n : Z) : result float :=
  no_overflow (binary_normalize prec emax n 0 false).

(** The integer [n] written as an unrounded significand with exponent 0. *)
Definition raw_of_int (n : Z) : float :=
  match n with
  | Z0 => S754_zero false
  | Zpos p => S754_finite false p 0
  | Zneg p => S754_finite true p 0
  end.

(** [a / b] for two ints (long_true_divide): the correctly rounded
    quotient of the exact integers. *)
Definition int_truediv (a b : Z) : result float :=
  if b =? 0 then Raise ZeroDivisionError
  else no_overflow (SFdiv prec emax (raw_of_int a) (raw_of_int b)).

Definition mul (x y : float) : float := SFmul prec emax x y.
Definition add (x y : float) : float := SFadd prec emax x y.

(** [x / y] for two floats: division by either zero raises. *)
Definition truediv (x y : float) : result float :=
  if is_zero y then Raise ZeroDivisionError else Ok (SFdiv prec emax x y).

(** [int(x)]: truncation toward zero. *)
Definition to_int (x : float) : result Z :=
  match x with
  | S754_nan => Raise ValueError
  | S754_infinity _ => Raise OverflowError
  | S754_zero _ => Ok 0
  | S754_finite s m e => Ok (cond_Zopp s (Z.shiftl (Zpos m) e))
  end.

(** [math.floor(x)], used only to state the specification's reading. *)
Definition floor (x : float) : result Z :=
  match x with
  | S754_nan => Raise ValueError
  | S754_infinity _ => Raise OverflowError
  | S754_zero _ => Ok 0
  | S754_finite false m e => Ok (Z.shiftl (Zpos m) e)
  | S754_finite true m e => Ok (Z.shiftl (Zneg m) e)
  end.

(** Mixed [int op float] arithmetic converts the int operand first. *)
Definition int_mul_float (n : Z) (y : float) : result float :=
  x ← of_int n; Ok (mul x y).

Definition int_add_float (n : Z) (y : float) : result float :=
  x ← of_int n; Ok (add x y).

Definition int_truediv_float (n : Z) (y : float) : result float :=
  x ← of_int n; truediv x y.

(** Truthiness of a float: anything but a zero. *)
Definition truthy (x : float) : bool := negb (is_zero x).

Definition leb (x y : float) : bool := SFleb x y.

Definition zero : float := S754_zero false.
Definition one : float := S754_finite false 4503599627370496 (-52).

(** The literal [0.8]: the double nearest to 8/10. *)
Definition lit_0_8 : float := S754_finite false 7205759403792794 (-53).

(** *** The values floats denote

    Every finite binary64 number is a multiple of [2^-1074]; [units x]
    is that multiple, so that statements about values stay in [Z]. *)

Definition emin : Z := -1074.
Definition fexp (p : Z) : Z := Z.max (p - 53) emin.

(** The number of units in [1.0], and in [0.5]. *)
Definition unity : Z := 2 ^ 1074.
Definition half : Z := 2 ^ 1073.

Definition units (x : float) : Z :=
  match x with
  | S754_finite s m e => cond_Zopp s (Zpos m * 2 ^ (e + 1074))
  | _ => 0
  end.

Definition finite (x : float) : Prop :=
  match x with
  | S754_zero _ => True
  | S754_finite _ m e => Zpos m < 2 ^ 53 /\ emin <= e <= 971
  | _ => False
  end.

Definition sign_of (x : float) : bool :=
  match x with
  | S754_zero s | S754_infinity s | S754_finite s _ _ => s
  | S754_nan => false
  end.

(** A binary64 value as the interpreter holds it: canonical and in
    range. *)
Definition well_formed (x : float) : Prop := valid_binary prec emax x = true.

(** Bookkeeping for the rounding step of [SpecFloat]. *)
Definition rec_exact (r : shr_record) : Prop :=
  shr_r r = false /\ shr_s r = false.

Definition pack (s : bool) (m e : Z) : float :=
  match m with
  | Z0 => S754_zero s
  | Zpos p => if e <=? 971 then S754_finite s p e else S754_infinity s
  | Zneg _ => S754_nan
  end.

Definition renorm (m e : Z) : Z * Z :=
  if m <? 2 ^ 53 then (m, e) else (m / 2, e + 1).

Definition scale (m e : Z) : Z := Z.max e (fexp (Zdigits2 m + e)).

Definition normalized (m e : Z) : Prop := e <= fexp (Zdigits2 m + e).

End PyFloat.

(** ** Builtin hashing of ints and 1-tuples (CPython, 64-bit) *)

Module PyHash.

Definition modulus : Z := 2 ^ 61 - 1.
Definition wrap64 (x : Z) : Z := x mod 2 ^ 64.
Definition signed64 (x : Z) : Z :=
  let u := wrap64 x in if u <? 2 ^ 63 then u else u - 2 ^ 64.

Definition hash_int (n : Z) : Z :=
  let h := Z.sgn n * (Z.abs n mod modulus) in
  if h =? -1 then -2 else h.

Definition XXPRIME_1 : Z := 11400714785074694791.
Definition XXPRIME_2 : Z := 14029467366897019727.
Definition XXPRIME_5 : Z := 2870177450012600261.

Definition XXROTATE (x : Z) : Z :=
  wrap64 (Z.lor (Z.shiftl x 31) (Z.shiftr x 33)).

(** [hash((n,))] *)
Definition hash_tuple1 (n : Z) : Z :=
  let lane := wrap64 (hash_int n) in
  let acc := wrap64 (XXPRIME_5 + lane * XXPRIME_2) in
  let acc := XXROTATE acc in
  let acc := wrap64 (acc * XXPRIME_1) in
  let acc := wrap64 (acc + Z.lxor 1 (Z.lxor XXPRIME_5 3527539)) in
  if acc =? 2 ^ 64 - 1 then 1546275796 else signed64 acc.

End PyHash.

(** ** Rect and Monitor *)

Record Rect : Type := mkRect {
  left : Z;
  top : Z;
  right : Z;
  bottom : Z
}.

Definition width (self : Rect) : Z := right self - left self.
Definition height (self : Rect) : Z := bottom self - top self.
Definition wh_ratio (self : Rect) : result PyFloat.float :=
  PyFloat.int_truediv (width self) (height self).

Record Monitor : Type := mkMonitor { work : Rect }.

(** ** Window identity *)

(** [psutil.Process] handle held by a window: what the consumer can ask
    of it later ([exe()] may raise once the process is gone). *)
Record Process : Type := mkProcess {
  proc_pid : Z;
  proc_exe : result string
}.

Record Window : Type := mkWindow {
  pid : Z;
  proc : Process;
  hwnd : Z;
  title : string;
  process_created_at : PyFloat.float
}.

(** The Python values a window may be compared with. *)
Inductive PyValue : Type :=
  | PyNone
  | PyBool (b : bool)
  | PyInt (n : Z)
  | PyFloatV (x : PyFloat.float)
  | PyStr (s : string)
  | PyWindow (w : Window).

Definition isinstance_Window (v : PyValue) : bool :=
  match v with PyWindow _ => true | _ => false end.

Definition Window___hash__ (self : Window) : Z :=
  PyHash.hash_tuple1 (hwnd self).

Definition Window___eq__ (self : Window) (value : PyValue) : result bool :=
  match value with
  | PyWindow other => Ok (hwnd self =? hwnd other)
  | _ => Raise NotImplementedError
  end.

(** [w in windows] on a list: the first element equal to [w] decides. *)
Fixpoint list_contains (windows : list Window) (w : Window) : result bool :=
  match windows with
  | [] => Ok false
  | x :: rest =>
      Window___eq__ x (PyWindow w) ≫= λ b : bool,
        if b then Ok true else list_contains rest w
  end.


(** ** The host: Win32, psutil, the clock

    The code is written against these calls.  Queries read the host state
    and may raise; [ShowWindow] and [MoveWindow] change it. *)

Definition SW_RESTORE : Z := 9.

Class Host (Σ : Type) : Type := {
  MonitorFromWindow : Z -> Σ -> result Z;
  GetMonitorInfo_Work : Z -> Σ -> result (Z * Z * Z * Z);
  GetWindowRect : Z -> Σ -> result (Z * Z * Z * Z);
  IsIconic : Z -> Σ -> bool;
  ShowWindow : Z -> Z -> Σ -> result unit * Σ;
  MoveWindow : Z -> Z -> Z -> Z -> Z -> bool -> Σ -> result unit * Σ;
  EnumWindows_handles : Σ -> result (list Z);
  IsWindowVisible : Z -> Σ -> bool;
  GetWindowText : Z -> Σ -> string;
  GetWindow_OWNER : Z -> Σ -> result Z;
  GetWindowThreadProcessId : Z -> Σ -> result (Z * Z);
  getpid : Σ -> Z;
  psutil_Process : Z -> Σ -> result Process;
  create_time : Process -> Σ -> result PyFloat.float;
  time_time : Σ -> PyFloat.float
}.

(** State and exceptions: an exception keeps the effects made before it. *)
Definition M (Σ A : Type) : Type := Σ -> result A * Σ.

#[global] Instance M_ret {Σ} : MRet (M Σ) := fun A a σ => (Ok a, σ).
#[global] Instance M_bind {Σ} : MBind (M Σ) := fun A B k c σ =>
  match c σ with
  | (Ok a, σ') => k a σ'
  | (Raise e, σ') => (Raise e, σ')
  end.

Definition lift {Σ A} (r : result A) : M Σ A := fun σ => (r, σ).
Definition query {Σ A} (q : Σ -> result A) : M Σ A := fun σ => (q σ, σ).
Definition ask {Σ A} (q : Σ -> A) : M Σ A := fun σ => (Ok (q σ), σ).

(** [Rect.from_win32_rect]: pywin32 hands both call sites a 4-tuple; the
    branch for an object with [left]/[top] attributes builds the same
    record from the same four fields. *)
Definition from_win32_rect (rect : Z * Z * Z * Z) : Rect :=
  let '(l, t, r, b) := rect in mkRect l t r b.

Section Geometry.
Context {Σ : Type} `{Host Σ}.

Definition Monitor_from_hwnd (h : Z) : M Σ Monitor :=
  monitor_handle ← query (MonitorFromWindow h);
  monitor ← query (GetMonitorInfo_Work monitor_handle);
  mret (mkMonitor (from_win32_rect monitor)).

Definition _resize_move_to_center_of_rect
    (self : Window) (width' height' : Z) (monitor_rect : Rect) : M Σ unit :=
  iconic ← ask (IsIconic (hwnd self));
  _ ← (if iconic : bool then ShowWindow (hwnd self) SW_RESTORE else mret ());
  left_gap ← lift (PyFloat.int_truediv (width monitor_rect - width') 2);
  top_gap ← lift (PyFloat.int_truediv (height monitor_rect - height') 2);
  left' ← lift (x ← PyFloat.int_add_float (left monitor_rect) left_gap;
                PyFloat.to_int x);
  top' ← lift (x ← PyFloat.int_add_float (top monitor_rect) top_gap;
               PyFloat.to_int x);
  MoveWindow (hwnd self) left' top' width' height' true.

Definition center (self : Window) (ratio : PyFloat.float) : M Σ unit :=
  monitor ← Monitor_from_hwnd (hwnd self);
  width' ← lift (x ← PyFloat.int_mul_float (width (work monitor)) ratio;
                 PyFloat.to_int x);
  height' ← lift (x ← PyFloat.int_mul_float (height (work monitor)) ratio;
                  PyFloat.to_int x);
  _resize_move_to_center_of_rect self width' height' (work monitor).

(** [height_delta = int(width_delta / rect.wh_ratio())] *)
Definition height_delta_of (rect : Rect) (width_delta : Z) : result Z :=
  r ← wh_ratio rect;
  q ← PyFloat.int_truediv_float width_delta r;
  PyFloat.to_int q.

(** The closing [print] re-evaluates [rect.wh_ratio()], which has
    already succeeded, and writes to standard output only. *)
Definition resize (self : Window) (width_delta : Z) : M Σ unit :=
  monitor ← Monitor_from_hwnd (hwnd self);
  rect ← (r ← query (GetWindowRect (hwnd self)); mret (from_win32_rect r));
  height_delta ← lift (height_delta_of rect width_delta);
  _resize_move_to_center_of_rect self
    (width rect + width_delta) (height rect + height_delta) (work monitor).

End Geometry.

(** ** Per-window state and its store *)

Record WindowState : Type := mkWindowState {
  selected : bool;
  pinned_at : option PyFloat.float
}.

(** [WindowState()] *)
Definition WindowState_new : WindowState :=
  {| selected := false; pinned_at := None |}.

(** [WindowState] objects are mutable and shared by reference. *)
Abbreviation ref := positive (only parsing).
Abbreviation heap := (gmap positive WindowState) (only parsing).

Definition pin (self : ref) (now : PyFloat.float) (h : heap) : heap :=
  alter (fun st => {| selected := selected st; pinned_at := Some now |}) self h.

Definition unpin (self : ref) (h : heap) : heap :=
  alter (fun st => {| selected := selected st; pinned_at := None |}) self h.

(** The dict is keyed by [Window]; with [__hash__] and [__eq__] over
    [hwnd] alone it is a map from handles, each entry remembering the key
    object first inserted and the reference to its state.  The dict is a
    class attribute until [purge] rebinds it on the instance; the module
    creates a single [WindowStateStore], so one map stands for both. *)
Record WindowStateStore : Type := mkStore {
  store : gmap Z (Window * ref)
}.

(** [self.store.setdefault(key, WindowState())]: the default built for
    the call is kept only when the key is new. *)
Definition WindowStateStore___getitem__
    (self : WindowStateStore) (key : Window) (h : heap)
  : ref * WindowStateStore * heap :=
  match store self !! hwnd key with
  | Some (_, r) => (r, self, h)
  | None =>
      let r := fresh (dom h) in
      (r, mkStore (<[hwnd key := (key, r)]> (store self)),
       <[r := WindowState_new]> h)
  end.

(** The truth value an [if] clause sees. *)
Definition holds (r : result bool) : bool :=
  match r with Ok true => true | _ => false end.

(** [{window: state for window, state in self.store.items()
       if window in windows}]; no comparison of two windows raises. *)
Definition purge (self : WindowStateStore) (windows : list Window)
  : WindowStateStore :=
  mkStore (filter (fun kv => holds (list_contains windows (kv.2.1)) = true)
                  (store self)).

(** References held by the store point into the heap. *)
Definition store_wf (self : WindowStateStore) (h : heap) : Prop :=
  forall k w r, store self !! k = Some (w, r) -> is_Some (h !! r).

(** ** Background discovery *)

Record Service : Type := mkService { windows : list Window }.

Section Discovery.
Context {Σ : Type} `{Host Σ}.

(** One call of [enum_windows_callback]; [acc] is the closure's list. *)
Definition enum_windows_callback (σ : Σ) (h : Z) (acc : list Window)
  : result (list Window) :=
  if negb (IsWindowVisible h σ) then Ok acc
  else
    let title' := GetWindowText h σ in
    if String.eqb title' "" then Ok acc
    else
      GetWindow_OWNER h σ ≫= λ owner : Z,
      if negb (owner =? 0) then Ok acc
      else
        GetWindowThreadProcessId h σ ≫= λ tp : Z * Z,
        let pid' := tp.2 in
        if pid' =? getpid σ then Ok acc
        else
          proc' ← psutil_Process pid' σ;
          created ← create_time proc' σ;
          Ok (acc ++ [mkWindow pid' proc' h title' created]).

(** [win32gui.EnumWindows(callback, None)]: the callback runs on each
    handle in turn; an exception it raises stops the enumeration and is
    re-raised. *)
Fixpoint run_callbacks (σ : Σ) (hs : list Z) (acc : list Window)
  : result (list Window) :=
  match hs with
  | [] => Ok acc
  | h :: rest =>
      enum_windows_callback σ h acc ≫= λ acc' : list Window,
      run_callbacks σ rest acc'
  end.

Definition EnumWindows (σ : Σ) : result (list Window) :=
  hs ← EnumWindows_handles σ;
  run_callbacks σ hs [].

(** [_run]: [waited] is what [cancellation.wait(1)] returns. *)
Definition _run (σ : Σ) (waited : bool) (self : Service)
  : result bool * Service :=
  match EnumWindows σ with
  | Raise e => (Raise e, self)
  | Ok ws => (Ok waited, mkService ws)
  end.

(** What the worker meets in one turn of its loop: the flag at the
    [is_set()] test, the host during the poll, the flag during the
    wait. *)
Record Cycle : Type := mkCycle {
  is_set : bool;
  host : Σ;
  wait_1 : bool
}.

Inductive Outcome : Type :=
  | Returned            (* the loop ended: cancellation was observed *)
  | Propagated (e : exn) (* an exception left [_loop]: the thread died *)
  | Polling.            (* still looping after the cycles described *)

Fixpoint _loop (cycles : list Cycle) (self : Service) : Outcome * Service :=
  match cycles with
  | [] => (Polling, self)
  | c :: rest =>
      if is_set c then (Returned, self)
      else
        match _run (host c) (wait_1 c) self with
        | (Raise e, self') => (Propagated e, self')
        | (Ok true, self') => (Returned, self')
        | (Ok false, self') => _loop rest self'
        end
  end.

End Discovery.

(** ** The consumer: one frame of [main] *)

Inductive Button : Type := BtnUnpin | BtnPin | BtnCenter | BtnBigger | BtnSmaller.

Record World (Σ : Type) : Type := mkWorld {
  w_host : Σ;
  w_heap : heap;
  w_store : WindowStateStore
}.
Arguments mkWorld {Σ} _ _ _.
Arguments w_host {Σ} _.
Arguments w_heap {Σ} _.
Arguments w_store {Σ} _.

Section Consumer.
Context {Σ : Type} `{Host Σ}.

(** Run a host action inside the world. *)
Definition on_host {A} (c : M Σ A) : M (World Σ) A := fun w =>
  let '(r, σ') := c (w_host w) in (r, mkWorld σ' (w_heap w) (w_store w)).

Definition store_getitem (key : Window) : M (World Σ) ref := fun w =>
  let '(r, s', h') := WindowStateStore___getitem__ (w_store w) key (w_heap w) in
  (Ok r, mkWorld (w_host w) h' s').

Definition on_heap (f : heap -> heap) : M (World Σ) unit := fun w =>
  (Ok (), mkWorld (w_host w) (f (w_heap w)) (w_store w)).

(** [if state.pinned_at:] *)
Definition pinned_truthy (w : World Σ) (r : ref) : bool :=
  match w_heap w !! r with
  | Some st =>
      match pinned_at st with
      | Some t => PyFloat.truthy t
      | None => false
      end
  | None => false
  end.

Definition when (b : bool) (c : M (World Σ) unit) : M (World Σ) unit :=
  if b then c else mret ().

(** The body of the [for window in ...] loop; [clicked] is what
    [imgui.button] returns for each button of this window. *)
Definition main_window (clicked : Z -> Button -> bool) (window : Window)
  : M (World Σ) unit :=
  state ← store_getitem window;
  pinned ← (fun w => (Ok (pinned_truthy w state), w));
  _ ← (if pinned : bool
       then when (clicked (hwnd window) BtnUnpin) (on_heap (unpin state))
       else when (clicked (hwnd window) BtnPin)
              (now ← on_host (ask time_time); on_heap (pin state now)));
  _ ← when (clicked (hwnd window) BtnCenter)
        (on_host (center window PyFloat.lit_0_8));
  _ ← when (clicked (hwnd window) BtnBigger) (on_host (resize window 10));
  _ ← when (clicked (hwnd window) BtnSmaller) (on_host (resize window (-10)));
  _ ← lift (proc_exe (proc window));
  mret ().

Fixpoint main_windows (clicked : Z -> Button -> bool) (ws : list Window)
  : M (World Σ) unit :=
  match ws with
  | [] => mret ()
  | window :: rest =>
      _ ← main_window clicked window; main_windows clicked rest
  end.

(** [main()], the [show_gui] callback, on the published snapshot. *)
Definition main (service : Service) (clicked : Z -> Button -> bool)
  : M (World Σ) unit :=
  main_windows clicked (windows service).

End Consumer.

(** ** Notions used to state the properties *)

(** A coordinate as Win32 delivers it: a 32-bit [LONG]. *)
Definition win32_long (z : Z) : Prop := - 2 ^ 31 <= z < 2 ^ 31.

Definition win32_rect (r : Rect) : Prop :=
  win32_long (left r) /\ win32_long (top r)
  /\ win32_long (right r) /\ win32_long (bottom r).

(** [trunc_half n] is [n / 2] truncated toward zero. *)
Definition trunc_half (n : Z) : Z := Z.quot n 2.

(** Where a [width' x height'] window is put on the work area [wk]:
    [int(wk.left + (wk.width - width') / 2)], likewise for the top. *)
Definition centered_left (wk : Rect) (width' : Z) : Z :=
  trunc_half (2 * left wk + (width wk - width')).
Definition centered_top (wk : Rect) (height' : Z) : Z :=
  trunc_half (2 * top wk + (height wk - height')).

(** The specification's reading of the height delta: [floor], not [int]. *)
Definition height_delta_floor (rect : Rect) (width_delta : Z) : result Z :=
  r ← wh_ratio rect;
  q ← PyFloat.int_truediv_float width_delta r;
  PyFloat.floor q.

Section Placement.
Context {Σ : Type} `{Host Σ}.

(** Applying a target: restore the window if it is minimized, then one
    [MoveWindow] call. *)
Definition place (self : Window) (l t w h : Z) : M Σ unit :=
  iconic ← ask (IsIconic (hwnd self));
  _ ← (if iconic : bool then ShowWindow (hwnd self) SW_RESTORE else mret ());
  MoveWindow (hwnd self) l t w h true.

(** A cycle in which nothing ends the loop. *)
Definition quiet (c : Cycle) : Prop :=
  is_set c = false /\ is_Ok (EnumWindows (host c)) = true /\ wait_1 c = false.

End Placement.

(** The state a store entry leads to. *)
Definition state_of (self : WindowStateStore) (h : heap) (k : Z)
  : option WindowState :=
  store self !! k ≫= λ wr : Window * positive, h !! wr.2.

(** ** A small concrete host, to run the code on *)

Record SimWindow : Type := mkSimWindow {
  sw_hwnd : Z;
  sw_visible : bool;
  sw_title : string;
  sw_owner : Z;
  sw_pid : Z;
  sw_rect : Z * Z * Z * Z;
  sw_iconic : bool
}.

Record SimProc : Type := mkSimProc {
  sp_pid : Z;
  sp_exe : result string;
  sp_created : result PyFloat.float
}.

Record SimHost : Type := mkSimHost {
  sim_windows : list SimWindow;
  sim_work : Z * Z * Z * Z;
  sim_enum_ok : bool;
  sim_procs : list SimProc;
  sim_self : Z;
  sim_now : PyFloat.float
}.

Definition sim_find (h : Z) (σ : SimHost) : option SimWindow :=
  List.find (fun w => sw_hwnd w =? h) (sim_windows σ).

Definition sim_proc (p : Z) (σ : SimHost) : option SimProc :=
  List.find (fun x => sp_pid x =? p) (sim_procs σ).

Definition sim_update (h : Z) (f : SimWindow -> SimWindow) (σ : SimHost)
  : SimHost :=
  mkSimHost
    (List.map (fun w => if sw_hwnd w =? h then f w else w) (sim_windows σ))
    (sim_work σ) (sim_enum_ok σ) (sim_procs σ) (sim_self σ) (sim_now σ).

Definition sim_of_option {A} (o : option A) : result A :=
  match o with Some a => Ok a | None => Raise Win32Error end.

#[global] Instance SimHost_Host : Host SimHost := {|
  MonitorFromWindow h σ := sim_of_option (sim_find h σ) ≫= λ _, Ok 1;
  GetMonitorInfo_Work m σ :=
    if m =? 1 then Ok (sim_work σ) else Raise Win32Error;
  GetWindowRect h σ := sim_of_option (sim_find h σ) ≫= λ w, Ok (sw_rect w);
  IsIconic h σ :=
    match sim_find h σ with Some w => sw_iconic w | None => false end;
  ShowWindow h cmd σ :=
    (Ok (),
     sim_update h (fun w =>
       if cmd =? SW_RESTORE
       then mkSimWindow (sw_hwnd w) (sw_visible w) (sw_title w) (sw_owner w)
              (sw_pid w) (sw_rect w) false
       else w) σ);
  MoveWindow h l t w' h' _ σ :=
    match sim_find h σ with
    | Some _ =>
        (Ok (),
         sim_update h (fun w =>
           mkSimWindow (sw_hwnd w) (sw_visible w) (sw_title w) (sw_owner w)
             (sw_pid w) (l, t, l + w', t + h') (sw_iconic w)) σ)
    | None => (Raise Win32Error, σ)
    end;
  EnumWindows_handles σ :=
    if sim_enum_ok σ then Ok (List.map sw_hwnd (sim_windows σ))
    else Raise Win32Error;
  IsWindowVisible h σ :=
    match sim_find h σ with Some w => sw_visible w | None => false end;
  GetWindowText h σ :=
    match sim_find h σ with Some w => sw_title w | None => EmptyString end;
  GetWindow_OWNER h σ := sim_of_option (sim_find h σ) ≫= λ w, Ok (sw_owner w);
  GetWindowThreadProcessId h σ :=
    sim_of_option (sim_find h σ) ≫= λ w, Ok (0, sw_pid w);
  getpid σ := sim_self σ;
  psutil_Process p σ :=
    match sim_proc p σ with
    | Some x => Ok (mkProcess p (sp_exe x))
    | None => Raise NoSuchProcess
    end;
  create_time pr σ :=
    match sim_proc (proc_pid pr) σ with
    | Some x => sp_created x
    | None => Raise NoSuchProcess
    end;
  time_time σ := sim_now σ
|}.

(** ** Concrete hosts and windows, for running the code *)

Module Demo.

(** 2025-01-01 00:00:00 UTC as a float timestamp. *)
Definition t0 : PyFloat.float := S754_finite false 7280009832038400 (-22).

Definition editor_proc : Process := mkProcess 100 (Ok "C:\editor.exe"%string).

(** A discovered window, handle 42. *)
Definition editor : Window := mkWindow 100 editor_proc 42 "Editor" t0.

(** The same handle captured later, with a drifted title. *)
Definition editor_later : Window := mkWindow 100 editor_proc 42 "Editor *" t0.

Definition sim_editor (rect : Z * Z * Z * Z) : SimWindow :=
  mkSimWindow 42 true "Editor" 0 100 rect false.

(** A window whose process (pid 200) has already exited. *)
Definition sim_orphan : SimWindow :=
  mkSimWindow 7 true "Installer" 0 200 (0, 0, 640, 480) false.

Definition host_with (ws : list SimWindow) (enum_ok : bool) : SimHost :=
  mkSimHost ws (0, 0, 1920, 1200) enum_ok
    [mkSimProc 100 (Ok "C:\editor.exe"%string) (Ok t0)] 1 t0.

(** One 1000 x 500 window on a 1920 x 1200 work area. *)
Definition host : SimHost := host_with [sim_editor (100, 100, 1100, 600)] true.

(** The same window, 300 x 200. *)
Definition host_300x200 : SimHost := host_with [sim_editor (0, 0, 300, 200)] true.

(** The same window collapsed to height 0. *)
Definition host_flat : SimHost := host_with [sim_editor (100, 100, 1100, 100)] true.

(** The orphan is enumerated before the editor. *)
Definition host_orphan : SimHost :=
  host_with [sim_orphan; sim_editor (100, 100, 1100, 600)] true.

(** The enumeration call itself fails. *)
Definition host_enum_fails : SimHost :=
  host_with [sim_editor (100, 100, 1100, 600)] false.

Definition no_clicks : Z -> Button -> bool := fun _ _ => false.

Definition click_bigger : Z -> Button -> bool := fun h b =>
  match b with BtnBigger => h =? 42 | _ => false end.

Definition empty_store : WindowStateStore := mkStore ∅.

Definition world_of (σ : SimHost) : World SimHost := mkWorld σ ∅ empty_store.

(** A store holding the editor's state at reference 1. *)
Definition store_editor : WindowStateStore :=
  mkStore {[ 42 := (editor, 1%positive) ]}.

End Demo.

(** ** Notions used to state further properties *)

Section DiscoveryNotions.
Context {Σ : Type} `{Host Σ}.

(** A handle that passes the four filters of [enum_windows_callback]:
    visible, titled, without owner, of another process. *)
Definition candidate (σ : Σ) (h : Z) : Prop :=
  IsWindowVisible h σ = true
  /\ GetWindowText h σ <> EmptyString
  /\ GetWindow_OWNER h σ = Ok 0
  /\ exists tid p, GetWindowThreadProcessId h σ = Ok (tid, p) /\ p <> getpid σ.

(** A [Window] record whose fields are what the host answers for its
    handle, and whose handle is a candidate. *)
Definition discovered (σ : Σ) (w : Window) : Prop :=
  IsWindowVisible (hwnd w) σ = true
  /\ title w = GetWindowText (hwnd w) σ
  /\ title w <> EmptyString
  /\ GetWindow_OWNER (hwnd w) σ = Ok 0
  /\ (exists tid, GetWindowThreadProcessId (hwnd w) σ = Ok (tid, pid w))
  /\ pid w <> getpid σ
  /\ psutil_Process (pid w) σ = Ok (proc w)
  /\ create_time (proc w) σ = Ok (process_created_at w).

(** A query made on handle [h] by the callback raised [e]. *)
Definition query_raised (σ : Σ) (h : Z) (e : exn) : Prop :=
  IsWindowVisible h σ = true
  /\ GetWindowText h σ <> EmptyString
  /\ (GetWindow_OWNER h σ = Raise e
      \/ (GetWindow_OWNER h σ = Ok 0
          /\ (GetWindowThreadProcessId h σ = Raise e
              \/ exists tid p,
                   GetWindowThreadProcessId h σ = Ok (tid, p)
                   /\ p <> getpid σ
                   /\ (psutil_Process p σ = Raise e
                       \/ exists pr, psutil_Process p σ = Ok pr
                                     /\ create_time pr σ = Raise e)))).
End DiscoveryNotions.

(** Every entry sits under the handle of its key object. *)
Definition store_keyed (self : WindowStateStore) : Prop :=
  forall k w r, store self !! k = Some (w, r) -> hwnd w = k.

(** No state object is shared by two entries. *)
Definition store_unaliased (self : WindowStateStore) : Prop :=
  forall k1 k2 w1 w2 r,
    store self !! k1 = Some (w1, r) -> store self !! k2 = Some (w2, r) -> k1 = k2.

(** ** A busier desktop, for running the discovery and the frame *)

Module Scenes.
Import Demo.

(** Windows the callback filters out; the hidden one belongs to a
    process (pid 200) that is gone. *)
Definition sim_hidden : SimWindow :=
  mkSimWindow 1 false "Hidden" 0 200 (0, 0, 10, 10) false.
Definition sim_untitled : SimWindow :=
  mkSimWindow 2 true "" 0 100 (0, 0, 10, 10) false.
Definition sim_tool : SimWindow :=
  mkSimWindow 3 true "Palette" 42 100 (0, 0, 10, 10) false.
Definition sim_own : SimWindow :=
  mkSimWindow 4 true "gwincc" 0 1 (0, 0, 10, 10) false.

Definition desk : SimHost :=
  host_with [sim_hidden; sim_untitled; sim_tool; sim_own;
             sim_editor (100, 100, 1100, 600)] true.

(** A second window, handle 7. *)
Definition installer : Window :=
  mkWindow 200 (mkProcess 200 (Raise NoSuchProcess)) 7 "Installer" t0.

(** The heap behind [store_editor]. *)
Definition heap_editor : gmap positive WindowState :=
  {[ 1%positive := WindowState_new ]}.

Definition click_pin : Z -> Button -> bool := fun h b =>
  match b with BtnPin => h =? 42 | _ => false end.

(** Turns of the worker: a quiet one, one that sees the flag, one
    whose enumeration fails. *)
Definition turn_quiet : Cycle := mkCycle false host false.
Definition turn_cancelled : Cycle := mkCycle true host false.
Definition turn_failing : Cycle := mkCycle false host_enum_fails false.
End Scenes.

(** * Facts about binary64 arithmetic

    [SpecFloat] rounds by shifting the significand and inspecting the bits
    shifted out.  The lemmas below bound what a rounding returns by the
    representable numbers around the exact value, and derive from that the
    exactness and range facts the geometry code relies on. *)

Module FloatFacts.
Import PyFloat.

Lemma fexp_eq p : SpecFloat.fexp prec emax p = fexp p.
Proof. reflexivity. Qed.

Lemma digits2_pos_size p : digits2_pos p = Pos.size p.
Proof. induction p; simpl; congruence. Qed.

Lemma Zdigits2_log2 m : 0 < m -> Zdigits2 m = Z.log2 m + 1.
Proof.
destruct m as [|p|p]; try lia. intros _. simpl.
rewrite digits2_pos_size. destruct p; simpl; lia.
Qed.

Lemma Zdigits2_bounds m : 0 < m -> 2 ^ (Zdigits2 m - 1) <= m < 2 ^ Zdigits2 m.
Proof.
intros H. rewrite Zdigits2_log2 by done.
replace (Z.log2 m + 1 - 1) with (Z.log2 m) by lia.
replace (Z.log2 m + 1) with (Z.succ (Z.log2 m)) by lia.
apply Z.log2_spec; done.
Qed.

Lemma Zdigits2_pos m : 0 < m -> 0 < Zdigits2 m.
Proof. intros H. rewrite Zdigits2_log2 by done. pose proof (Z.log2_nonneg m). lia. Qed.

Lemma Zdigits2_0 : Zdigits2 0 = 0.
Proof. reflexivity. Qed.

(* upper bound on digits from value bound *)
Lemma Zdigits2_le m k : 0 < m -> m < 2 ^ k -> Zdigits2 m <= k.
Proof.
intros Hm Hk. rewrite Zdigits2_log2 by done.
assert (0 <= k) by (destruct (Z.le_gt_cases 0 k); [done|]; rewrite Z.pow_neg_r in Hk; lia).
enough (Z.log2 m < k) by lia. apply Z.log2_lt_pow2; done.
Qed.

Lemma Zdigits2_ge m k : 0 <= k -> 2 ^ k <= m -> k + 1 <= Zdigits2 m.
Proof.
intros Hk Hm. assert (0 < m) by (pose proof (Z.pow_pos_nonneg 2 k); lia).
rewrite Zdigits2_log2 by done.
enough (k <= Z.log2 m) by lia. apply Z.log2_le_pow2; done.
Qed.

Lemma iter_pos_nat {A} (f : A -> A) p x :
SpecFloat.iter_pos f p x = Nat.iter (Pos.to_nat p) f x.
Proof.
revert x. induction p as [p IH|p IH|]; intros x; cbn [SpecFloat.iter_pos].
- rewrite !IH. rewrite Pos2Nat.inj_xI.
  replace (S (2 * Pos.to_nat p)) with (Pos.to_nat p + (Pos.to_nat p + 1))%nat by lia.
  rewrite !Nat.iter_add. reflexivity.
- rewrite !IH. rewrite Pos2Nat.inj_xO.
  replace (2 * Pos.to_nat p)%nat with (Pos.to_nat p + Pos.to_nat p)%nat by lia.
  rewrite Nat.iter_add. reflexivity.
- reflexivity.
Qed.

Lemma shr_1_m r : 0 <= shr_m r -> shr_m (shr_1 r) = shr_m r / 2.
Proof.
destruct r as [m r s]; cbn [shr_m]. intros H.
destruct m as [|[p|p|]|p]; cbn [shr_1 shr_m]; try lia.
- reflexivity.
- apply Z.div_unique with 1; lia.
- apply Z.div_unique with 0; lia.
- reflexivity.
Qed.

Lemma shr_1_exact r :
0 <= shr_m r -> rec_exact r -> shr_m r mod 2 = 0 -> rec_exact (shr_1 r).
Proof.
destruct r as [m r s]; unfold rec_exact; cbn [shr_m shr_r shr_s].
intros H [-> ->] Hm.
destruct m as [|[p|p|]|p]; cbn [shr_1 shr_m shr_r shr_s orb]; try lia; try done.
exfalso. rewrite Pos2Z.inj_xI in Hm. rewrite Z.add_comm, Z.mul_comm in Hm.
rewrite Z.mod_add in Hm by lia. done.
Qed.

Lemma shr_iter_m k r :
0 <= shr_m r -> shr_m (Nat.iter k shr_1 r) = shr_m r / 2 ^ Z.of_nat k.
Proof.
intros H. induction k as [|k IH].
- simpl. rewrite Z.div_1_r. done.
- rewrite Nat2Z.inj_succ, Z.pow_succ_r by lia. simpl.
  rewrite shr_1_m; rewrite IH.
  + rewrite Z.div_div by lia. f_equal. lia.
  + apply Z.div_pos; lia.
Qed.

Lemma shr_iter_exact k r :
0 <= shr_m r -> rec_exact r -> shr_m r mod 2 ^ Z.of_nat k = 0 ->
rec_exact (Nat.iter k shr_1 r).
Proof.
intros H Hex. induction k as [|k IH]; intros Hm.
- done.
- rewrite Nat2Z.inj_succ, Z.pow_succ_r in Hm by lia.
  assert (Hk : shr_m r mod 2 ^ Z.of_nat k = 0).
  { apply Z.mod_divide in Hm; [|lia]. destruct Hm as [c Hc].
    apply Z.mod_divide; [lia|]. exists (c * 2). lia. }
  simpl. apply shr_1_exact.
  + rewrite shr_iter_m by done. apply Z.div_pos; lia.
  + auto.
  + rewrite shr_iter_m by done.
    apply Z.mod_divide in Hm; [|lia]. destruct Hm as [c Hc].
    rewrite Hc. replace (c * (2 * 2 ^ Z.of_nat k)) with ((c * 2) * 2 ^ Z.of_nat k) by lia.
    rewrite Z.div_mul by lia. apply Z.mod_mul. lia.
Qed.

Lemma shr_spec mrs e n :
0 <= shr_m mrs ->
exists mrs', shr mrs e n = (mrs', e + Z.max n 0)
  /\ shr_m mrs' = shr_m mrs / 2 ^ Z.max n 0
  /\ (rec_exact mrs -> shr_m mrs mod 2 ^ Z.max n 0 = 0 -> rec_exact mrs').
Proof.
intros H. destruct n as [|p|p]; cbn [shr].
- exists mrs. rewrite Z.max_r by lia. rewrite Z.add_0_r, Z.div_1_r. auto.
- exists (SpecFloat.iter_pos shr_1 p mrs). rewrite Z.max_l by lia.
  rewrite iter_pos_nat. rewrite <- (positive_nat_Z p).
  split; [done|]. split.
  + apply shr_iter_m; done.
  + apply shr_iter_exact; done.
- exists mrs. rewrite Z.max_r by lia. rewrite Z.add_0_r, Z.div_1_r. auto.
Qed.

Lemma shr_record_of_loc_m m l : shr_m (shr_record_of_loc m l) = m.
Proof. destruct l as [|[]]; reflexivity. Qed.

Lemma shr_record_of_loc_exact m : rec_exact (shr_record_of_loc m loc_Exact).
Proof. split; reflexivity. Qed.

Lemma round_nearest_even_bounds mrs :
let m' := round_nearest_even (shr_m mrs) (loc_of_shr_record mrs) in
shr_m mrs <= m' <= shr_m mrs + 1 /\ (rec_exact mrs -> m' = shr_m mrs).
Proof.
destruct mrs as [m r s]; unfold rec_exact; cbn [shr_m shr_r shr_s].
destruct r, s; cbn [loc_of_shr_record round_nearest_even];
  try destruct (Z.even m); split; try lia; intros [? ?]; congruence.
Qed.

Lemma scale_ge_emin m e : emin <= scale m e.
Proof. unfold scale, fexp. lia. Qed.

(** After the first shift the significand fits in 53 bits. *)
Lemma shifted_lt m e :
0 <= m -> m / 2 ^ (scale m e - e) < 2 ^ 53.
Proof.
intros Hm. assert (Hs : 0 <= scale m e - e) by (unfold scale; lia).
destruct (Z.eq_dec m 0) as [->|Hne].
{ rewrite Z.div_0_l; [lia|]. pose proof (Z.pow_pos_nonneg 2 (scale 0 e - e)). lia. }
assert (Hpos : 0 < m) by lia.
pose proof (Zdigits2_bounds m Hpos) as [_ Hd].
apply Z.div_lt_upper_bound; [apply Z.pow_pos_nonneg; lia|].
rewrite <- Z.pow_add_r by lia.
eapply Z.lt_le_trans; [exact Hd|].
apply Z.pow_le_mono_r; [lia|]. unfold scale, fexp. lia.
Qed.

Lemma binary_round_aux_spec s m e l :
0 <= m ->
exists m2,
  m / 2 ^ (scale m e - e) <= m2 <= m / 2 ^ (scale m e - e) + 1
  /\ (l = loc_Exact -> m mod 2 ^ (scale m e - e) = 0 -> m2 = m / 2 ^ (scale m e - e))
  /\ binary_round_aux prec emax s m e l
     = pack s (renorm m2 (scale m e)).1 (renorm m2 (scale m e)).2.
Proof.
intros Hm. unfold binary_round_aux, shr_fexp.
rewrite !fexp_eq.
destruct (shr_spec (shr_record_of_loc m l) e (fexp (Zdigits2 m + e) - e))
  as (mrs1 & E1 & Hm1 & Hex1).
{ rewrite shr_record_of_loc_m. done. }
rewrite shr_record_of_loc_m in Hm1, Hex1.
replace (e + Z.max (fexp (Zdigits2 m + e) - e) 0) with (scale m e) in E1
  by (unfold scale; lia).
replace (Z.max (fexp (Zdigits2 m + e) - e) 0) with (scale m e - e) in Hm1, Hex1
  by (unfold scale; lia).
rewrite E1. cbv beta iota zeta.
pose proof (round_nearest_even_bounds mrs1) as [Hb Hexact]. cbv zeta in Hb, Hexact.
set (m2 := round_nearest_even (shr_m mrs1) (loc_of_shr_record mrs1)) in *.
rewrite Hm1 in Hb, Hexact.
exists m2. split; [done|]. split.
{ intros -> Hmod. apply Hexact. apply Hex1; [|done]. apply shr_record_of_loc_exact. }
pose proof (shifted_lt m e Hm) as Hlt.
assert (H0 : 0 <= m / 2 ^ (scale m e - e)).
{ apply Z.div_pos; [done|]. apply Z.pow_pos_nonneg; [lia|]. unfold scale; lia. }
pose proof (scale_ge_emin m e) as Hge.
destruct (shr_spec (shr_record_of_loc m2 loc_Exact) (scale m e)
            (fexp (Zdigits2 m2 + scale m e) - scale m e)) as (mrs2 & E2 & Hm2 & _).
{ cbn. lia. }
change (SpecFloat.fexp prec emax) with fexp.
rewrite E2. cbv beta iota zeta. cbn [shr_record_of_loc shr_m] in Hm2. rewrite Hm2.
unfold renorm.
destruct (Z.ltb_spec m2 (2 ^ 53)) as [Hsmall|Hbig]; cbn [fst snd].
- assert (Hsh : Z.max (fexp (Zdigits2 m2 + scale m e) - scale m e) 0 = 0).
  { destruct (Z.eq_dec m2 0) as [->|]; [rewrite Zdigits2_0; unfold fexp; lia|].
    pose proof (Zdigits2_le m2 53 ltac:(lia) Hsmall). unfold fexp. lia. }
  rewrite Hsh. rewrite Z.div_1_r, Z.add_0_r. unfold pack.
  destruct m2; try lia; reflexivity.
- assert (m2 = 2 ^ 53) as -> by lia.
  assert (Hsh : Z.max (fexp (Zdigits2 (2 ^ 53) + scale m e) - scale m e) 0 = 1).
  { change (Zdigits2 (2 ^ 53)) with 54. unfold fexp. lia. }
  rewrite Hsh. reflexivity.
Qed.

Lemma pow2_pos k : 0 <= k -> 0 < 2 ^ k.
Proof. intros. apply Z.pow_pos_nonneg; lia. Qed.

Lemma pow2_split a b : 0 <= a -> 0 <= b -> 2 ^ (a + b) = 2 ^ a * 2 ^ b.
Proof. intros. apply Z.pow_add_r; lia. Qed.

Lemma pack_renorm s m2 sc :
0 <= m2 <= 2 ^ 53 -> emin <= sc ->
let f := pack s (renorm m2 sc).1 (renorm m2 sc).2 in
f = S754_infinity s
\/ (finite f /\ units f = cond_Zopp s (m2 * 2 ^ (sc + 1074)) /\ sign_of f = s).
Proof.
intros Hm Hsc. unfold renorm. unfold emin in *.
destruct (Z.ltb_spec m2 (2 ^ 53)) as [Hlt|Hge]; cbn [fst snd]; cbv zeta.
- destruct m2 as [|p|p]; try lia.
  + right. cbn. destruct s; done.
  + unfold pack. destruct (Z.leb_spec sc 971); [right|left; done].
    cbn [finite units sign_of]. unfold emin. repeat split; lia.
- assert (m2 = 2 ^ 53) as -> by lia.
  change (2 ^ 53 / 2) with (Zpos (2 ^ 52)%positive). unfold pack.
  destruct (Z.leb_spec (sc + 1) 971); [right|left; done].
  cbn [finite units sign_of]. unfold emin. repeat split; try lia.
  f_equal. replace (sc + 1 + 1074) with (1 + (sc + 1074)) by lia.
  rewrite pow2_split by lia. change (2 ^ 53) with (Z.pos (2 ^ 52) * 2 ^ 1). lia.
Qed.

Lemma pack_renorm_finite s m2 sc :
0 <= m2 <= 2 ^ 53 -> emin <= sc -> (renorm m2 sc).2 <= 971 ->
let f := pack s (renorm m2 sc).1 (renorm m2 sc).2 in
finite f /\ units f = cond_Zopp s (m2 * 2 ^ (sc + 1074)) /\ sign_of f = s.
Proof.
intros Hm Hsc Hov. cbv zeta.
destruct (pack_renorm s m2 sc Hm Hsc) as [Hinf|H]; [|exact H].
exfalso. revert Hinf Hov. unfold renorm, pack.
destruct (m2 <? 2 ^ 53); cbn [fst snd].
- destruct m2; try done. destruct (Z.leb_spec sc 971); [done|lia].
- destruct (m2 / 2); try done. destruct (Z.leb_spec (sc + 1) 971); [done|lia].
Qed.

Lemma scale_le m e j :
0 <= m -> e <= j -> emin <= j -> m < 2 ^ (53 + j - e) -> scale m e <= j.
Proof.
intros Hm He Hj Hlt. unfold scale, fexp.
destruct (Z.eq_dec m 0) as [->|Hne]; [rewrite Zdigits2_0; lia|].
pose proof (Zdigits2_le m (53 + j - e) ltac:(lia) Hlt). lia.
Qed.

Lemma div_pow2_le m n K :
0 <= n -> m <= K * 2 ^ n -> m / 2 ^ n <= K.
Proof.
intros Hn H. pose proof (pow2_pos n Hn).
apply Z.div_le_upper_bound; [done|]. lia.
Qed.

Lemma div_pow2_lt m n K :
0 <= n -> m < K * 2 ^ n -> m / 2 ^ n < K.
Proof.
intros Hn H. pose proof (pow2_pos n Hn).
apply Z.div_lt_upper_bound; [done|]. lia.
Qed.

Lemma div_pow2_exact m K n :
0 <= n -> m = K * 2 ^ n -> m / 2 ^ n = K /\ m mod 2 ^ n = 0.
Proof.
intros Hn ->. pose proof (pow2_pos n Hn). split.
- apply Z.div_mul; lia.
- apply Z.mod_mul; lia.
Qed.

(** Upper bound of a rounding by a representable number [K * 2^j]. *)
Lemma binary_round_aux_le s m e l K j :
0 <= m -> 0 < K < 2 ^ 53 -> emin <= j <= 971 -> e <= j ->
(if l is loc_Exact then m else m + 1) <= K * 2 ^ (j - e) ->
let f := binary_round_aux prec emax s m e l in
finite f /\ sign_of f = s /\ Z.abs (units f) <= K * 2 ^ (j + 1074)
/\ (l = loc_Exact -> m = K * 2 ^ (j - e) -> Z.abs (units f) = K * 2 ^ (j + 1074)).
Proof.
intros Hm HK Hj He HX. cbv zeta.
destruct (binary_round_aux_spec s m e l Hm) as (m2 & Hb & Hex & ->).
assert (Hmle : m <= K * 2 ^ (j - e)) by (destruct l; lia).
pose proof (pow2_pos (j - e) ltac:(lia)) as Hp1.
assert (Hsc : scale m e <= j).
{ apply scale_le; try lia.
  replace (53 + j - e) with (53 + (j - e)) by lia. rewrite pow2_split by lia. nia. }
pose proof (scale_ge_emin m e) as Hge.
assert (Hse : e <= scale m e) by (unfold scale; lia).
set (sc := scale m e) in *. set (n := sc - e) in *.
set (K' := K * 2 ^ (j - sc)).
assert (HK' : K * 2 ^ (j - e) = K' * 2 ^ n).
{ unfold K', n. replace (j - e) with ((j - sc) + (sc - e)) by lia.
  rewrite pow2_split by lia. lia. }
pose proof (pow2_pos n ltac:(unfold n; lia)) as Hpn.
pose proof (pow2_pos (j - sc) ltac:(lia)) as Hpj.
assert (H0 : 0 <= m / 2 ^ n) by (apply Z.div_pos; lia).
assert (Hm2 : m2 <= K').
{ destruct (Z.eq_dec (m / 2 ^ n) K') as [Heq|Hne].
  - destruct l.
    + assert (Hmeq : m = K' * 2 ^ n).
      { pose proof (Z.mul_div_le m (2 ^ n) Hpn). nia. }
      destruct (div_pow2_exact m K' n ltac:(unfold n; lia) Hmeq) as [E1 E2].
      rewrite Hex; [lia|done|done].
    + exfalso. assert (m / 2 ^ n < K'); [|lia].
      apply div_pow2_lt; [unfold n; lia|]. lia.
  - assert (m / 2 ^ n <= K'); [|lia].
    apply div_pow2_le; [unfold n; lia|]. lia. }
assert (Hm2' : 0 <= m2 <= 2 ^ 53).
{ split; [lia|]. pose proof (shifted_lt m e Hm). fold sc n in H. lia. }
assert (Hov : (renorm m2 sc).2 <= 971).
{ unfold renorm. destruct (Z.ltb_spec m2 (2 ^ 53)); cbn [snd]; [lia|].
  assert (sc <> j); [|lia]. intros ->. unfold K' in Hm2.
  rewrite Z.sub_diag in Hm2. lia. }
destruct (pack_renorm_finite s m2 sc Hm2' Hge Hov) as (Hf & Hu & Hs).
split; [done|]. split; [done|].
assert (Habs : Z.abs (cond_Zopp s (m2 * 2 ^ (sc + 1074))) = m2 * 2 ^ (sc + 1074)).
{ pose proof (pow2_pos (sc + 1074) ltac:(unfold emin in *; lia)).
  destruct s; cbn [cond_Zopp]; nia. }
assert (HKj : K * 2 ^ (j + 1074) = K' * 2 ^ (sc + 1074)).
{ unfold K'. replace (j + 1074) with ((j - sc) + (sc + 1074)) by lia.
  rewrite pow2_split by (unfold emin in *; lia). lia. }
rewrite Hu, Habs, HKj.
pose proof (pow2_pos (sc + 1074) ltac:(unfold emin in *; lia)).
split; [nia|].
intros Hl Hmeq. rewrite HK' in Hmeq.
destruct (div_pow2_exact m K' n ltac:(unfold n; lia) Hmeq) as [E1 E2].
rewrite (Hex Hl E2), E1. done.
Qed.

Lemma abs_cond_Zopp s x : 0 <= x -> Z.abs (cond_Zopp s x) = x.
Proof. destruct s; cbn [cond_Zopp]; lia. Qed.

(** A normalized significand below a representable bound has the finer
  exponent. *)
Lemma normalized_le m e K j t :
0 < m -> normalized m e -> 0 < K < 2 ^ 53 -> emin <= j ->
t <= e -> t <= j -> m * 2 ^ (e - t) <= K * 2 ^ (j - t) -> e <= j.
Proof.
intros Hm Hn HK Hj Hte Htj Hle. unfold normalized, fexp in Hn.
destruct (Z.le_gt_cases e j) as [|Hgt]; [done|exfalso].
assert (Hd : 53 <= Zdigits2 m) by (clear Hle HK; lia).
pose proof (Zdigits2_bounds m Hm) as [Hlo _].
assert (2 ^ 52 <= m).
{ eapply Z.le_trans; [|exact Hlo]. apply Z.pow_le_mono_r; lia. }
replace (e - t) with ((e - j) + (j - t)) in Hle by lia.
rewrite pow2_split in Hle by lia.
pose proof (pow2_pos (j - t) ltac:(lia)).
assert (2 ^ 1 <= 2 ^ (e - j)) by (apply Z.pow_le_mono_r; lia).
change (2 ^ 1) with 2 in *.
assert (m * 2 ^ (e - j) <= K).
{ apply (Z.mul_le_mono_pos_r _ _ (2 ^ (j - t))); [done|lia]. }
change (2 ^ 52) with 4503599627370496 in *.
change (2 ^ 53) with 9007199254740992 in *. nia.
Qed.

(** Lower bound of a rounding by a power of two. *)
Lemma binary_round_aux_ge s m e l c t :
0 < m -> normalized m e -> emin <= c -> t <= e -> t <= c ->
2 ^ (c - t) <= m * 2 ^ (e - t) ->
let f := binary_round_aux prec emax s m e l in
finite f -> 2 ^ (c + 1074) <= Z.abs (units f).
Proof.
intros Hm Hn Hc Hte Htc Hle. cbv zeta.
destruct (binary_round_aux_spec s m e l ltac:(lia)) as (m2 & Hb & _ & ->).
pose proof (scale_ge_emin m e) as Hge.
assert (Hsc : scale m e = fexp (Zdigits2 m + e)) by (unfold scale, normalized in *; lia).
assert (Hse : e <= scale m e) by (unfold scale; lia).
set (sc := scale m e) in *.
pose proof (pow2_pos (sc - e) ltac:(lia)) as Hpn.
assert (H0 : 0 <= m / 2 ^ (sc - e)) by (apply Z.div_pos; lia).
assert (Hm2' : 0 <= m2 <= 2 ^ 53).
{ split; [lia|]. pose proof (shifted_lt m e ltac:(lia)). fold sc in H. lia. }
intros Hfin.
destruct (pack_renorm s m2 sc Hm2' Hge) as [Hinf|(_ & Hu & _)].
{ rewrite Hinf in Hfin. done. }
rewrite Hu. rewrite abs_cond_Zopp.
2:{ pose proof (pow2_pos (sc + 1074) ltac:(unfold emin in *; lia)). nia. }
pose proof (pow2_pos (sc + 1074) ltac:(unfold emin in *; lia)) as Hps.
destruct (Z.le_gt_cases sc c) as [Hle'|Hgt].
- assert (Hme : 2 ^ (c - e) <= m).
  { pose proof (pow2_pos (e - t) ltac:(lia)).
    replace (c - t) with ((c - e) + (e - t)) in Hle by lia.
    rewrite (pow2_split (c - e) (e - t)) in Hle by lia. nia. }
  assert (2 ^ (c - sc) <= m / 2 ^ (sc - e)).
  { apply Z.div_le_lower_bound; [done|].
    rewrite <- (pow2_split (sc - e) (c - sc)) by lia.
    replace (sc - e + (c - sc)) with (c - e) by lia. done. }
  replace (c + 1074) with ((c - sc) + (sc + 1074)) by lia.
  rewrite (pow2_split (c - sc) (sc + 1074)) by (unfold emin in *; lia). nia.
- assert (Hsc' : sc = Zdigits2 m + e - 53) by (unfold fexp in Hsc; lia).
  pose proof (Zdigits2_bounds m Hm) as [Hlo _].
  assert (2 ^ 52 <= m / 2 ^ (sc - e)).
  { apply Z.div_le_lower_bound; [done|].
    rewrite <- (pow2_split (sc - e) 52) by lia.
    replace (sc - e + 52) with (Zdigits2 m - 1) by lia. done. }
  assert (2 ^ (c + 1074) <= 2 ^ 52 * 2 ^ (sc + 1074)).
  { rewrite <- (pow2_split 52 (sc + 1074)) by (unfold emin in *; lia).
    apply Z.pow_le_mono_r; unfold emin in *; lia. }
  nia.
Qed.

Lemma shiftl_scaled m e k :
0 <= k -> - k <= e -> Z.shiftl m e = (m * 2 ^ (e + k)) / 2 ^ k.
Proof.
intros Hk He. pose proof (pow2_pos k Hk).
destruct (Z.le_gt_cases 0 e).
- rewrite Z.shiftl_mul_pow2 by done. rewrite pow2_split by lia.
  rewrite Z.mul_assoc. rewrite Z.div_mul; [done|lia].
- rewrite Z.shiftl_div_pow2 by lia.
  pose proof (pow2_pos (- e) ltac:(lia)). pose proof (pow2_pos (e + k) ltac:(lia)).
  assert (E : 2 ^ k = 2 ^ (- e) * 2 ^ (e + k)).
  { rewrite <- pow2_split by lia. f_equal. lia. }
  rewrite E. rewrite Z.div_mul_cancel_r by lia. done.
Qed.

Lemma unity_pos : 0 < unity.
Proof. reflexivity. Qed.

Lemma half_pos : 0 < half.
Proof. reflexivity. Qed.

Lemma unity_half : unity = 2 * half.
Proof. reflexivity. Qed.

Lemma to_int_units f :
finite f -> to_int f = Ok (Z.quot (units f) unity).
Proof.
destruct f as [s|s| |s m e]; cbn [finite to_int units]; try done.
intros [Hm [He _]]. f_equal. unfold emin in He.
rewrite (shiftl_scaled (Zpos m) e 1074) by lia.
pose proof (pow2_pos (e + 1074) ltac:(lia)).
change (2 ^ 1074) with unity. pose proof unity_pos.
destruct s; cbn [cond_Zopp].
- rewrite Z.quot_opp_l by lia.
  rewrite Z.quot_div_nonneg by nia. lia.
- rewrite Z.quot_div_nonneg by nia. lia.
Qed.

Lemma Pos_iter_xO p d : Zpos (Pos.iter xO p d) = Zpos p * 2 ^ Zpos d.
Proof.
induction d as [|d IH] using Pos.peano_ind.
- cbn. lia.
- rewrite Pos.iter_succ. rewrite Pos2Z.inj_xO, IH.
  rewrite Pos2Z.inj_succ. rewrite Z.pow_succ_r by lia. lia.
Qed.

Lemma Zdigits2_mul_pow2 m k :
0 < m -> 0 <= k -> Zdigits2 (m * 2 ^ k) = Zdigits2 m + k.
Proof.
intros Hm Hk. pose proof (pow2_pos k Hk).
rewrite !Zdigits2_log2 by nia. rewrite Z.log2_mul_pow2 by lia. lia.
Qed.

Lemma binary_round_spec s p e :
exists mz ez,
  binary_round prec emax s p e = binary_round_aux prec emax s mz ez loc_Exact
  /\ 0 < mz /\ ez = Z.min e (fexp (Zdigits2 (Zpos p) + e))
  /\ mz = Zpos p * 2 ^ (e - ez) /\ normalized mz ez.
Proof.
unfold binary_round, shl_align. change (SpecFloat.fexp prec emax) with fexp.
change (Z.pos (digits2_pos p)) with (Zdigits2 (Zpos p)).
set (e0 := fexp (Zdigits2 (Zpos p) + e)).
destruct (e0 - e) as [|d|d] eqn:Hd.
- exists (Zpos p), e. rewrite Z.sub_diag, Z.mul_1_r.
  repeat split; try lia. unfold normalized. fold e0. lia.
- exists (Zpos p), e. rewrite Z.sub_diag, Z.mul_1_r.
  repeat split; try lia. unfold normalized. fold e0. lia.
- exists (Zpos (Pos.iter xO p d)), e0.
  assert (Hed : e - e0 = Zpos d) by lia.
  rewrite Pos_iter_xO, Hed. repeat split; try lia.
  unfold normalized. rewrite Zdigits2_mul_pow2 by lia.
  replace (Zdigits2 (Z.pos p) + Z.pos d + e0) with (Zdigits2 (Z.pos p) + e) by lia.
  fold e0. lia.
Qed.

Lemma units_sign f : units f = cond_Zopp (sign_of f) (Z.abs (units f)).
Proof.
destruct f as [s|s| |s m e]; cbn [units sign_of]; try done; try (destruct s; done).
rewrite abs_cond_Zopp; [done|]. pose proof (Z.pow_nonneg 2 (e + 1074)). lia.
Qed.

Lemma mul_pow2_cancel_le a b k : 0 <= k -> a * 2 ^ k <= b * 2 ^ k -> a <= b.
Proof. intros Hk H. pose proof (pow2_pos k Hk). nia. Qed.

Lemma mul_pow2_cancel_eq a b k : 0 <= k -> a * 2 ^ k = b * 2 ^ k -> a = b.
Proof. intros Hk H. pose proof (pow2_pos k Hk). nia. Qed.

Lemma binary_round_le s p e K j :
emin <= e -> 0 < K < 2 ^ 53 -> emin <= j <= 971 ->
Zpos p * 2 ^ (e + 1074) <= K * 2 ^ (j + 1074) ->
let f := binary_round prec emax s p e in
finite f /\ sign_of f = s /\ Z.abs (units f) <= K * 2 ^ (j + 1074)
/\ (Zpos p * 2 ^ (e + 1074) = K * 2 ^ (j + 1074) ->
    Z.abs (units f) = K * 2 ^ (j + 1074)).
Proof.
intros He HK Hj Hle. cbv zeta.
destruct (binary_round_spec s p e) as (mz & ez & -> & Hmz & Hez & Hmz' & Hn).
assert (Hez1 : emin <= ez) by (unfold fexp in Hez; lia).
assert (Hez2 : ez <= e) by lia.
clear Hez. unfold emin in *.
assert (Hval : mz * 2 ^ (ez + 1074) = Zpos p * 2 ^ (e + 1074)).
{ rewrite Hmz'. replace (e + 1074) with ((e - ez) + (ez + 1074)) by lia.
  rewrite (pow2_split (e - ez) (ez + 1074)) by lia. ring. }
assert (Hezj : ez <= j).
{ apply (normalized_le mz ez K j (-1074)); try done; try (unfold emin; lia).
  replace (ez - -1074) with (ez + 1074) by lia.
  replace (j - -1074) with (j + 1074) by lia. lia. }
assert (Hsplit : K * 2 ^ (j + 1074) = K * 2 ^ (j - ez) * 2 ^ (ez + 1074)).
{ replace (j + 1074) with ((j - ez) + (ez + 1074)) by lia.
  rewrite pow2_split by lia. lia. }
destruct (binary_round_aux_le s mz ez loc_Exact K j) as (Hf & Hs & Hu & Hex);
  try done; try (unfold emin; lia).
{ apply (mul_pow2_cancel_le _ _ (ez + 1074)); lia. }
repeat split; try done.
intros Heq. apply Hex; [done|].
apply (mul_pow2_cancel_eq _ _ (ez + 1074)); lia.
Qed.

(** [binary_normalize] of an integer significand bounded by a
  representable number, with the exact case. *)
Lemma binary_normalize_le n e K j :
emin <= e -> 0 < K < 2 ^ 53 -> emin <= j <= 971 ->
Z.abs n * 2 ^ (e + 1074) <= K * 2 ^ (j + 1074) ->
let f := binary_normalize prec emax n e false in
finite f /\ sign_of f = (n <? 0) /\ Z.abs (units f) <= K * 2 ^ (j + 1074)
/\ (Z.abs n * 2 ^ (e + 1074) = K * 2 ^ (j + 1074) -> units f = n * 2 ^ (e + 1074)).
Proof.
intros He HK Hj Hle. cbv zeta. unfold emin in *.
pose proof (pow2_pos (e + 1074) ltac:(lia)) as Hpe.
pose proof (pow2_pos (j + 1074) ltac:(lia)) as Hpj.
destruct n as [|p|p]; cbn [binary_normalize].
- cbn. split; [done|]. split; [done|]. split; [nia|]. intros; lia.
- destruct (binary_round_le false p e K j) as (Hf & Hs & Hu & Hex);
    try done; try (unfold emin; lia).
  repeat split; try done. intros Heq.
  rewrite units_sign, Hs, Hex by lia. cbn [cond_Zopp]. lia.
- destruct (binary_round_le true p e K j) as (Hf & Hs & Hu & Hex);
    try done; try (unfold emin; lia).
  repeat split; try done. intros Heq.
  rewrite units_sign, Hs, Hex by lia. cbn [cond_Zopp]. lia.
Qed.

(** [float(n)] is exact below [2^53]. *)
Lemma of_int_exact n :
Z.abs n < 2 ^ 53 ->
exists f, of_int n = Ok f /\ finite f /\ sign_of f = (n <? 0)
          /\ units f = n * unity.
Proof.
intros Hn. unfold of_int.
destruct (Z.eq_dec n 0) as [->|Hne].
{ exists (S754_zero false). cbn. done. }
destruct (binary_normalize_le n 0 (Z.abs n) 0) as (Hf & Hs & _ & Hex);
  try (unfold emin; lia).
specialize (Hex eq_refl). change (2 ^ (0 + 1074)) with unity in Hex.
exists (binary_normalize prec emax n 0 false). split; [|done].
unfold no_overflow. destruct (binary_normalize prec emax n 0 false); done.
Qed.

Lemma shl_align_fst mx ex ez :
ez <= ex -> Zpos (shl_align mx ex ez).1 = Zpos mx * 2 ^ (ex - ez).
Proof.
intros H. unfold shl_align.
destruct (ez - ex) as [|d|d] eqn:Hd; cbn [fst].
- replace (ex - ez) with 0 by lia. lia.
- lia.
- rewrite Pos_iter_xO. f_equal. f_equal. lia.
Qed.

Lemma units_finite s m e :
emin <= e -> units (S754_finite s m e) = cond_Zopp s (Zpos m * 2 ^ (e + 1074)).
Proof. reflexivity. Qed.

Lemma cond_Zopp_mul s a b : cond_Zopp s a * b = cond_Zopp s (a * b).
Proof. destruct s; cbn [cond_Zopp]; lia. Qed.

(** Addition: bounded by a representable number, exact when the sum is
  representable. *)
Lemma add_le x y K j :
finite x -> finite y -> 0 < K < 2 ^ 53 -> emin <= j <= 971 ->
Z.abs (units x + units y) <= K * 2 ^ (j + 1074) ->
finite (add x y) /\ Z.abs (units (add x y)) <= K * 2 ^ (j + 1074)
/\ (Z.abs (units x + units y) = K * 2 ^ (j + 1074) \/ units x + units y = 0 ->
    units (add x y) = units x + units y).
Proof.
intros Hx Hy HK Hj Hle. unfold add.
destruct x as [sx|sx| |sx mx ex]; try done.
{ destruct y as [sy|sy| |sy my ey]; try done; cbn [SFadd].
  destruct sx, sy; cbn; repeat split; try lia. }
destruct y as [sy|sy| |sy my ey]; try done.
- cbn [SFadd]. cbn [units] in *. rewrite ?Z.add_0_r in *. split; [exact Hx|]. split; done.
- cbn [SFadd]. destruct Hx as [Hmx [Hex1 Hex2]]. destruct Hy as [Hmy [Hey1 Hey2]].
  set (ez := Z.min ex ey).
  rewrite !shl_align_fst by (unfold ez; lia).
  set (n := cond_Zopp sx (Z.pos mx * 2 ^ (ex - ez)) + cond_Zopp sy (Z.pos my * 2 ^ (ey - ez))).
  assert (Hn : n * 2 ^ (ez + 1074) = units (S754_finite sx mx ex) + units (S754_finite sy my ey)).
  { unfold n. cbn [units]. rewrite Z.mul_add_distr_r. rewrite !cond_Zopp_mul.
    rewrite <- !Z.mul_assoc.
    rewrite <- (pow2_split (ex - ez) (ez + 1074)) by (unfold ez, emin in *; lia).
    rewrite <- (pow2_split (ey - ez) (ez + 1074)) by (unfold ez, emin in *; lia).
    replace (ex - ez + (ez + 1074)) with (ex + 1074) by lia.
    replace (ey - ez + (ez + 1074)) with (ey + 1074) by lia. done. }
  rewrite <- Hn in *.
  pose proof (pow2_pos (ez + 1074) ltac:(unfold ez, emin in *; lia)) as Hp.
  assert (Habs : Z.abs (n * 2 ^ (ez + 1074)) = Z.abs n * 2 ^ (ez + 1074)).
  { rewrite Z.abs_mul. rewrite (Z.abs_eq (2 ^ _)) by lia. done. }
  rewrite Habs in *.
  destruct (binary_normalize_le n ez K j) as (Hf & _ & Hu & Hexact);
    try done; try (unfold ez, emin in *; lia).
  repeat split; try done.
  intros [Heq|H0]; [apply Hexact; done|].
  assert (n = 0) as -> by nia. cbn. done.
Qed.

(** What [0 <= r <= 1] says of a well-formed binary64 value. *)
Lemma unit_interval r :
valid_binary prec emax r = true -> leb zero r = true -> leb r one = true ->
(exists s, r = S754_zero s)
\/ (exists m e, r = S754_finite false m e /\ emin <= e <= 0 /\ Zpos m <= 2 ^ (- e)).
Proof.
unfold leb, SFleb, zero, one.
destruct r as [s|s| |s m e]; cbn [valid_binary SFcompare].
- intros _ _ _. left. eauto.
- destruct s; intros; discriminate.
- intros; discriminate.
- intros Hv H0 H1. destruct s; [discriminate|]. right. exists m, e. split; [reflexivity|].
  unfold bounded, canonical_mantissa in Hv.
  apply andb_prop in Hv as [Hc _]. apply Z.eqb_eq in Hc.
  change (SpecFloat.fexp prec emax) with fexp in Hc.
  change (Z.pos (digits2_pos m)) with (Zdigits2 (Zpos m)) in Hc.
  pose proof (Zdigits2_bounds (Zpos m) ltac:(lia)) as [_ Hd].
  destruct (Z.compare_spec e (-52)) as [->|Hlt|Hgt].
  + split; [unfold emin; lia|].
    rewrite Pos.compare_cont_spec in H1.
    replace (2 ^ (- -52)) with (Zpos 4503599627370496) by reflexivity.
    destruct (Pos.compare_spec m 4503599627370496) as [Heq|Hlt|Hgt].
    * rewrite Heq. apply Z.le_refl.
    * apply Z.lt_le_incl. exact Hlt.
    * exfalso. clear -H1. cbn [Pos.switch_Eq] in H1. discriminate H1.
  + assert (He : emin <= e) by (unfold fexp in Hc; lia).
    split; [lia|].
    assert (Zdigits2 (Zpos m) <= 53) by (unfold fexp in Hc; lia).
    assert (2 ^ Zdigits2 (Z.pos m) <= 2 ^ (- e)) by (apply Z.pow_le_mono_r; lia).
    lia.
  + discriminate.
Qed.

(** Scaling a non-negative float by a ratio in [0, 1] does not grow it. *)
Lemma mul_unit_interval x r :
finite x -> sign_of x = false ->
valid_binary prec emax r = true -> leb zero r = true -> leb r one = true ->
finite (mul x r) /\ 0 <= units (mul x r) <= units x.
Proof.
intros Hx Hs Hv H0 H1. unfold mul.
destruct (unit_interval r Hv H0 H1) as [[s ->]|(m & e & -> & He & Hm)].
- destruct x as [sx|sx| |sx mx ex]; try contradiction; cbn [SFmul finite units].
  + split; [exact I|lia].
  + cbn [sign_of] in Hs. subst sx. cbn [cond_Zopp]. split; [exact I|].
    pose proof (Z.pow_nonneg 2 (ex + 1074)). lia.
- destruct x as [sx|sx| |sx mx ex]; try contradiction; cbn [SFmul].
  + cbn [finite units]. split; [exact I|lia].
  + cbn [sign_of] in Hs. subst sx. destruct Hx as [Hmx [Hex1 Hex2]]. cbn [xorb].
    destruct (binary_round_aux_le false (Zpos (mx * m)) (ex + e) loc_Exact (Zpos mx) ex)
      as (Hf & Hsg & Hu & _); try lia.
    { replace (ex - (ex + e)) with (- e) by lia. rewrite Pos2Z.inj_mul.
      apply Z.mul_le_mono_nonneg_l; lia. }
    split; [exact Hf|].
    rewrite units_sign, Hsg. cbn [cond_Zopp units] in *. lia.
Qed.

Lemma new_location_exact n r : new_location n r = loc_Exact <-> r = 0.
Proof.
unfold new_location, new_location_even, new_location_odd.
destruct (Z.even n); destruct (Z.eqb_spec r 0); split; intros; try done.
Qed.

Lemma SFdiv_core_binary_spec m1 e1 m2 e2 :
0 < m1 -> 0 < m2 ->
let e' := Z.min (fexp (Zdigits2 m1 + e1 - (Zdigits2 m2 + e2))) (e1 - e2) in
let m' := m1 * 2 ^ (e1 - e2 - e') in
SFdiv_core_binary prec emax m1 e1 m2 e2
= (m' / m2, e', new_location m2 (m' mod m2)).
Proof.
intros H1 H2. cbv zeta. unfold SFdiv_core_binary.
change (SpecFloat.fexp prec emax) with fexp.
set (e' := Z.min (fexp (Zdigits2 m1 + e1 - (Zdigits2 m2 + e2))) (e1 - e2)).
assert (Hs : 0 <= e1 - e2 - e') by (unfold e'; lia).
set (m' := match e1 - e2 - e' with
           | 0 => m1 | Z.pos _ => Z.shiftl m1 (e1 - e2 - e') | Z.neg _ => 0 end).
assert (Hm' : m' = m1 * 2 ^ (e1 - e2 - e')).
{ unfold m'. destruct (e1 - e2 - e') as [|p|p] eqn:E.
  - rewrite Z.pow_0_r. lia.
  - rewrite Z.shiftl_mul_pow2 by lia. done.
  - lia. }
rewrite <- Hm'. unfold Z.div, Z.modulo.
destruct (Z.div_eucl m' m2) as [q r]. done.
Qed.

Lemma dyadic_le_rescale a u b v t t' :
t <= u -> t <= v -> t' <= u -> t' <= v ->
a * 2 ^ (u - t) <= b * 2 ^ (v - t) -> a * 2 ^ (u - t') <= b * 2 ^ (v - t').
Proof.
intros H1 H2 H3 H4 H.
destruct (Z.le_gt_cases t t') as [Hle|Hgt].
- replace (u - t) with ((u - t') + (t' - t)) in H by lia.
  replace (v - t) with ((v - t') + (t' - t)) in H by lia.
  rewrite (pow2_split (u - t') (t' - t)) in H by lia.
  rewrite (pow2_split (v - t') (t' - t)) in H by lia.
  pose proof (pow2_pos (t' - t) ltac:(lia)). nia.
- replace (u - t') with ((u - t) + (t - t')) by lia.
  replace (v - t') with ((v - t) + (t - t')) by lia.
  rewrite (pow2_split (u - t) (t - t')) by lia.
  rewrite (pow2_split (v - t) (t - t')) by lia.
  pose proof (pow2_pos (t - t') ltac:(lia)). nia.
Qed.

Lemma dyadic_eq_rescale a u b v t t' :
t <= u -> t <= v -> t' <= u -> t' <= v ->
a * 2 ^ (u - t) = b * 2 ^ (v - t) -> a * 2 ^ (u - t') = b * 2 ^ (v - t').
Proof.
intros H1 H2 H3 H4 H. apply Z.le_antisymm.
- apply (dyadic_le_rescale a u b v t t'); lia.
- apply (dyadic_le_rescale b v a u t t'); lia.
Qed.

Lemma pow2_lt_inv a b : 0 <= b -> 2 ^ a < 2 ^ b -> a < b.
Proof. intros Hb H. apply (Z.pow_lt_mono_r_iff 2); lia. Qed.

(** Division of finite floats: the quotient bounded above by a
  representable number. *)
Lemma SFdiv_le sx mx ex sy my ey K j t :
0 < K < 2 ^ 53 -> emin <= j <= 971 -> t <= ex -> t <= j + ey ->
Zpos mx * 2 ^ (ex - t) <= (K * Zpos my) * 2 ^ (j + ey - t) ->
let f := SFdiv prec emax (S754_finite sx mx ex) (S754_finite sy my ey) in
finite f /\ sign_of f = xorb sx sy /\ Z.abs (units f) <= K * 2 ^ (j + 1074)
/\ (Zpos mx * 2 ^ (ex - t) = (K * Zpos my) * 2 ^ (j + ey - t) ->
    Z.abs (units f) = K * 2 ^ (j + 1074)).
Proof.
intros HK Hj Ht1 Ht2 H. cbv zeta. cbn [SFdiv].
rewrite SFdiv_core_binary_spec by lia.
set (d1 := Zdigits2 (Zpos mx)). set (d2 := Zdigits2 (Zpos my)).
pose proof (Zdigits2_bounds (Zpos mx) ltac:(lia)) as [Hd1 _]. fold d1 in Hd1.
pose proof (Zdigits2_bounds (Zpos my) ltac:(lia)) as [_ Hd2]. fold d2 in Hd2.
pose proof (Zdigits2_pos (Zpos mx) ltac:(lia)) as Hd1p. fold d1 in Hd1p.
pose proof (Zdigits2_pos (Zpos my) ltac:(lia)) as Hd2p. fold d2 in Hd2p.
set (p0 := d1 + ex - (d2 + ey)).
set (e' := Z.min (fexp p0) (ex - ey)).
assert (Hp0 : p0 <= 53 + j).
{ enough (d1 - 1 + (ex - t) < 53 + d2 + (j + ey - t)) by (unfold p0; lia).
  apply pow2_lt_inv; [lia|].
  rewrite (pow2_split (d1 - 1) (ex - t)) by lia.
  rewrite (pow2_split (53 + d2) (j + ey - t)) by lia.
  rewrite (pow2_split 53 d2) by lia.
  pose proof (pow2_pos (ex - t) ltac:(lia)).
  pose proof (pow2_pos (j + ey - t) ltac:(lia)).
  pose proof (pow2_pos d2 ltac:(lia)).
  eapply Z.le_lt_trans; [apply Z.mul_le_mono_nonneg_r; [lia|exact Hd1]|].
  eapply Z.le_lt_trans; [exact H|].
  apply Z.mul_lt_mono_pos_r; [lia|]. nia. }
assert (He'j : e' <= j) by (unfold e', fexp; lia).
assert (Hs : 0 <= ex - ey - e') by (unfold e'; lia).
set (m' := Zpos mx * 2 ^ (ex - ey - e')).
pose proof (pow2_pos (ex - ey - e') Hs) as Hps.
pose proof (pow2_pos (j - e') ltac:(lia)) as Hpj.
assert (Hm'pos : 0 < m') by (unfold m'; nia).
assert (Hm' : m' <= (K * Zpos my) * 2 ^ (j - e')).
{ pose proof (dyadic_le_rescale (Zpos mx) ex (K * Zpos my) (j + ey) t (ey + e')
                ltac:(lia) ltac:(lia) ltac:(lia) ltac:(lia) H) as H'.
  replace (ex - (ey + e')) with (ex - ey - e') in H' by lia.
  replace (j + ey - (ey + e')) with (j - e') in H' by lia. exact H'. }
set (B := K * 2 ^ (j - e')).
assert (HmB : m' <= Zpos my * B) by (unfold B; lia).
pose proof (Z.div_mod m' (Zpos my) ltac:(lia)) as Hdm.
pose proof (Z.mod_pos_bound m' (Zpos my) ltac:(lia)) as Hmod.
assert (Hq0 : 0 <= m' / Zpos my) by (apply Z.div_pos; lia).
assert (HqB : m' / Zpos my <= B) by (apply Z.div_le_upper_bound; lia).
destruct (binary_round_aux_le (xorb sx sy) (m' / Zpos my) e'
            (new_location (Zpos my) (m' mod Zpos my)) K j) as (Hf & Hsg & Hu & Hex);
  try done.
{ fold B. destruct (new_location (Z.pos my) (m' mod Z.pos my)) eqn:El; [done|].
  assert (m' mod Zpos my <> 0).
  { intros E0. apply (new_location_exact (Zpos my)) in E0. congruence. }
  assert (m' / Zpos my <> B) by nia. lia. }
repeat split; try done.
intros Heq. apply Hex.
- apply new_location_exact.
  pose proof (dyadic_eq_rescale (Zpos mx) ex (K * Zpos my) (j + ey) t (ey + e')
                ltac:(lia) ltac:(lia) ltac:(lia) ltac:(lia) Heq) as H'.
  replace (ex - (ey + e')) with (ex - ey - e') in H' by lia.
  replace (j + ey - (ey + e')) with (j - e') in H' by lia.
  fold m' in H'. rewrite H'.
  replace (K * Z.pos my * 2 ^ (j - e')) with (B * Zpos my) by (unfold B; lia).
  apply Z.mod_mul. lia.
- pose proof (dyadic_eq_rescale (Zpos mx) ex (K * Zpos my) (j + ey) t (ey + e')
                ltac:(lia) ltac:(lia) ltac:(lia) ltac:(lia) Heq) as H'.
  replace (ex - (ey + e')) with (ex - ey - e') in H' by lia.
  replace (j + ey - (ey + e')) with (j - e') in H' by lia.
  fold m' in H'. rewrite H'. fold B.
  replace (K * Z.pos my * 2 ^ (j - e')) with (B * Zpos my) by (unfold B; lia).
  apply Z.div_mul. lia.
Qed.

Lemma fexp_mono a b : a <= b -> fexp a <= fexp b.
Proof. unfold fexp. lia. Qed.

(** Division of finite floats: the quotient bounded below by a power of
  two. *)
Lemma SFdiv_ge sx mx ex sy my ey c t :
emin <= c -> t <= ex -> t <= c + ey ->
Zpos my * 2 ^ (c + ey - t) <= Zpos mx * 2 ^ (ex - t) ->
let f := SFdiv prec emax (S754_finite sx mx ex) (S754_finite sy my ey) in
finite f -> 2 ^ (c + 1074) <= Z.abs (units f).
Proof.
intros Hc Ht1 Ht2 H. cbv zeta. cbn [SFdiv].
rewrite SFdiv_core_binary_spec by lia.
set (d1 := Zdigits2 (Zpos mx)). set (d2 := Zdigits2 (Zpos my)).
pose proof (Zdigits2_bounds (Zpos mx) ltac:(lia)) as [Hd1 Hd1u]. fold d1 in Hd1, Hd1u.
pose proof (Zdigits2_bounds (Zpos my) ltac:(lia)) as [Hd2l Hd2]. fold d2 in Hd2, Hd2l.
pose proof (Zdigits2_pos (Zpos mx) ltac:(lia)) as Hd1p. fold d1 in Hd1p.
pose proof (Zdigits2_pos (Zpos my) ltac:(lia)) as Hd2p. fold d2 in Hd2p.
set (p0 := d1 + ex - (d2 + ey)).
set (e' := Z.min (fexp p0) (ex - ey)).
assert (Hs : 0 <= ex - ey - e') by (unfold e'; lia).
set (m' := Zpos mx * 2 ^ (ex - ey - e')).
pose proof (pow2_pos (ex - ey - e') Hs) as Hps.
assert (Hm'pos : 0 < m') by (unfold m'; nia).
set (q := m' / Zpos my).
assert (Hm'lo : 2 ^ (d1 - 1 + (ex - ey - e')) <= m').
{ rewrite (pow2_split (d1 - 1) (ex - ey - e')) by lia. unfold m'.
  apply Z.mul_le_mono_nonneg_r; lia. }
(* the quotient is positive *)
assert (Hq : 0 < q /\ (e' <= c -> 2 ^ (c - e') <= q)).
{ destruct (Z.le_gt_cases e' c) as [Hle|Hgt].
  - assert (2 ^ (c - e') <= q).
    { apply Z.div_le_lower_bound; [lia|].
      pose proof (dyadic_le_rescale (Zpos my) (c + ey) (Zpos mx) ex t (ey + e')
                    ltac:(lia) ltac:(lia) ltac:(lia) ltac:(lia) H) as H'.
      replace (ex - (ey + e')) with (ex - ey - e') in H' by lia.
      replace (c + ey - (ey + e')) with (c - e') in H' by lia. exact H'. }
    pose proof (pow2_pos (c - e') ltac:(lia)). split; [lia|done].
  - split; [|lia].
    assert (He' : e' <= p0 - 53) by (unfold e', fexp in *; lia).
    assert (2 ^ 52 <= q); [|lia].
    apply Z.div_le_lower_bound; [lia|].
    eapply Z.le_trans; [|exact Hm'lo].
    eapply Z.le_trans; [apply Z.mul_le_mono_nonneg_r; [lia|apply Z.lt_le_incl; exact Hd2]|].
    rewrite <- (pow2_split d2 52) by lia.
    apply Z.pow_le_mono_r; [lia|]. unfold p0 in He'. lia. }
destruct Hq as [Hq0 Hqc].
(* enough digits for the target exponent *)
assert (Hnorm : normalized q e').
{ unfold normalized.
  assert (Hdq : p0 - e' <= Zdigits2 q).
  { pose proof (Zdigits2_pos q Hq0).
    destruct (Z.le_gt_cases 1 (p0 - e')) as [Hge|Hlt]; [|lia].
    enough (p0 - e' - 1 + 1 <= Zdigits2 q) by lia.
    apply Zdigits2_ge; [lia|].
    apply Z.div_le_lower_bound; [lia|].
    eapply Z.le_trans; [|exact Hm'lo].
    eapply Z.le_trans; [apply Z.mul_le_mono_nonneg_r; [apply Z.lt_le_incl, pow2_pos; lia|apply Z.lt_le_incl; exact Hd2]|].
    rewrite <- (pow2_split d2 (p0 - e' - 1)) by lia.
    apply Z.pow_le_mono_r; [lia|]. unfold p0. lia. }
  eapply Z.le_trans; [|apply (fexp_mono p0); lia]. unfold e'. lia. }
apply (binary_round_aux_ge _ q e' _ c (Z.min e' c)); try done; try lia.
destruct (Z.le_gt_cases e' c) as [Hle|Hgt].
- rewrite Z.min_l by lia. rewrite Z.sub_diag, Z.mul_1_r. auto.
- rewrite Z.min_r by lia. rewrite Z.sub_diag.
  pose proof (pow2_pos (e' - c) ltac:(lia)). change (2 ^ 0) with 1. nia.
Qed.

Lemma no_overflow_finite f : finite f -> no_overflow f = Ok f.
Proof. destruct f; cbn; done. Qed.

Lemma units_abs_finite s m e :
Z.abs (units (S754_finite s m e)) = Zpos m * 2 ^ (e + 1074).
Proof.
cbn [units]. apply abs_cond_Zopp. pose proof (Z.pow_nonneg 2 (e + 1074)). lia.
Qed.

Lemma raw_of_int_cases a :
a <> 0 -> exists p, raw_of_int a = S754_finite (a <? 0) p 0 /\ Zpos p = Z.abs a.
Proof. destruct a as [|p|p]; [done| |]; intros _; exists p; done. Qed.

Lemma cond_Zopp_neg a : cond_Zopp (a <? 0) (Z.abs a) = a.
Proof. destruct (Z.ltb_spec a 0); cbn [cond_Zopp]; lia. Qed.

(** Halving an integer below [2^53] is exact. *)
Lemma int_truediv_2_exact a :
Z.abs a < 2 ^ 53 ->
exists g, int_truediv a 2 = Ok g /\ finite g /\ units g = a * half.
Proof.
intros Ha. unfold int_truediv. cbn [Z.eqb].
destruct (Z.eq_dec a 0) as [->|Hne].
{ exists (S754_zero false). cbn. done. }
destruct (raw_of_int_cases a Hne) as (p & -> & Hp).
cbn [raw_of_int].
destruct (SFdiv_le (a <? 0) p 0 false 2 0 (Z.abs a) (-1) (-1))
  as (Hf & Hs & _ & Hex); try (unfold emin; lia).
eexists. split; [apply no_overflow_finite; exact Hf|]. split; [exact Hf|].
rewrite units_sign, Hs, Hex
  by (rewrite Hp; change (0 - -1) with 1; change (-1 + 0 - -1) with 0; lia).
rewrite xorb_false_r. change (2 ^ (-1 + 1074)) with half.
pose proof (cond_Zopp_neg a). destruct (a <? 0); cbn [cond_Zopp] in *; lia.
Qed.

Lemma quot_half n : Z.quot (n * half) unity = Z.quot n 2.
Proof.
rewrite unity_half. apply Z.quot_mul_cancel_r; [lia|]. pose proof half_pos. lia.
Qed.

(** [int(L + a / 2)] is the exact half-integer truncated toward zero. *)
Lemma center_coord L a :
Z.abs L <= 2 ^ 50 -> Z.abs a <= 2 ^ 50 ->
exists g, int_truediv a 2 = Ok g
  /\ (int_add_float L g ≫= to_int) = Ok (Z.quot (2 * L + a) 2).
Proof.
intros HL Ha.
destruct (int_truediv_2_exact a) as (g & Hg & Hfg & Hug); [lia|].
exists g. split; [exact Hg|].
destruct (of_int_exact L) as (fl & Hfl & Hffl & _ & Hufl); [lia|].
unfold int_add_float. rewrite Hfl. cbn [mbind result_bind rbind].
assert (Hsum : units fl + units g = (2 * L + a) * half).
{ rewrite Hufl, Hug, unity_half. lia. }
pose proof half_pos as Hp.
assert (Hadd : finite (add fl g) /\ units (add fl g) = units fl + units g).
{ destruct (Z.eq_dec (2 * L + a) 0) as [H0|Hne].
  - assert (Hz : units fl + units g = 0) by (rewrite Hsum, H0; lia).
    assert (Hb : Z.abs (units fl + units g) <= 1 * 2 ^ (0 + 1074)).
    { rewrite Hz. change (2 ^ (0 + 1074)) with unity. pose proof unity_pos.
      cbn [Z.abs]. lia. }
    destruct (add_le fl g 1 0 Hffl Hfg ltac:(lia) ltac:(unfold emin; lia) Hb)
      as (Hf & _ & Hex).
    split; [exact Hf|]. apply Hex. right. exact Hz.
  - assert (Hb : Z.abs (units fl + units g)
                 = Z.abs (2 * L + a) * 2 ^ (-1 + 1074)).
    { rewrite Hsum, Z.abs_mul, (Z.abs_eq half) by lia.
      change (2 ^ (-1 + 1074)) with half. reflexivity. }
    destruct (add_le fl g (Z.abs (2 * L + a)) (-1) Hffl Hfg
                ltac:(lia) ltac:(unfold emin; lia) ltac:(lia))
      as (Hf & _ & Hex).
    split; [exact Hf|]. apply Hex. left. exact Hb. }
destruct Hadd as [Hf Hu].
rewrite to_int_units by done. rewrite Hu, Hsum, quot_half. done.
Qed.

(** [int(W * ratio)] for a ratio in [0, 1] lies in [0, W]. *)
Lemma scaled_size W r :
0 <= W < 2 ^ 53 -> well_formed r -> leb zero r = true -> leb r one = true ->
exists tw, (int_mul_float W r ≫= to_int) = Ok tw /\ 0 <= tw <= W.
Proof.
intros HW Hv H0 H1.
destruct (of_int_exact W) as (fl & Hfl & Hffl & Hs & Hufl); [lia|].
unfold int_mul_float. rewrite Hfl. cbn [mbind result_bind rbind].
assert (Hsg : sign_of fl = false).
{ rewrite Hs. apply Z.ltb_ge. lia. }
destruct (mul_unit_interval fl r Hffl Hsg Hv H0 H1) as (Hf & Hlo & Hhi).
rewrite to_int_units by done. eexists. split; [reflexivity|].
pose proof unity_pos as Hp.
rewrite Hufl in Hhi. split.
- apply Z.quot_pos; lia.
- rewrite Z.quot_div_nonneg by lia.
  apply Z.div_le_upper_bound; lia.
Qed.

Lemma finite_nonzero_cases f :
finite f -> 0 < Z.abs (units f) ->
exists s m e, f = S754_finite s m e /\ Zpos m < 2 ^ 53 /\ emin <= e <= 971.
Proof.
destruct f as [s|s| |s m e]; cbn [finite units]; try done.
intros (Hm & He) _. exists s, m, e. done.
Qed.

(** The aspect ratio of a rectangle with 32-bit sides is a finite,
  non-zero float of magnitude at least [2^-32]. *)
Lemma int_truediv_ratio w h :
1 <= Z.abs w <= 2 ^ 32 -> 1 <= Z.abs h <= 2 ^ 32 ->
exists r, int_truediv w h = Ok r /\ finite r
  /\ 2 ^ (-32 + 1074) <= Z.abs (units r).
Proof.
intros Hw Hh. unfold int_truediv.
destruct (Z.eqb_spec h 0) as [->|Hh0]; [cbn in Hh; lia|].
destruct (raw_of_int_cases w ltac:(lia)) as (p & -> & Hp).
destruct (raw_of_int_cases h Hh0) as (q & -> & Hq).
assert (Hle : Zpos p * 2 ^ (0 - 0) <= 1 * Zpos q * 2 ^ (32 + 0 - 0)).
{ change (2 ^ (0 - 0)) with 1. change (32 + 0 - 0) with 32. lia. }
destruct (SFdiv_le (w <? 0) p 0 (h <? 0) q 0 1 32 0
            ltac:(lia) ltac:(unfold emin; lia) ltac:(lia) ltac:(lia) Hle)
  as (Hf & _ & _ & _).
assert (Hge : Zpos q * 2 ^ (-32 + 0 - -32) <= Zpos p * 2 ^ (0 - -32)).
{ change (2 ^ (-32 + 0 - -32)) with 1. change (0 - -32) with 32. lia. }
pose proof (SFdiv_ge (w <? 0) p 0 (h <? 0) q 0 (-32) (-32)
              ltac:(unfold emin; lia) ltac:(lia) ltac:(lia) Hge Hf) as Hlo.
eexists. split; [apply no_overflow_finite; exact Hf|]. split; [exact Hf|exact Hlo].
Qed.

Lemma pow_1105 : 2 ^ (-32 + 1074) * 2 ^ 63 = 2 ^ 31 * unity.
Proof. reflexivity. Qed.

Lemma pow_63_units : 2 ^ (63 + 1074) = 2 ^ 63 * unity.
Proof. reflexivity. Qed.

(** [int(width_delta / ratio)] for a 32-bit delta and a ratio of
  magnitude at least [2^-32]. *)
Lemma int_truediv_float_total wd r :
Z.abs wd <= 2 ^ 31 -> finite r -> 2 ^ (-32 + 1074) <= Z.abs (units r) ->
exists hd, (int_truediv_float wd r ≫= to_int) = Ok hd /\ Z.abs hd <= 2 ^ 63.
Proof.
intros Hwd Hr Hlo.
destruct (finite_nonzero_cases r Hr) as (sy & my & ey & -> & Hmy & Hey).
{ pose proof (pow2_pos (-32 + 1074) ltac:(lia)). lia. }
rewrite units_abs_finite in Hlo.
destruct (of_int_exact wd) as (fl & Hfl & Hffl & _ & Hufl); [lia|].
unfold int_truediv_float. rewrite Hfl. cbn [mbind result_bind rbind].
unfold truediv. cbn [is_zero].
destruct fl as [sx|sx| |sx mx ex]; try contradiction.
- cbn [SFdiv to_int]. exists 0. split; [reflexivity|]. cbn. lia.
- destruct Hffl as [Hmx Hex].
  assert (Hux : Zpos mx * 2 ^ (ex + 1074) = Z.abs wd * unity).
  { rewrite <- units_abs_finite with (s := sx). rewrite Hufl.
    rewrite Z.abs_mul. pose proof unity_pos. rewrite (Z.abs_eq unity) by lia. done. }
  assert (Hle : Zpos mx * 2 ^ (ex - -1074)
                <= 1 * Zpos my * 2 ^ (63 + ey - -1074)).
  { replace (ex - -1074) with (ex + 1074) by lia.
    replace (63 + ey - -1074) with ((ey + 1074) + 63) by lia.
    rewrite (pow2_split (ey + 1074) 63) by (unfold emin in *; lia).
    rewrite Hux. pose proof pow_1105. pose proof unity_pos.
    pose proof (pow2_pos 63 ltac:(lia)).
    assert (2 ^ (-32 + 1074) * 2 ^ 63 <= Zpos my * 2 ^ (ey + 1074) * 2 ^ 63)
      by (apply Z.mul_le_mono_nonneg_r; lia).
    assert (Z.abs wd * unity <= 2 ^ 31 * unity)
      by (apply Z.mul_le_mono_nonneg_r; lia).
    lia. }
  destruct (SFdiv_le sx mx ex sy my ey 1 63 (-1074)
              ltac:(lia) ltac:(unfold emin; lia) ltac:(unfold emin in *; lia)
              ltac:(unfold emin in *; lia) Hle) as (Hf & _ & Hu & _).
  cbn [mbind result_bind rbind]. rewrite to_int_units by exact Hf.
  eexists. split; [reflexivity|].
  rewrite pow_63_units, Z.mul_1_l in Hu. pose proof unity_pos.
  rewrite <- Z.quot_abs by lia. rewrite (Z.abs_eq unity) by lia.
  rewrite Z.quot_div_nonneg by lia.
  apply Z.div_le_upper_bound; lia.
Qed.

Lemma pow_67_units : 2 ^ (67 + 1074) = 2 ^ 67 * unity.
Proof. reflexivity. Qed.

Lemma pow_66_units : 2 ^ (66 + 1074) = 2 ^ 66 * unity.
Proof. reflexivity. Qed.

(** [int(L + a / 2)] is defined well beyond the exact range. *)
Lemma center_coord_total L a :
Z.abs L <= 2 ^ 32 -> Z.abs a <= 2 ^ 66 ->
exists g v, int_truediv a 2 = Ok g /\ (int_add_float L g ≫= to_int) = Ok v.
Proof.
intros HL Ha.
assert (Hg : exists g, int_truediv a 2 = Ok g /\ finite g
                       /\ Z.abs (units g) <= 2 ^ 66 * unity).
{ unfold int_truediv. cbn [Z.eqb].
  destruct (Z.eq_dec a 0) as [->|Hne].
  { exists (S754_zero false). cbn [raw_of_int SFdiv xorb no_overflow is_inf finite units].
    pose proof unity_pos. cbn [Z.abs]. split; [done|]. split; [done|]. lia. }
  destruct (raw_of_int_cases a Hne) as (p & -> & Hp). cbn [raw_of_int].
  assert (Hle : Zpos p * 2 ^ (0 - 0) <= 1 * 2 * 2 ^ (66 + 0 - 0)).
  { change (2 ^ (0 - 0)) with 1. change (66 + 0 - 0) with 66. lia. }
  destruct (SFdiv_le (a <? 0) p 0 false 2 0 1 66 0
              ltac:(lia) ltac:(unfold emin; lia) ltac:(lia) ltac:(lia) Hle)
    as (Hf & _ & Hu & _).
  eexists. split; [apply no_overflow_finite; exact Hf|]. split; [exact Hf|].
  rewrite pow_66_units in Hu. lia. }
destruct Hg as (g & Hg & Hfg & Hug). exists g.
destruct (of_int_exact L) as (fl & Hfl & Hffl & _ & Hufl); [lia|].
unfold int_add_float. rewrite Hfl. cbn [mbind result_bind rbind].
assert (Hb : Z.abs (units fl + units g) <= 1 * 2 ^ (67 + 1074)).
{ rewrite pow_67_units. pose proof unity_pos.
  assert (Z.abs (units fl) <= 2 ^ 32 * unity).
  { rewrite Hufl, Z.abs_mul, (Z.abs_eq unity) by lia.
    apply Z.mul_le_mono_nonneg_r; lia. }
  change (2 ^ 67) with (2 ^ 66 + 2 ^ 66).
  assert (2 ^ 32 * unity <= 2 ^ 66 * unity) by (apply Z.mul_le_mono_nonneg_r; lia).
  lia. }
destruct (add_le fl g 1 67 Hffl Hfg ltac:(lia) ltac:(unfold emin; lia) Hb)
  as (Hf & _ & _).
rewrite to_int_units by exact Hf. eexists. split; [exact Hg|reflexivity].
Qed.

(** [0 / h] is a zero carrying the sign of [h]. *)
Lemma int_truediv_zero_num h :
h <> 0 -> int_truediv 0 h = Ok (S754_zero (h <? 0)).
Proof.
intros Hh. unfold int_truediv.
destruct (Z.eqb_spec h 0) as [E|_]; [contradiction|].
destruct (raw_of_int_cases h Hh) as (p & -> & _). reflexivity.
Qed.

(** The aspect ratio with its sign; it is at least 1 in magnitude when
  the numerator is at least the denominator. *)
Lemma int_truediv_signed w h :
1 <= Z.abs w <= 2 ^ 32 -> 1 <= Z.abs h <= 2 ^ 32 ->
exists r, int_truediv w h = Ok r /\ finite r
  /\ sign_of r = xorb (w <? 0) (h <? 0)
  /\ 2 ^ (-32 + 1074) <= Z.abs (units r)
  /\ (Z.abs h <= Z.abs w -> unity <= Z.abs (units r)).
Proof.
intros Hw Hh. unfold int_truediv.
destruct (Z.eqb_spec h 0) as [->|Hh0]; [cbn in Hh; lia|].
destruct (raw_of_int_cases w ltac:(lia)) as (p & -> & Hp).
destruct (raw_of_int_cases h Hh0) as (q & -> & Hq).
assert (Hle : Zpos p * 2 ^ (0 - 0) <= 1 * Zpos q * 2 ^ (32 + 0 - 0)).
{ change (2 ^ (0 - 0)) with 1. change (32 + 0 - 0) with 32. lia. }
destruct (SFdiv_le (w <? 0) p 0 (h <? 0) q 0 1 32 0
            ltac:(lia) ltac:(unfold emin; lia) ltac:(lia) ltac:(lia) Hle)
  as (Hf & Hs & _ & _).
assert (Hge : Zpos q * 2 ^ (-32 + 0 - -32) <= Zpos p * 2 ^ (0 - -32)).
{ change (2 ^ (-32 + 0 - -32)) with 1. change (0 - -32) with 32. lia. }
pose proof (SFdiv_ge (w <? 0) p 0 (h <? 0) q 0 (-32) (-32)
              ltac:(unfold emin; lia) ltac:(lia) ltac:(lia) Hge Hf) as Hlo.
eexists. split; [apply no_overflow_finite; exact Hf|]. split; [exact Hf|].
split; [exact Hs|]. split; [exact Hlo|].
intros Hhw.
assert (Hge1 : Zpos q * 2 ^ (0 + 0 - 0) <= Zpos p * 2 ^ (0 - 0)).
{ change (2 ^ (0 + 0 - 0)) with 1. change (2 ^ (0 - 0)) with 1. lia. }
exact (SFdiv_ge (w <? 0) p 0 (h <? 0) q 0 0 0
         ltac:(unfold emin; lia) ltac:(lia) ltac:(lia) Hge1 Hf).
Qed.

(** [int(width_delta / ratio)] for a positive ratio has the sign of the
  delta, and is no larger than the delta when the ratio is at least 1. *)
Lemma int_truediv_float_signed wd r :
Z.abs wd <= 2 ^ 31 -> finite r -> sign_of r = false ->
2 ^ (-32 + 1074) <= Z.abs (units r) ->
exists hd, (int_truediv_float wd r ≫= to_int) = Ok hd
  /\ (0 <= wd -> 0 <= hd) /\ (wd <= 0 -> hd <= 0)
  /\ (unity <= Z.abs (units r) -> Z.abs hd <= Z.abs wd).
Proof.
intros Hwd Hr Hsr Hlo.
destruct (finite_nonzero_cases r Hr) as (sy & my & ey & -> & Hmy & Hey).
{ pose proof (pow2_pos (-32 + 1074) ltac:(lia)). lia. }
cbn [sign_of] in Hsr. subst sy.
rewrite units_abs_finite in Hlo. rewrite units_abs_finite.
destruct (of_int_exact wd) as (fl & Hfl & Hffl & Hsfl & Hufl); [lia|].
unfold int_truediv_float. rewrite Hfl. cbn [mbind result_bind rbind].
unfold truediv. cbn [is_zero].
destruct fl as [sx|sx| |sx mx ex]; try contradiction.
- cbn [SFdiv to_int]. exists 0. split; [reflexivity|]. lia.
- destruct Hffl as [Hmx Hex]. cbn [sign_of] in Hsfl.
  assert (Hux : Zpos mx * 2 ^ (ex + 1074) = Z.abs wd * unity).
  { rewrite <- units_abs_finite with (s := sx). rewrite Hufl.
    rewrite Z.abs_mul. pose proof unity_pos. rewrite (Z.abs_eq unity) by lia. done. }
  pose proof unity_pos as Hup.
  pose proof (pow2_pos (ex + 1074) ltac:(unfold emin in *; lia)) as Hpx.
  pose proof (pow2_pos (ey + 1074) ltac:(unfold emin in *; lia)) as Hpy.
  assert (Hwd0 : 0 < Z.abs wd).
  { destruct (Z.eq_dec wd 0) as [->|]; [|lia]. cbn [Z.abs] in Hux.
    rewrite Z.mul_0_l in Hux. pose proof (Pos2Z.is_pos mx). nia. }
  assert (Hle : Zpos mx * 2 ^ (ex - -1074)
                <= 1 * Zpos my * 2 ^ (63 + ey - -1074)).
  { replace (ex - -1074) with (ex + 1074) by lia.
    replace (63 + ey - -1074) with ((ey + 1074) + 63) by lia.
    rewrite (pow2_split (ey + 1074) 63) by (unfold emin in *; lia).
    rewrite Hux. pose proof pow_1105.
    pose proof (pow2_pos 63 ltac:(lia)).
    assert (2 ^ (-32 + 1074) * 2 ^ 63 <= Zpos my * 2 ^ (ey + 1074) * 2 ^ 63)
      by (apply Z.mul_le_mono_nonneg_r; lia).
    assert (Z.abs wd * unity <= 2 ^ 31 * unity)
      by (apply Z.mul_le_mono_nonneg_r; lia).
    lia. }
  destruct (SFdiv_le sx mx ex false my ey 1 63 (-1074)
              ltac:(lia) ltac:(unfold emin; lia) ltac:(unfold emin in *; lia)
              ltac:(unfold emin in *; lia) Hle) as (Hf & Hsg & _ & _).
  cbn [mbind result_bind rbind]. rewrite to_int_units by exact Hf.
  eexists. split; [reflexivity|].
  set (f := SFdiv prec emax (S754_finite sx mx ex) (S754_finite false my ey)) in *.
  rewrite xorb_false_r in Hsg.
  assert (Hau : 0 <= Z.abs (units f)) by apply Z.abs_nonneg.
  pose proof (units_sign f) as Hus. rewrite Hsg, Hsfl in Hus.
  split; [|split].
  + intros Hpos. assert (E : (wd <? 0) = false) by (apply Z.ltb_ge; lia).
    rewrite E in Hus. cbn [cond_Zopp] in Hus. apply Z.quot_pos; lia.
  + intros Hneg. assert (E : (wd <? 0) = true) by (apply Z.ltb_lt; lia).
    rewrite E in Hus. cbn [cond_Zopp] in Hus. rewrite Hus.
    rewrite Z.quot_opp_l by lia.
    assert (0 <= Z.abs (units f) ÷ unity) by (apply Z.quot_pos; lia). lia.
  + intros Hone.
    assert (Hle1 : Zpos mx * 2 ^ (ex - -1074)
                   <= Z.abs wd * Zpos my * 2 ^ (0 + ey - -1074)).
    { replace (ex - -1074) with (ex + 1074) by lia.
      replace (0 + ey - -1074) with (ey + 1074) by lia.
      rewrite Hux, <- Z.mul_assoc. apply Z.mul_le_mono_nonneg_l; lia. }
    destruct (SFdiv_le sx mx ex false my ey (Z.abs wd) 0 (-1074)
                ltac:(lia) ltac:(unfold emin; lia) ltac:(unfold emin in *; lia)
                ltac:(unfold emin in *; lia) Hle1) as (_ & _ & Hu & _).
    fold f in Hu. change (2 ^ (0 + 1074)) with unity in Hu.
    rewrite <- Z.quot_abs by lia. rewrite (Z.abs_eq unity) by lia.
    rewrite Z.quot_div_nonneg by lia.
    apply Z.div_le_upper_bound; lia.
Qed.

(** Multiplying by [1.0] changes nothing. *)
Lemma mul_one_exact x :
finite x -> finite (mul x one) /\ units (mul x one) = units x.
Proof.
intros Hx. unfold mul, one.
destruct x as [sx|sx| |sx mx ex]; try contradiction; cbn [SFmul].
- cbn [finite units]. done.
- destruct Hx as [Hmx [Hex1 Hex2]]. rewrite xorb_false_r.
  destruct (binary_round_aux_le sx (Zpos (mx * 4503599627370496)) (ex + -52)
              loc_Exact (Zpos mx) ex) as (Hf & Hsg & _ & Hex); try lia.
  { replace (ex - (ex + -52)) with 52 by lia. rewrite Pos2Z.inj_mul.
    apply Z.le_refl. }
  split; [exact Hf|].
  rewrite units_sign, Hsg, Hex; [reflexivity|reflexivity|].
  replace (ex - (ex + -52)) with 52 by lia. rewrite Pos2Z.inj_mul. reflexivity.
Qed.

(** Multiplying by a zero gives a zero. *)
Lemma mul_zero_r x s :
finite x -> exists s', mul x (S754_zero s) = S754_zero s'.
Proof.
intros Hx. unfold mul.
destruct x as [sx|sx| |sx mx ex]; try contradiction; cbn [SFmul]; eauto.
Qed.

(** Truncation toward zero against the floor, for a positive divisor. *)
Lemma quot_div_cases a b :
0 < b ->
(0 <= a \/ a mod b = 0 -> a / b = a ÷ b)
/\ (a < 0 -> a mod b <> 0 -> a / b = a ÷ b - 1).
Proof.
intros Hb.
pose proof (Z.div_mod a b ltac:(lia)) as Hd.
pose proof (Z.mod_pos_bound a b Hb) as Hm.
pose proof (Z.quot_rem' a b) as Hq.
pose proof (Z.rem_bound_abs a b ltac:(lia)) as Hr.
split.
- intros [Ha|Hz].
  + pose proof (Z.rem_nonneg a b ltac:(lia) Ha). nia.
  + rewrite Hz, Z.add_0_r in Hd.
    destruct (Z.le_gt_cases 0 a) as [Ha|Ha].
    * pose proof (Z.rem_nonneg a b ltac:(lia) Ha). nia.
    * pose proof (Z.rem_nonpos a b ltac:(lia) ltac:(lia)). nia.
- intros Ha Hnz. pose proof (Z.rem_nonpos a b ltac:(lia) ltac:(lia)). nia.
Qed.

(** [math.floor] of a finite float, in units. *)
Lemma floor_units f :
finite f -> floor f = Ok (units f / unity).
Proof.
destruct f as [s|s| |s m e]; cbn [finite floor units]; try contradiction.
{ intros _. rewrite Zdiv_0_l. reflexivity. }
intros [Hm [He _]]. unfold emin in He.
destruct s; cbn [cond_Zopp]; f_equal.
- rewrite (shiftl_scaled (Zneg m) e 1074) by lia.
  change (2 ^ 1074) with unity. change (Zneg m) with (- Zpos m).
  rewrite Z.mul_opp_l. reflexivity.
- rewrite (shiftl_scaled (Zpos m) e 1074) by lia. reflexivity.
Qed.

(** [width_delta / ratio] is a finite float, for a 32-bit delta and a
  ratio of magnitude at least [2^-32]. *)
Lemma int_truediv_float_finite wd r :
Z.abs wd <= 2 ^ 31 -> finite r -> 2 ^ (-32 + 1074) <= Z.abs (units r) ->
exists q, int_truediv_float wd r = Ok q /\ finite q.
Proof.
intros Hwd Hr Hlo.
destruct (finite_nonzero_cases r Hr) as (sy & my & ey & -> & Hmy & Hey).
{ pose proof (pow2_pos (-32 + 1074) ltac:(lia)). lia. }
rewrite units_abs_finite in Hlo.
destruct (of_int_exact wd) as (fl & Hfl & Hffl & _ & Hufl); [lia|].
unfold int_truediv_float. rewrite Hfl. cbn [mbind result_bind rbind].
unfold truediv. cbn [is_zero].
destruct fl as [sx|sx| |sx mx ex]; try contradiction.
- cbn [SFdiv]. eexists. split; [reflexivity|exact I].
- destruct Hffl as [Hmx Hex].
  assert (Hux : Zpos mx * 2 ^ (ex + 1074) = Z.abs wd * unity).
  { rewrite <- units_abs_finite with (s := sx). rewrite Hufl.
    rewrite Z.abs_mul. pose proof unity_pos. rewrite (Z.abs_eq unity) by lia. done. }
  assert (Hle : Zpos mx * 2 ^ (ex - -1074)
                <= 1 * Zpos my * 2 ^ (63 + ey - -1074)).
  { replace (ex - -1074) with (ex + 1074) by lia.
    replace (63 + ey - -1074) with ((ey + 1074) + 63) by lia.
    rewrite (pow2_split (ey + 1074) 63) by (unfold emin in *; lia).
    rewrite Hux. pose proof pow_1105. pose proof unity_pos.
    pose proof (pow2_pos 63 ltac:(lia)).
    assert (2 ^ (-32 + 1074) * 2 ^ 63 <= Zpos my * 2 ^ (ey + 1074) * 2 ^ 63)
      by (apply Z.mul_le_mono_nonneg_r; lia).
    assert (Z.abs wd * unity <= 2 ^ 31 * unity)
      by (apply Z.mul_le_mono_nonneg_r; lia).
    lia. }
  destruct (SFdiv_le sx mx ex sy my ey 1 63 (-1074)
              ltac:(lia) ltac:(unfold emin; lia) ltac:(unfold emin in *; lia)
              ltac:(unfold emin in *; lia) Hle) as (Hf & _).
  eexists. split; [reflexivity|exact Hf].
Qed.

End FloatFacts.

Import FloatFacts.

(** * Window identity *)

Lemma Window_eq_window a b :
  Window___eq__ a (PyWindow b) = Ok (hwnd a =? hwnd b).
Proof. reflexivity. Qed.

Lemma list_contains_spec ws w :
  list_contains ws w = Ok (existsb (fun x => hwnd x =? hwnd w) ws).
Proof.
  induction ws as [|x ws IH]; [reflexivity|].
  cbn [list_contains existsb]. rewrite Window_eq_window.
  cbn [mbind result_bind rbind]. destruct (hwnd x =? hwnd w); [reflexivity|exact IH].
Qed.

Lemma list_contains_true ws w :
  list_contains ws w = Ok true <-> exists x, x ∈ ws /\ hwnd x = hwnd w.
Proof.
  rewrite list_contains_spec. split.
  - intros [= Hex]. apply existsb_exists in Hex as (x & Hin & Heq).
    exists x. split; [apply list_elem_of_In; exact Hin|]. apply Z.eqb_eq. exact Heq.
  - intros (x & Hin & Heq). f_equal. apply existsb_exists.
    exists x. split; [apply list_elem_of_In; exact Hin|]. apply Z.eqb_eq. exact Heq.
Qed.

Lemma list_contains_hwnd ws a b :
  hwnd a = hwnd b -> list_contains ws a = list_contains ws b.
Proof. intros E. rewrite !list_contains_spec, E. reflexivity. Qed.

Lemma holds_contains ws w :
  holds (list_contains ws w) = true <-> list_contains ws w = Ok true.
Proof.
  rewrite list_contains_spec. cbn [holds].
  destruct (existsb _ ws); split; congruence.
Qed.

(** C1: two windows compare equal exactly when their handles are equal,
    whatever their pid, process, title and creation time; windows with
    equal handles hash alike and are interchangeable in list membership,
    in [purge] and as keys of the state store. *)
Theorem window_identity_by_hwnd (a b : Window) :
  (Window___eq__ a (PyWindow b) = Ok true <-> hwnd a = hwnd b)
  /\ (Window___eq__ a (PyWindow b) = Ok false <-> hwnd a <> hwnd b)
  /\ (hwnd a = hwnd b ->
      Window___hash__ a = Window___hash__ b
      /\ (forall ws, list_contains ws a = list_contains ws b)
      /\ (forall ws1 ws2 S, purge S (ws1 ++ a :: ws2) = purge S (ws1 ++ b :: ws2))
      /\ (forall S h,
            (WindowStateStore___getitem__ S a h).1.1
            = (WindowStateStore___getitem__ S b h).1.1
            /\ (WindowStateStore___getitem__ S a h).2
               = (WindowStateStore___getitem__ S b h).2
            /\ forall k,
                snd <$> (store (WindowStateStore___getitem__ S a h).1.2 !! k)
                = snd <$> (store (WindowStateStore___getitem__ S b h).1.2 !! k))).
Proof.
  rewrite Window_eq_window. split; [|split].
  - split; [intros [= E]; apply Z.eqb_eq; exact E|].
    intros E. f_equal. apply Z.eqb_eq. exact E.
  - split; [intros [= E]; apply Z.eqb_neq; exact E|].
    intros E. f_equal. apply Z.eqb_neq. exact E.
  - intros E. split; [unfold Window___hash__; rewrite E; reflexivity|].
    split; [intros ws; apply list_contains_hwnd; exact E|]. split.
    + intros ws1 ws2 S. unfold purge. f_equal.
      apply map_filter_ext. intros k [w r] _. cbn [fst snd].
      rewrite !holds_contains, !list_contains_true.
      split; intros (x & Hin & Hx).
      * apply elem_of_app in Hin as [Hin|Hin].
        { exists x. split; [apply elem_of_app; left; exact Hin|exact Hx]. }
        apply elem_of_cons in Hin as [->|Hin].
        { exists b. split; [apply elem_of_app; right; left|congruence]. }
        exists x. split; [apply elem_of_app; right; right; exact Hin|exact Hx].
      * apply elem_of_app in Hin as [Hin|Hin].
        { exists x. split; [apply elem_of_app; left; exact Hin|exact Hx]. }
        apply elem_of_cons in Hin as [->|Hin].
        { exists a. split; [apply elem_of_app; right; left|congruence]. }
        exists x. split; [apply elem_of_app; right; right; exact Hin|exact Hx].
    + intros S h. unfold WindowStateStore___getitem__. rewrite E.
      destruct (store S !! hwnd b) as [[w r]|]; cbn [fst snd store]; [done|].
      split; [done|]. split; [done|]. intros k.
      destruct (decide (k = hwnd b)) as [->|Hne].
      * rewrite !lookup_insert_eq. reflexivity.
      * rewrite !lookup_insert_ne by congruence. reflexivity.
Qed.

(** C9: comparing a window with a value that is not a window raises
    [NotImplementedError] instead of returning a boolean. *)
Theorem eq_non_window_raises (self : Window) (value : PyValue) :
  isinstance_Window value = false ->
  Window___eq__ self value = Raise NotImplementedError.
Proof. destruct value; cbn; congruence. Qed.

(** * The state store *)

Lemma getitem_present S h key w r :
  store S !! hwnd key = Some (w, r) ->
  WindowStateStore___getitem__ S key h = (r, S, h).
Proof. intros E. unfold WindowStateStore___getitem__. rewrite E. reflexivity. Qed.

Lemma getitem_absent S h key :
  store S !! hwnd key = None ->
  WindowStateStore___getitem__ S key h
  = (fresh (dom h), mkStore (<[hwnd key := (key, fresh (dom h))]> (store S)),
     <[fresh (dom h) := WindowState_new]> h).
Proof. intros E. unfold WindowStateStore___getitem__. rewrite E. reflexivity. Qed.

Lemma fresh_not_in_heap (h : gmap positive WindowState) : h !! fresh (dom h) = None.
Proof. apply not_elem_of_dom. apply is_fresh. Qed.

(** A lookup always yields a live state object. *)
Lemma getitem_live S h key :
  store_wf S h ->
  let '(r, S', h') := WindowStateStore___getitem__ S key h in
  is_Some (h' !! r) /\ store_wf S' h'.
Proof.
  intros Hwf. destruct (store S !! hwnd key) as [[w r]|] eqn:E.
  - rewrite (getitem_present S h key w r E). split; [eapply Hwf; exact E|exact Hwf].
  - rewrite (getitem_absent S h key E). split.
    + rewrite lookup_insert_eq. eauto.
    + intros k w r. cbn [store].
      destruct (decide (k = hwnd key)) as [->|Hne].
      * rewrite lookup_insert_eq. intros [= <- <-]. rewrite lookup_insert_eq. eauto.
      * rewrite lookup_insert_ne by congruence. intros Hk.
        destruct (Hwf k w r Hk) as [st Hst].
        destruct (decide (r = fresh (dom h))) as [->|Hr].
        { rewrite fresh_not_in_heap in Hst. discriminate. }
        rewrite lookup_insert_ne by congruence. eauto.
Qed.


Lemma purge_lookup S L k w r :
  store (purge S L) !! k = Some (w, r)
  <-> store S !! k = Some (w, r) /\ list_contains L w = Ok true.
Proof.
  unfold purge. cbn [store]. rewrite map_lookup_filter_Some. cbn [fst snd].
  rewrite holds_contains. reflexivity.
Qed.

(** C3: after [purge(L)] every key of the store is an element of [L],
    every entry whose key was in [L] is kept with the same state object
    (hence the same [selected] and [pinned_at]), and every other entry is
    gone. *)
Theorem purge_subset_and_retain (S : WindowStateStore) (L : list Window) :
  (forall k w r, store (purge S L) !! k = Some (w, r) ->
     list_contains L w = Ok true /\ (exists x, x ∈ L /\ hwnd x = hwnd w)
     /\ store S !! k = Some (w, r))
  /\ (forall k w r, store S !! k = Some (w, r) -> list_contains L w = Ok true ->
        store (purge S L) !! k = Some (w, r)
        /\ forall h : gmap positive WindowState,
             state_of (purge S L) h k = state_of S h k)
  /\ (forall k w r, store S !! k = Some (w, r) -> list_contains L w <> Ok true ->
        store (purge S L) !! k = None).
Proof.
  split; [|split].
  - intros k w r Hk. apply purge_lookup in Hk as [Hk Hin].
    split; [exact Hin|]. split; [apply list_contains_true; exact Hin|exact Hk].
  - intros k w r Hk Hin.
    assert (Hp : store (purge S L) !! k = Some (w, r)) by (apply purge_lookup; done).
    split; [exact Hp|]. intros h. unfold state_of. rewrite Hp, Hk. reflexivity.
  - intros k w r Hk Hin.
    destruct (store (purge S L) !! k) as [[w' r']|] eqn:E; [|reflexivity].
    apply purge_lookup in E as [E Hin']. congruence.
Qed.

(** * Geometry *)

Ltac run_M :=
  unfold mbind, mret, M_bind, M_ret, result_bind, result_ret; cbv beta;
  cbn [rbind].

Section GeometryFacts.
Context {Σ : Type} `{Host Σ}.

Lemma Monitor_from_hwnd_ok (h : Z) (σ : Σ) mon rect :
  MonitorFromWindow h σ = Ok mon -> GetMonitorInfo_Work mon σ = Ok rect ->
  Monitor_from_hwnd h σ = (Ok (mkMonitor (from_win32_rect rect)), σ).
Proof.
  intros E1 E2. unfold Monitor_from_hwnd, query. run_M. rewrite E1. run_M.
  rewrite E2. reflexivity.
Qed.

Lemma Monitor_from_hwnd_pure (h : Z) (σ : Σ) : (Monitor_from_hwnd h σ).2 = σ.
Proof.
  unfold Monitor_from_hwnd, query. run_M.
  destruct (MonitorFromWindow h σ) as [mon|e]; [|reflexivity]. run_M.
  destruct (GetMonitorInfo_Work mon σ); reflexivity.
Qed.

Lemma win32_width wk : win32_rect wk -> Z.abs (width wk) < 2 ^ 32.
Proof. unfold win32_rect, win32_long, width. lia. Qed.

Lemma win32_height wk : win32_rect wk -> Z.abs (height wk) < 2 ^ 32.
Proof. unfold win32_rect, win32_long, height. lia. Qed.

(** Within the exact range the placement is the centred one. *)
Lemma resize_move_exact (self : Window) (w' h' : Z) (wk : Rect) (σ : Σ) :
  win32_rect wk -> Z.abs w' <= 2 ^ 49 -> Z.abs h' <= 2 ^ 49 ->
  _resize_move_to_center_of_rect self w' h' wk σ
  = place self (centered_left wk w') (centered_top wk h') w' h' σ.
Proof.
  intros Hwk Hw Hh. pose proof (win32_width wk Hwk). pose proof (win32_height wk Hwk).
  destruct (center_coord (left wk) (width wk - w')) as (gl & Hgl & Hl).
  { unfold win32_rect, win32_long in Hwk. lia. } { lia. }
  destruct (center_coord (top wk) (height wk - h')) as (gt & Hgt & Ht).
  { unfold win32_rect, win32_long in Hwk. lia. } { lia. }
  unfold rbind in Hl, Ht. unfold mbind, result_bind, rbind in Hl, Ht.
  unfold _resize_move_to_center_of_rect, place, ask, lift. run_M.
  destruct (IsIconic (hwnd self) σ).
  - destruct (ShowWindow (hwnd self) SW_RESTORE σ) as [[[]|e] σ1]; [|reflexivity].
    rewrite Hgl. cbv beta iota. rewrite Hgt. cbv beta iota.
    unfold rbind. rewrite Hl. cbv beta iota. rewrite Ht. reflexivity.
  - rewrite Hgl. cbv beta iota. rewrite Hgt. cbv beta iota.
    unfold rbind. rewrite Hl. cbv beta iota. rewrite Ht. reflexivity.
Qed.
End GeometryFacts.

Lemma trunc_half_bounds L d :
  0 <= d -> L <= trunc_half (2 * L + d) /\ trunc_half (2 * L + d) <= L + d.
Proof.
  intros Hd. unfold trunc_half.
  pose proof (Z.quot_rem' (2 * L + d) 2) as Hqr.
  pose proof (Z.rem_bound_abs (2 * L + d) 2 ltac:(lia)) as Hr.
  destruct (Z.le_gt_cases 0 (2 * L + d)) as [Hpos|Hneg].
  - pose proof (Z.rem_nonneg (2 * L + d) 2 ltac:(lia) Hpos). lia.
  - pose proof (Z.rem_nonpos (2 * L + d) 2 ltac:(lia) ltac:(lia)). lia.
Qed.

Section GeometryClaims.
Context {Σ : Type} `{Host Σ}.

(** Beyond the exact range the placement is still defined. *)
Lemma resize_move_total (self : Window) (w' h' : Z) (wk : Rect) (σ : Σ) :
  win32_rect wk -> Z.abs w' <= 2 ^ 65 -> Z.abs h' <= 2 ^ 65 ->
  exists l t, _resize_move_to_center_of_rect self w' h' wk σ
              = place self l t w' h' σ.
Proof.
  intros Hwk Hw Hh. pose proof (win32_width wk Hwk). pose proof (win32_height wk Hwk).
  destruct (center_coord_total (left wk) (width wk - w')) as (gl & l & Hgl & Hl).
  { unfold win32_rect, win32_long in Hwk. lia. } { lia. }
  destruct (center_coord_total (top wk) (height wk - h')) as (gt & t & Hgt & Ht).
  { unfold win32_rect, win32_long in Hwk. lia. } { lia. }
  exists l, t.
  unfold mbind, result_bind, rbind in Hl, Ht.
  unfold _resize_move_to_center_of_rect, place, ask, lift. run_M.
  destruct (IsIconic (hwnd self) σ).
  - destruct (ShowWindow (hwnd self) SW_RESTORE σ) as [[[]|e] σ1]; [|reflexivity].
    rewrite Hgl. cbv beta iota. rewrite Hgt. cbv beta iota.
    unfold rbind. rewrite Hl. cbv beta iota. rewrite Ht. reflexivity.
  - rewrite Hgl. cbv beta iota. rewrite Hgt. cbv beta iota.
    unfold rbind. rewrite Hl. cbv beta iota. rewrite Ht. reflexivity.
Qed.

Lemma center_unfold (self : Window) (ratio : PyFloat.float) (σ : Σ) mon rect tw th :
  MonitorFromWindow (hwnd self) σ = Ok mon ->
  GetMonitorInfo_Work mon σ = Ok rect ->
  (PyFloat.int_mul_float (width (from_win32_rect rect)) ratio ≫= PyFloat.to_int)
    = Ok tw ->
  (PyFloat.int_mul_float (height (from_win32_rect rect)) ratio ≫= PyFloat.to_int)
    = Ok th ->
  center self ratio σ
  = _resize_move_to_center_of_rect self tw th (from_win32_rect rect) σ.
Proof.
  intros E1 E2 Hw Hh. unfold center.
  unfold mbind at 1. unfold M_bind at 1.
  rewrite (Monitor_from_hwnd_ok _ _ _ _ E1 E2). cbn [work].
  unfold mbind, result_bind, rbind in Hw, Hh.
  unfold lift. run_M. unfold rbind. rewrite Hw. cbv beta iota. rewrite Hh.
  reflexivity.
Qed.

(** C4: [center] sizes the window to [int(ratio * work.width)] by
    [int(ratio * work.height)] and puts its top-left corner at
    [int(work.left + (work.width - width) / 2)],
    [int(work.top + (work.height - height) / 2)], truncating toward
    zero; on the work area (0, 0, 1920, 1200) with the default ratio
    0.8 that is size (1536, 960) at (192, 120). *)
Theorem center_target_formula :
  (forall (σ : Σ) (self : Window) (ratio : PyFloat.float) mon rect tw th,
      MonitorFromWindow (hwnd self) σ = Ok mon ->
      GetMonitorInfo_Work mon σ = Ok rect ->
      win32_rect (from_win32_rect rect) ->
      (PyFloat.int_mul_float (width (from_win32_rect rect)) ratio
         ≫= PyFloat.to_int) = Ok tw ->
      (PyFloat.int_mul_float (height (from_win32_rect rect)) ratio
         ≫= PyFloat.to_int) = Ok th ->
      Z.abs tw <= 2 ^ 49 -> Z.abs th <= 2 ^ 49 ->
      center self ratio σ
      = place self (centered_left (from_win32_rect rect) tw)
          (centered_top (from_win32_rect rect) th) tw th σ)
  /\ PyFloat.int_truediv 8 10 = Ok PyFloat.lit_0_8
  /\ (forall (σ : Σ) (self : Window) mon,
        MonitorFromWindow (hwnd self) σ = Ok mon ->
        GetMonitorInfo_Work mon σ = Ok (0, 0, 1920, 1200) ->
        center self PyFloat.lit_0_8 σ = place self 192 120 1536 960 σ).
Proof.
  assert (Hgen : forall (σ : Σ) (self : Window) (ratio : PyFloat.float) mon rect tw th,
      MonitorFromWindow (hwnd self) σ = Ok mon ->
      GetMonitorInfo_Work mon σ = Ok rect ->
      win32_rect (from_win32_rect rect) ->
      (PyFloat.int_mul_float (width (from_win32_rect rect)) ratio
         ≫= PyFloat.to_int) = Ok tw ->
      (PyFloat.int_mul_float (height (from_win32_rect rect)) ratio
         ≫= PyFloat.to_int) = Ok th ->
      Z.abs tw <= 2 ^ 49 -> Z.abs th <= 2 ^ 49 ->
      center self ratio σ
      = place self (centered_left (from_win32_rect rect) tw)
          (centered_top (from_win32_rect rect) th) tw th σ).
  { intros σ self ratio mon rect tw th E1 E2 Hwk Hw Hh Htw Hth.
    rewrite (center_unfold self ratio σ mon rect tw th E1 E2 Hw Hh).
    apply resize_move_exact; assumption. }
  split; [exact Hgen|]. split; [vm_compute; reflexivity|].
  intros σ self mon E1 E2.
  rewrite (Hgen σ self PyFloat.lit_0_8 mon (0, 0, 1920, 1200) 1536 960 E1 E2).
  - reflexivity.
  - unfold win32_rect, win32_long. cbn. lia.
  - vm_compute. reflexivity.
  - vm_compute. reflexivity.
  - cbn. lia.
  - cbn. lia.
Qed.

(** C10: for a work area with non-negative width and height and a
    ratio between 0 and 1, the rectangle [center] moves the window to
    lies within the work area. *)
Theorem center_within_work
    (σ : Σ) (self : Window) (ratio : PyFloat.float) mon rect :
  MonitorFromWindow (hwnd self) σ = Ok mon ->
  GetMonitorInfo_Work mon σ = Ok rect ->
  win32_rect (from_win32_rect rect) ->
  0 <= width (from_win32_rect rect) ->
  0 <= height (from_win32_rect rect) ->
  PyFloat.well_formed ratio ->
  PyFloat.leb PyFloat.zero ratio = true ->
  PyFloat.leb ratio PyFloat.one = true ->
  exists l t w h,
    center self ratio σ = place self l t w h σ
    /\ 0 <= w /\ 0 <= h
    /\ left (from_win32_rect rect) <= l
    /\ top (from_win32_rect rect) <= t
    /\ l + w <= right (from_win32_rect rect)
    /\ t + h <= bottom (from_win32_rect rect).
Proof.
  intros E1 E2 Hwk HW HH Hv H0 H1.
  set (wk := from_win32_rect rect) in *.
  pose proof (win32_width wk Hwk) as HWb. pose proof (win32_height wk Hwk) as HHb.
  destruct (scaled_size (width wk) ratio) as (tw & Htw & Htwb); try assumption.
  { lia. }
  destruct (scaled_size (height wk) ratio) as (th & Hth & Hthb); try assumption.
  { lia. }
  exists (centered_left wk tw), (centered_top wk th), tw, th.
  split.
  { rewrite (center_unfold self ratio σ mon rect tw th E1 E2 Htw Hth).
    apply resize_move_exact; [assumption| |]; lia. }
  unfold centered_left, centered_top.
  destruct (trunc_half_bounds (left wk) (width wk - tw)) as (Hl1 & Hl2); [lia|].
  destruct (trunc_half_bounds (top wk) (height wk - th)) as (Ht1 & Ht2); [lia|].
  unfold width, height in *. lia.
Qed.
End GeometryClaims.

(** * One turn of the frame *)

Section ConsumerSteps.
Context {Σ : Type} `{Host Σ}.

(** One turn of the loop of [main], with the store, the states and
    the host pulled apart. *)
Lemma main_window_eq clicked win (world : World Σ) :
  main_window clicked win world
  = let '(r, S', h') :=
      WindowStateStore___getitem__ (w_store world) win (w_heap world) in
    let σ := w_host world in
    let h'' :=
      if pinned_truthy (mkWorld σ h' S') r
      then if clicked (hwnd win) BtnUnpin then unpin r h' else h'
      else if clicked (hwnd win) BtnPin then pin r (time_time σ) h' else h' in
    let '(res, σ') :=
      (_ ← (if clicked (hwnd win) BtnCenter
            then center win PyFloat.lit_0_8 else mret ());
       _ ← (if clicked (hwnd win) BtnBigger then resize win 10 else mret ());
       _ ← (if clicked (hwnd win) BtnSmaller
            then resize win (-10) else mret ());
       lift (proc_exe (proc win) ≫= λ _, Ok ())) σ in
    (res, mkWorld σ' h'' S').
Proof.
  unfold main_window, store_getitem, when, lift, on_host, on_heap, ask.
  run_M.
  destruct (WindowStateStore___getitem__ (w_store world) win (w_heap world))
    as [[r S'] h'].
  cbv beta iota zeta. cbn [w_host w_heap w_store].
  destruct (pinned_truthy _ r);
    [destruct (clicked (hwnd win) BtnUnpin)|destruct (clicked (hwnd win) BtnPin)];
    cbv beta iota zeta; cbn [w_host w_heap w_store];
    (destruct (clicked (hwnd win) BtnCenter);
     cbv beta iota zeta; cbn [w_host w_heap w_store];
     [destruct (center win PyFloat.lit_0_8 (w_host world)) as [[[]|e1] σ1]|];
     cbv beta iota zeta; cbn [w_host w_heap w_store]; try reflexivity;
     (destruct (clicked (hwnd win) BtnBigger);
      cbv beta iota zeta; cbn [w_host w_heap w_store];
      [destruct (resize win 10 _) as [[[]|e2] σ2]|];
      cbv beta iota zeta; cbn [w_host w_heap w_store]; try reflexivity;
      (destruct (clicked (hwnd win) BtnSmaller);
       cbv beta iota zeta; cbn [w_host w_heap w_store];
       [destruct (resize win (-10) _) as [[[]|e3] σ3]|];
       cbv beta iota zeta; cbn [w_host w_heap w_store]; try reflexivity;
       destruct (proc_exe (proc win)); reflexivity))).
Qed.

Lemma main_windows_app clicked pre post (world : World Σ) :
  main_windows clicked (pre ++ post) world
  = match main_windows clicked pre world with
    | (Ok _, world1) => main_windows clicked post world1
    | (Raise e, world1) => (Raise e, world1)
    end.
Proof.
  revert world. induction pre as [|w pre IH]; intros world.
  - reflexivity.
  - cbn [app main_windows]. unfold mbind, M_bind.
    destruct (main_window clicked w world) as [[[]|e] w1]; [apply IH|reflexivity].
Qed.

(** An exception raised in one window's turn, the earlier turns having
    completed, leaves [main]. *)
Lemma main_raises_at clicked pre win rest (world world1 world' : World Σ) e :
  main_windows clicked pre world = (Ok (), world1) ->
  main_window clicked win world1 = (Raise e, world') ->
  main (mkService (pre ++ win :: rest)) clicked world = (Raise e, world').
Proof.
  intros Hpre Hwin. unfold main. cbn [windows].
  rewrite main_windows_app, Hpre. cbn [main_windows].
  unfold mbind, M_bind. rewrite Hwin. reflexivity.
Qed.
End ConsumerSteps.

(** * Resizing, and failures of the geometry calls *)

(** [int] and [floor] of one float differ by at most one. *)
Lemma floor_to_int q n :
  PyFloat.to_int q = Ok n ->
  PyFloat.floor q = Ok n \/ PyFloat.floor q = Ok (n - 1).
Proof.
  destruct q as [s|s| |s m e]; cbn [PyFloat.to_int PyFloat.floor]; try discriminate.
  - intros [= <-]. left. reflexivity.
  - intros [= <-]. destruct s; cbn [cond_Zopp]; [|left; reflexivity].
    destruct (Z.le_gt_cases 0 e) as [He|He].
    + left. f_equal. rewrite !Z.shiftl_mul_pow2 by lia. lia.
    + rewrite !Z.shiftl_div_pow2 by lia.
      pose proof (pow2_pos (- e) ltac:(lia)) as Hp.
      change (Z.neg m) with (- Z.pos m).
      destruct (Z.eq_dec (Z.pos m mod 2 ^ (- e)) 0) as [Hz|Hnz].
      * left. f_equal. apply Z.div_opp_l_z; lia.
      * right. f_equal. rewrite Z.div_opp_l_nz by lia. lia.
Qed.

Lemma height_delta_total cur wd :
  win32_rect cur -> width cur <> 0 -> height cur <> 0 -> Z.abs wd <= 2 ^ 31 ->
  exists hd, height_delta_of cur wd = Ok hd /\ Z.abs hd <= 2 ^ 63
    /\ (height_delta_floor cur wd = Ok hd
        \/ height_delta_floor cur wd = Ok (hd - 1)).
Proof.
  intros Hwk Hw Hh Hwd.
  pose proof (win32_width cur Hwk). pose proof (win32_height cur Hwk).
  destruct (int_truediv_ratio (width cur) (height cur)) as (r & Hr & Hfr & Hlo);
    [lia|lia|].
  destruct (int_truediv_float_total wd r Hwd Hfr Hlo) as (hd & Hhd & Hb).
  exists hd. unfold height_delta_of, height_delta_floor, wh_ratio.
  rewrite Hr. unfold mbind, result_bind in *. cbn [rbind].
  split; [exact Hhd|]. split; [exact Hb|].
  unfold rbind in *.
  destruct (PyFloat.int_truediv_float wd r) as [q|e]; [|discriminate].
  apply floor_to_int. exact Hhd.
Qed.

Section ResizeClaims.
Context {Σ : Type} `{Host Σ}.

Lemma resize_unfold (self : Window) (wd : Z) (σ : Σ) mon mrect wrect hd :
  MonitorFromWindow (hwnd self) σ = Ok mon ->
  GetMonitorInfo_Work mon σ = Ok mrect ->
  GetWindowRect (hwnd self) σ = Ok wrect ->
  height_delta_of (from_win32_rect wrect) wd = Ok hd ->
  resize self wd σ
  = _resize_move_to_center_of_rect self
      (width (from_win32_rect wrect) + wd)
      (height (from_win32_rect wrect) + hd) (from_win32_rect mrect) σ.
Proof.
  intros E1 E2 E3 Hhd. unfold resize.
  unfold mbind at 1. unfold M_bind at 1.
  rewrite (Monitor_from_hwnd_ok _ _ _ _ E1 E2). cbn [work].
  unfold query, lift. run_M. rewrite E3. cbv beta iota. rewrite Hhd. reflexivity.
Qed.

(** The quotient [width_delta / ratio] behind the height delta. *)
Lemma height_delta_quotient cur wd :
  win32_rect cur -> width cur <> 0 -> height cur <> 0 -> Z.abs wd <= 2 ^ 31 ->
  exists r q,
    wh_ratio cur = Ok r
    /\ PyFloat.int_truediv_float wd r = Ok q
    /\ PyFloat.finite q
    /\ height_delta_of cur wd = Ok (PyFloat.units q ÷ PyFloat.unity)
    /\ height_delta_floor cur wd = Ok (PyFloat.units q / PyFloat.unity)
    /\ Z.abs (PyFloat.units q ÷ PyFloat.unity) <= 2 ^ 63.
Proof.
  intros Hwk Hw Hh Hwd.
  pose proof (win32_width cur Hwk). pose proof (win32_height cur Hwk).
  destruct (int_truediv_ratio (width cur) (height cur)) as (r & Hr & Hfr & Hlo);
    [lia|lia|].
  destruct (int_truediv_float_finite wd r Hwd Hfr Hlo) as (q & Hq & Hfq).
  destruct (height_delta_total cur wd Hwk Hw Hh Hwd) as (hd & Hhd & Hb & _).
  assert (Hd : height_delta_of cur wd = Ok (PyFloat.units q ÷ PyFloat.unity)).
  { unfold height_delta_of, wh_ratio. fold (wh_ratio cur). unfold wh_ratio.
    rewrite Hr. unfold mbind, result_bind. cbn [rbind]. rewrite Hq. cbn [rbind].
    apply to_int_units. exact Hfq. }
  exists r, q. split; [exact Hr|]. split; [exact Hq|]. split; [exact Hfq|].
  split; [exact Hd|]. split.
  - unfold height_delta_floor, wh_ratio. rewrite Hr.
    unfold mbind, result_bind. cbn [rbind]. rewrite Hq. cbn [rbind].
    apply floor_units. exact Hfq.
  - rewrite Hd in Hhd. injection Hhd as <-. exact Hb.
Qed.

(** C5, amended: for a current rectangle with non-zero width and
    height, [resize] computes [height_delta = int(width_delta /
    aspect_ratio)]: with [q] the float quotient, [height_delta] is [q]
    truncated toward zero (the integer of largest magnitude not
    beyond [q], with the sign of [q]), which is [floor(q)] when [q] is
    non-negative or whole and [floor(q) + 1] when [q] is negative and
    not whole; the window is moved to size (width + width_delta,
    height + height_delta).  For 1000 x 500 and a delta of 10 the
    height delta is 5 and the new size (1010, 505). *)
Theorem resize_height_delta_truncates :
  (forall (σ : Σ) (self : Window) (wd : Z) mon mrect wrect,
      MonitorFromWindow (hwnd self) σ = Ok mon ->
      GetMonitorInfo_Work mon σ = Ok mrect ->
      GetWindowRect (hwnd self) σ = Ok wrect ->
      win32_rect (from_win32_rect mrect) ->
      win32_rect (from_win32_rect wrect) ->
      width (from_win32_rect wrect) <> 0 ->
      height (from_win32_rect wrect) <> 0 ->
      Z.abs wd <= 2 ^ 31 ->
      exists r q hd l t,
        wh_ratio (from_win32_rect wrect) = Ok r
        /\ PyFloat.int_truediv_float wd r = Ok q
        /\ PyFloat.finite q
        /\ height_delta_of (from_win32_rect wrect) wd = Ok hd
        /\ hd = PyFloat.units q ÷ PyFloat.unity
        /\ Z.abs hd * PyFloat.unity <= Z.abs (PyFloat.units q)
           < (Z.abs hd + 1) * PyFloat.unity
        /\ (0 <= PyFloat.units q -> 0 <= hd)
        /\ (PyFloat.units q <= 0 -> hd <= 0)
        /\ height_delta_floor (from_win32_rect wrect) wd
           = Ok (PyFloat.units q / PyFloat.unity)
        /\ (0 <= PyFloat.units q \/ PyFloat.units q mod PyFloat.unity = 0 ->
            PyFloat.units q / PyFloat.unity = hd)
        /\ (PyFloat.units q < 0 -> PyFloat.units q mod PyFloat.unity <> 0 ->
            PyFloat.units q / PyFloat.unity = hd - 1)
        /\ resize self wd σ
           = place self l t (width (from_win32_rect wrect) + wd)
               (height (from_win32_rect wrect) + hd) σ)
  /\ (forall cur : Rect, width cur = 1000 -> height cur = 500 ->
        height_delta_of cur 10 = Ok 5
        /\ (width cur + 10, height cur + 5) = (1010, 505)).
Proof.
  split.
  - intros σ self wd mon mrect wrect E1 E2 E3 Hm Hc Hw Hh Hwd.
    destruct (height_delta_quotient _ wd Hc Hw Hh Hwd)
      as (r & q & Hr & Hq & Hfq & Hhd & Hfl & Hb).
    set (u := PyFloat.units q) in *. set (hd := u ÷ PyFloat.unity) in *.
    pose proof (win32_width _ Hc). pose proof (win32_height _ Hc).
    destruct (resize_move_total self (width (from_win32_rect wrect) + wd)
                (height (from_win32_rect wrect) + hd) (from_win32_rect mrect) σ Hm)
      as (l & t & Hpl); [lia|lia|].
    pose proof unity_pos as Hup.
    destruct (quot_div_cases u PyFloat.unity Hup) as [Hsame Hless].
    pose proof (Z.quot_rem' u PyFloat.unity) as Hqr. fold hd in Hqr.
    pose proof (Z.rem_bound_abs u PyFloat.unity ltac:(lia)) as Hrb.
    exists r, q, hd, l, t.
    split; [exact Hr|]. split; [exact Hq|]. split; [exact Hfq|].
    split; [exact Hhd|]. split; [reflexivity|].
    split.
    { destruct (Z.le_gt_cases 0 u) as [Hu|Hu].
      - pose proof (Z.rem_nonneg u PyFloat.unity ltac:(lia) Hu).
        assert (0 <= hd) by (apply Z.quot_pos; lia). nia.
      - pose proof (Z.rem_nonpos u PyFloat.unity ltac:(lia) ltac:(lia)).
        assert (hd <= 0).
        { unfold hd. replace u with (- - u) by lia.
          rewrite Z.quot_opp_l by lia.
          assert (0 <= (- u) ÷ PyFloat.unity) by (apply Z.quot_pos; lia). lia. }
        nia. }
    split; [intros Hu; apply Z.quot_pos; lia|].
    split.
    { intros Hu. unfold hd. replace u with (- - u) by lia.
      rewrite Z.quot_opp_l by lia.
      assert (0 <= (- u) ÷ PyFloat.unity) by (apply Z.quot_pos; lia). lia. }
    split; [exact Hfl|]. split; [exact Hsame|]. split; [exact Hless|].
    rewrite (resize_unfold self wd σ mon mrect wrect hd E1 E2 E3 Hhd). exact Hpl.
  - intros cur Hw Hh. unfold height_delta_of, wh_ratio. rewrite Hw, Hh.
    split; [vm_compute; reflexivity|reflexivity].
Qed.

(** C7, amended: when the monitor lookup or the rectangle lookup
    raises, or the current rectangle has height 0, [center] and [resize]
    raise (the lookup's own error, or [ZeroDivisionError]) before any
    call that changes the host; and whatever a clicked [center],
    [resize(10)] or [resize(-10)] raises, for a window anywhere in the
    list, leaves [main], the consumer's frame: nothing converts or
    catches it.  [σ] is the host when the window's turn comes. *)
Theorem geometry_failure_propagates (σ : Σ) (self : Window) :
  (forall ratio wd e,
      (Monitor_from_hwnd (hwnd self) σ).1 = Raise e ->
      center self ratio σ = (Raise e, σ) /\ resize self wd σ = (Raise e, σ))
  /\ (forall wd m e,
        (Monitor_from_hwnd (hwnd self) σ).1 = Ok m ->
        GetWindowRect (hwnd self) σ = Raise e ->
        resize self wd σ = (Raise e, σ))
  /\ (forall wd m r,
        (Monitor_from_hwnd (hwnd self) σ).1 = Ok m ->
        GetWindowRect (hwnd self) σ = Ok r ->
        height (from_win32_rect r) = 0 ->
        resize self wd σ = (Raise ZeroDivisionError, σ))
  /\ (forall (clicked : Z -> Button -> bool) (pre rest : list Window)
             (world world1 : World Σ) e σ',
        main_windows clicked pre world = (Ok (), world1) ->
        w_host world1 = σ ->
        (clicked (hwnd self) BtnCenter = true
         /\ center self PyFloat.lit_0_8 σ = (Raise e, σ'))
        \/ (exists σa,
              (if clicked (hwnd self) BtnCenter
               then center self PyFloat.lit_0_8 else mret ()) σ = (Ok (), σa)
              /\ clicked (hwnd self) BtnBigger = true
              /\ resize self 10 σa = (Raise e, σ'))
        \/ (exists σa σb,
              (if clicked (hwnd self) BtnCenter
               then center self PyFloat.lit_0_8 else mret ()) σ = (Ok (), σa)
              /\ (if clicked (hwnd self) BtnBigger
                  then resize self 10 else mret ()) σa = (Ok (), σb)
              /\ clicked (hwnd self) BtnSmaller = true
              /\ resize self (-10) σb = (Raise e, σ')) ->
        exists world',
          main (mkService (pre ++ self :: rest)) clicked world = (Raise e, world')
          /\ w_host world' = σ')
  /\ (forall (clicked : Z -> Button -> bool) (pre rest : list Window)
             (world world1 : World Σ) e,
        main_windows clicked pre world = (Ok (), world1) ->
        w_host world1 = σ ->
        (Monitor_from_hwnd (hwnd self) σ).1 = Raise e ->
        clicked (hwnd self) BtnCenter = true
        \/ clicked (hwnd self) BtnBigger = true
        \/ clicked (hwnd self) BtnSmaller = true ->
        exists world',
          main (mkService (pre ++ self :: rest)) clicked world = (Raise e, world')
          /\ w_host world' = σ)
  /\ (forall (clicked : Z -> Button -> bool) (pre rest : list Window)
             (world world1 : World Σ) m e,
        main_windows clicked pre world = (Ok (), world1) ->
        w_host world1 = σ ->
        (Monitor_from_hwnd (hwnd self) σ).1 = Ok m ->
        GetWindowRect (hwnd self) σ = Raise e
        \/ (exists r, GetWindowRect (hwnd self) σ = Ok r
                      /\ height (from_win32_rect r) = 0
                      /\ e = ZeroDivisionError) ->
        clicked (hwnd self) BtnCenter = false ->
        clicked (hwnd self) BtnBigger = true
        \/ clicked (hwnd self) BtnSmaller = true ->
        exists world',
          main (mkService (pre ++ self :: rest)) clicked world = (Raise e, world')
          /\ w_host world' = σ).
Proof.
  pose proof (Monitor_from_hwnd_pure (hwnd self) σ) as Hpure.
  destruct (Monitor_from_hwnd (hwnd self) σ) as [rm σm] eqn:Em.
  cbn [fst snd] in *. subst σm.
  assert (Hmon : forall ratio wd e, rm = Raise e ->
            center self ratio σ = (Raise e, σ) /\ resize self wd σ = (Raise e, σ)).
  { intros ratio wd e ->. unfold center, resize.
    unfold mbind at 1. unfold M_bind at 1. rewrite Em.
    unfold mbind at 1. unfold M_bind at 1. rewrite Em. done. }
  assert (Hrect : forall wd m e, rm = Ok m ->
            GetWindowRect (hwnd self) σ = Raise e ->
            resize self wd σ = (Raise e, σ)).
  { intros wd m e -> E3. unfold resize.
    unfold mbind at 1. unfold M_bind at 1. rewrite Em.
    unfold query. run_M. rewrite E3. reflexivity. }
  assert (Hflat : forall wd m r, rm = Ok m ->
            GetWindowRect (hwnd self) σ = Ok r ->
            height (from_win32_rect r) = 0 ->
            resize self wd σ = (Raise ZeroDivisionError, σ)).
  { intros wd m r -> E3 Hh0. unfold resize.
    unfold mbind at 1. unfold M_bind at 1. rewrite Em.
    unfold query, lift. run_M. rewrite E3. cbv beta iota.
    unfold height_delta_of, wh_ratio, PyFloat.int_truediv. rewrite Hh0.
    reflexivity. }
  assert (Hmain : forall (clicked : Z -> Button -> bool) (pre rest : list Window)
             (world world1 : World Σ) e σ',
        main_windows clicked pre world = (Ok (), world1) ->
        w_host world1 = σ ->
        (clicked (hwnd self) BtnCenter = true
         /\ center self PyFloat.lit_0_8 σ = (Raise e, σ'))
        \/ (exists σa,
              (if clicked (hwnd self) BtnCenter
               then center self PyFloat.lit_0_8 else mret ()) σ = (Ok (), σa)
              /\ clicked (hwnd self) BtnBigger = true
              /\ resize self 10 σa = (Raise e, σ'))
        \/ (exists σa σb,
              (if clicked (hwnd self) BtnCenter
               then center self PyFloat.lit_0_8 else mret ()) σ = (Ok (), σa)
              /\ (if clicked (hwnd self) BtnBigger
                  then resize self 10 else mret ()) σa = (Ok (), σb)
              /\ clicked (hwnd self) BtnSmaller = true
              /\ resize self (-10) σb = (Raise e, σ')) ->
        exists world',
          main (mkService (pre ++ self :: rest)) clicked world = (Raise e, world')
          /\ w_host world' = σ').
  { intros clicked pre rest world world1 e σ' Hpre Hw Hcase.
    enough (Hmw : exists world', main_window clicked self world1 = (Raise e, world')
                                 /\ w_host world' = σ').
    { destruct Hmw as (world' & Hrun & Hh). exists world'.
      split; [|exact Hh]. eapply main_raises_at; eassumption. }
    rewrite main_window_eq.
    destruct (WindowStateStore___getitem__ (w_store world1) self (w_heap world1))
      as [[r S'] h']. cbv zeta. rewrite Hw. run_M.
    destruct Hcase as [(Hc & Hres)|[(σa & Hca & Hb & Hres)
                                   |(σa & σb & Hca & Hcb & Hs & Hres)]].
    - rewrite Hc, Hres. eexists. split; reflexivity.
    - rewrite Hb. destruct (clicked (hwnd self) BtnCenter).
      + rewrite Hca, Hres. eexists. split; reflexivity.
      + unfold mret, M_ret in Hca. injection Hca as <-.
        rewrite Hres. eexists. split; reflexivity.
    - rewrite Hs. destruct (clicked (hwnd self) BtnCenter);
        [rewrite Hca|unfold mret, M_ret in Hca; injection Hca as <-];
        (destruct (clicked (hwnd self) BtnBigger);
         [rewrite Hcb|unfold mret, M_ret in Hcb; injection Hcb as <-]);
        rewrite Hres; eexists; split; reflexivity. }
  split; [exact Hmon|]. split; [exact Hrect|]. split; [exact Hflat|].
  split; [exact Hmain|]. split.
  - intros clicked pre rest world world1 e Hpre Hw Hm Hclick.
    destruct (Hmon PyFloat.lit_0_8 10 e Hm) as [Hc Hb].
    destruct (Hmon PyFloat.lit_0_8 (-10) e Hm) as [_ Hs].
    apply (Hmain clicked pre rest world world1 e σ Hpre Hw).
    destruct (clicked (hwnd self) BtnCenter) eqn:Ec; [left; done|].
    destruct (clicked (hwnd self) BtnBigger) eqn:Eb.
    { right. left. exists σ. done. }
    destruct Hclick as [Hx|[Hx|Hx]]; try discriminate.
    right. right. exists σ, σ. done.
  - intros clicked pre rest world world1 m e Hpre Hw Hm Hfail Hc Hclick.
    assert (Hres : forall wd, resize self wd σ = (Raise e, σ)).
    { intros wd. destruct Hfail as [E3|(r & E3 & Hh0 & ->)].
      - eapply Hrect; eassumption.
      - eapply Hflat; eassumption. }
    apply (Hmain clicked pre rest world world1 e σ Hpre Hw). rewrite Hc.
    destruct (clicked (hwnd self) BtnBigger) eqn:Eb.
    { right. left. exists σ. split; [reflexivity|]. split; [reflexivity|apply Hres]. }
    destruct Hclick as [Hx|Hx]; try discriminate.
    right. right. exists σ, σ. split; [reflexivity|]. split; [reflexivity|].
    split; [exact Hx|apply Hres].
Qed.
End ResizeClaims.

(** * Discovery *)

Section DiscoveryClaims.
Context {Σ : Type} `{Host Σ}.

Lemma run_callbacks_app (σ : Σ) pre post acc :
  run_callbacks σ (pre ++ post) acc
  = run_callbacks σ pre acc ≫= λ acc' : list Window, run_callbacks σ post acc'.
Proof.
  revert acc. induction pre as [|h pre IH]; intros acc; [reflexivity|].
  cbn [app run_callbacks]. unfold mbind, result_bind.
  destruct (enum_windows_callback σ h acc) as [acc'|e]; cbn [rbind]; [|reflexivity].
  apply IH.
Qed.

(** A window that passes every filter but whose process cannot be
    resolved makes the callback raise. *)
Lemma callback_unresolved (σ : Σ) (h : Z) (acc : list Window) tid p e :
  IsWindowVisible h σ = true ->
  GetWindowText h σ <> EmptyString ->
  GetWindow_OWNER h σ = Ok 0 ->
  GetWindowThreadProcessId h σ = Ok (tid, p) ->
  p <> getpid σ ->
  psutil_Process p σ = Raise e
  \/ (exists pr, psutil_Process p σ = Ok pr /\ create_time pr σ = Raise e) ->
  enum_windows_callback σ h acc = Raise e.
Proof.
  intros Hv Ht Ho Hp Hself Hres. unfold enum_windows_callback.
  rewrite Hv. cbn [negb].
  destruct (String.eqb_spec (GetWindowText h σ) "") as [E|_]; [contradiction|].
  rewrite Ho. unfold mbind, result_bind. cbn [rbind Z.eqb negb].
  rewrite Hp. cbn [rbind snd].
  destruct (Z.eqb_spec p (getpid σ)) as [E|_]; [contradiction|].
  destruct Hres as [->|(pr & -> & Hc)]; cbn [rbind]; [reflexivity|].
  rewrite Hc. reflexivity.
Qed.

(** C6, amended: a window that passes every filter but whose process
    cannot be resolved ([psutil.Process] raises, or [create_time]
    does) is not skipped: its callback raises, a callback that raises
    aborts the poll, and [_run] re-raises and publishes nothing (the
    previous list stays).  [_run] publishes only when every callback
    has returned, and then the list they built. *)
Theorem poll_aborts_on_unresolved (σ : Σ) (waited : bool) (self : Service) :
  (forall hs ws,
      EnumWindows_handles σ = Ok hs -> run_callbacks σ hs [] = Ok ws ->
      _run σ waited self = (Ok waited, mkService ws))
  /\ (forall hs pre h post acc e,
        EnumWindows_handles σ = Ok hs -> hs = pre ++ h :: post ->
        run_callbacks σ pre [] = Ok acc ->
        enum_windows_callback σ h acc = Raise e ->
        _run σ waited self = (Raise e, self))
  /\ (forall h acc tid p e,
        IsWindowVisible h σ = true ->
        GetWindowText h σ <> EmptyString ->
        GetWindow_OWNER h σ = Ok 0 ->
        GetWindowThreadProcessId h σ = Ok (tid, p) ->
        p <> getpid σ ->
        psutil_Process p σ = Raise e
        \/ (exists pr, psutil_Process p σ = Ok pr /\ create_time pr σ = Raise e) ->
        enum_windows_callback σ h acc = Raise e)
  /\ (forall pre h post acc tid p e,
        EnumWindows_handles σ = Ok (pre ++ h :: post) ->
        run_callbacks σ pre [] = Ok acc ->
        IsWindowVisible h σ = true ->
        GetWindowText h σ <> EmptyString ->
        GetWindow_OWNER h σ = Ok 0 ->
        GetWindowThreadProcessId h σ = Ok (tid, p) ->
        p <> getpid σ ->
        psutil_Process p σ = Raise e
        \/ (exists pr, psutil_Process p σ = Ok pr /\ create_time pr σ = Raise e) ->
        _run σ waited self = (Raise e, self))
  /\ (forall b self',
        _run σ waited self = (Ok b, self') ->
        b = waited
        /\ exists hs, EnumWindows_handles σ = Ok hs
                      /\ run_callbacks σ hs [] = Ok (windows self')).
Proof.
  assert (Habort : forall hs pre h post acc e,
        EnumWindows_handles σ = Ok hs -> hs = pre ++ h :: post ->
        run_callbacks σ pre [] = Ok acc ->
        enum_windows_callback σ h acc = Raise e ->
        _run σ waited self = (Raise e, self)).
  { intros hs pre h post acc e E1 -> E2 E3. unfold _run, EnumWindows. rewrite E1.
    unfold mbind at 1. unfold result_bind. cbn [rbind].
    rewrite run_callbacks_app, E2. unfold mbind, result_bind. cbn [rbind run_callbacks].
    rewrite E3. reflexivity. }
  split; [|split; [|split; [|split]]].
  - intros hs ws E1 E2. unfold _run, EnumWindows. rewrite E1.
    unfold mbind, result_bind. cbn [rbind]. rewrite E2. reflexivity.
  - exact Habort.
  - intros h acc tid p e Hv Ht Ho Hp Hs Hr.
    apply (callback_unresolved σ h acc tid p e); auto.
  - intros pre h post acc tid p e E1 E2 Hv Ht Ho Hp Hs Hr.
    apply (Habort (pre ++ h :: post) pre h post acc e E1 eq_refl E2).
    apply (callback_unresolved σ h acc tid p e); auto.
  - intros b self'. unfold _run, EnumWindows. unfold mbind, result_bind.
    destruct (EnumWindows_handles σ) as [hs|e] eqn:E1; cbn [rbind].
    + destruct (run_callbacks σ hs []) as [ws|e] eqn:E2; [|discriminate].
      intros [= <- <-]. split; [reflexivity|]. exists hs. done.
    + discriminate.
Qed.

Lemma _run_raise (σ : Σ) waited self e :
  EnumWindows σ = Raise e -> _run σ waited self = (Raise e, self).
Proof. intros E. unfold _run. rewrite E. reflexivity. Qed.

Lemma _run_ok (σ : Σ) waited self ws :
  EnumWindows σ = Ok ws -> _run σ waited self = (Ok waited, mkService ws).
Proof. intros E. unfold _run. rewrite E. reflexivity. Qed.

(** C8, amended: the polling loop ends at the first cycle that either
    observes cancellation (at the test or during the wait) or whose
    enumeration raises; in the second case the exception leaves the loop. *)
Theorem loop_ends_on_cancel_or_error (cycles : list Cycle) (self : Service) :
  match (_loop cycles self).1 with
  | Returned =>
      exists pre c post, cycles = pre ++ c :: post /\ Forall quiet pre
        /\ (is_set c = true
            \/ (is_set c = false /\ is_Ok (EnumWindows (host c)) = true
                /\ wait_1 c = true))
  | Propagated e =>
      exists pre c post, cycles = pre ++ c :: post /\ Forall quiet pre
        /\ is_set c = false /\ EnumWindows (host c) = Raise e
  | Polling => Forall quiet cycles
  end.
Proof.
  revert self. induction cycles as [|c cycles IH]; intros self.
  - cbn. constructor.
  - cbn [_loop]. destruct (is_set c) eqn:Es.
    { cbn [fst]. exists [], c, cycles. split; [reflexivity|].
      split; [constructor|]. left. exact Es. }
    destruct (EnumWindows (host c)) as [ws|e] eqn:Ee.
    + rewrite (_run_ok _ _ _ ws Ee). destruct (wait_1 c) eqn:Ew.
      { cbn [fst]. exists [], c, cycles. split; [reflexivity|].
        split; [constructor|]. right. rewrite Ee. done. }
      assert (Hq : quiet c) by (unfold quiet; rewrite Es, Ee, Ew; done).
      specialize (IH (mkService ws)).
      destruct (_loop cycles (mkService ws)).1 as [|e|].
      * destruct IH as (pre & c' & post & -> & Hpre & Hc').
        exists (c :: pre), c', post. split; [reflexivity|].
        split; [constructor; assumption|exact Hc'].
      * destruct IH as (pre & c' & post & -> & Hpre & Hc').
        exists (c :: pre), c', post. split; [reflexivity|].
        split; [constructor; assumption|exact Hc'].
      * constructor; assumption.
    + rewrite (_run_raise _ _ _ e Ee). cbn [fst].
      exists [], c, cycles. split; [reflexivity|]. split; [constructor|]. done.
Qed.
End DiscoveryClaims.

(** * Discovery: what a poll publishes and why it fails *)

Section DiscoveryFacts.
Context {Σ : Type} `{Host Σ}.

(** One callback either leaves the list alone or appends one window
    read from the host; it appends exactly for the candidates. *)
Lemma callback_ok (σ : Σ) (h : Z) (acc acc' : list Window) :
  enum_windows_callback σ h acc = Ok acc' ->
  (acc' = acc /\ ~ candidate σ h)
  \/ (exists w, acc' = acc ++ [w] /\ hwnd w = h /\ discovered σ w
                /\ candidate σ h).
Proof.
  unfold enum_windows_callback, candidate, discovered.
  destruct (IsWindowVisible h σ) eqn:Hv; cbn [negb].
  2:{ intros [= <-]. left. split; [reflexivity|]. intros (Hc & _). discriminate. }
  destruct (String.eqb_spec (GetWindowText h σ) "") as [Et|Et].
  { intros [= <-]. left. split; [reflexivity|]. intros (_ & Hc & _). contradiction. }
  unfold mbind, result_bind.
  destruct (GetWindow_OWNER h σ) as [owner|e] eqn:Ho; cbn [rbind]; [|discriminate].
  destruct (Z.eqb_spec owner 0) as [->|Hne]; cbn [negb].
  2:{ intros [= <-]. left. split; [reflexivity|].
      intros (_ & _ & [= Hc] & _). contradiction. }
  destruct (GetWindowThreadProcessId h σ) as [[tid p]|e] eqn:Hp; cbn [rbind snd];
    [|discriminate].
  destruct (Z.eqb_spec p (getpid σ)) as [Es|Es].
  { intros [= <-]. left. split; [reflexivity|].
    intros (_ & _ & _ & tid' & p' & [= _ <-] & Hc). contradiction. }
  destruct (psutil_Process p σ) as [pr|e] eqn:Hpr; cbn [rbind]; [|discriminate].
  destruct (create_time pr σ) as [t|e] eqn:Hct; cbn [rbind]; [|discriminate].
  intros [= <-]. right. eexists. split; [reflexivity|]. cbn [hwnd title pid proc
    process_created_at].
  split; [reflexivity|]. split.
  - rewrite Hv, Ho, Hp, Hpr, Hct. repeat split; try done. exists tid. reflexivity.
  - repeat split; try done. exists tid, p. done.
Qed.

Lemma callback_raise (σ : Σ) (h : Z) (acc : list Window) e :
  enum_windows_callback σ h acc = Raise e -> query_raised σ h e.
Proof.
  unfold enum_windows_callback, query_raised.
  destruct (IsWindowVisible h σ) eqn:Hv; cbn [negb]; [|discriminate].
  destruct (String.eqb_spec (GetWindowText h σ) "") as [Et|Et]; [discriminate|].
  unfold mbind, result_bind.
  destruct (GetWindow_OWNER h σ) as [owner|e'] eqn:Ho; cbn [rbind].
  2:{ intros [= ->]. split; [reflexivity|]. split; [exact Et|]. left. reflexivity. }
  destruct (Z.eqb_spec owner 0) as [->|Hne]; cbn [negb]; [|discriminate].
  destruct (GetWindowThreadProcessId h σ) as [[tid p]|e'] eqn:Hp; cbn [rbind snd].
  2:{ intros [= ->]. split; [reflexivity|]. split; [exact Et|]. right.
      split; [reflexivity|]. left. reflexivity. }
  destruct (Z.eqb_spec p (getpid σ)) as [Es|Es]; [discriminate|].
  intros Hr. split; [reflexivity|]. split; [exact Et|]. right.
  split; [reflexivity|]. right. exists tid, p. split; [reflexivity|].
  split; [exact Es|].
  destruct (psutil_Process p σ) as [pr|e'] eqn:Hpr; cbn [rbind] in Hr.
  2:{ injection Hr as ->. left. reflexivity. }
  destruct (create_time pr σ) as [t|e'] eqn:Hct; cbn [rbind] in Hr; [discriminate|].
  injection Hr as ->. right. exists pr. done.
Qed.

Lemma run_callbacks_ok (σ : Σ) (hs : list Z) (acc ws : list Window) :
  run_callbacks σ hs acc = Ok ws ->
  exists new, ws = acc ++ new
    /\ Forall (discovered σ) new
    /\ sublist (hwnd <$> new) hs
    /\ (forall h, h ∈ hs -> candidate σ h -> h ∈ hwnd <$> new)
    /\ (forall h, h ∈ hwnd <$> new -> candidate σ h).
Proof.
  revert acc. induction hs as [|h hs IH]; intros acc; cbn [run_callbacks].
  - intros [= <-]. exists []. rewrite app_nil_r. split; [reflexivity|].
    split; [constructor|]. split; [constructor|]. split.
    + intros h Hin. apply elem_of_nil in Hin. contradiction.
    + intros h Hin. apply elem_of_nil in Hin. contradiction.
  - unfold mbind, result_bind.
    destruct (enum_windows_callback σ h acc) as [acc1|e] eqn:Ec; cbn [rbind];
      [|discriminate].
    intros Hrest. destruct (IH _ Hrest) as (new & -> & Hd & Hsub & Hall & Hcand).
    destruct (callback_ok σ h acc acc1 Ec) as [[-> Hnc]|(w & -> & Hw & Hdw & Hcw)].
    + exists new. split; [reflexivity|]. split; [exact Hd|].
      split; [apply sublist_cons_r; left; exact Hsub|]. split; [|exact Hcand].
      intros h' Hin Hc. apply elem_of_cons in Hin as [->|Hin]; [contradiction|].
      apply Hall; assumption.
    + exists (w :: new). split; [rewrite <- app_assoc; reflexivity|].
      split; [constructor; assumption|]. cbn [fmap list_fmap]. rewrite Hw.
      split; [apply sublist_skip; exact Hsub|]. split.
      * intros h' Hin Hc. apply elem_of_cons in Hin as [->|Hin];
          [apply elem_of_cons; left; reflexivity|].
        apply elem_of_cons. right. apply Hall; assumption.
      * intros h' Hin. apply elem_of_cons in Hin as [->|Hin]; [exact Hcw|].
        apply Hcand. exact Hin.
Qed.

(** X1: a successful poll publishes exactly the candidate handles, in
    enumeration order, each with the fields the host answered. *)
Theorem poll_publishes_candidates (σ : Σ) (hs : list Z) (ws : list Window) :
  EnumWindows_handles σ = Ok hs ->
  EnumWindows σ = Ok ws ->
  Forall (discovered σ) ws
  /\ sublist (hwnd <$> ws) hs
  /\ (forall h, h ∈ hs -> (candidate σ h <-> h ∈ hwnd <$> ws))
  /\ (NoDup hs -> NoDup (hwnd <$> ws))
  /\ (forall waited self, _run σ waited self = (Ok waited, mkService ws)).
Proof.
  intros Eh Er. pose proof Er as Hr. unfold EnumWindows in Hr. rewrite Eh in Hr.
  unfold mbind, result_bind in Hr. cbn [rbind] in Hr.
  destruct (run_callbacks_ok σ hs [] ws Hr) as (new & -> & Hd & Hsub & Hall & Hc).
  cbn [app] in *. split; [exact Hd|]. split; [exact Hsub|]. split; [|split].
  - intros h Hin. split; [apply Hall; exact Hin|apply Hc].
  - intros Hnd. eapply sublist_NoDup; eassumption.
  - intros waited self. apply _run_ok. exact Er.
Qed.

Lemma run_callbacks_raise (σ : Σ) (hs : list Z) (acc : list Window) e :
  run_callbacks σ hs acc = Raise e ->
  exists h, h ∈ hs /\ query_raised σ h e.
Proof.
  revert acc. induction hs as [|h hs IH]; intros acc; cbn [run_callbacks];
    [discriminate|].
  unfold mbind, result_bind.
  destruct (enum_windows_callback σ h acc) as [acc1|e'] eqn:Ec; cbn [rbind].
  - intros Hr. destruct (IH _ Hr) as (h' & Hin & Hq). exists h'.
    split; [apply elem_of_cons; right; exact Hin|exact Hq].
  - intros [= ->]. exists h. split; [apply elem_of_cons; left; reflexivity|].
    eapply callback_raise. exact Ec.
Qed.

Lemma query_raised_callback (σ : Σ) (h : Z) (acc : list Window) e :
  query_raised σ h e -> enum_windows_callback σ h acc = Raise e.
Proof.
  intros (Hv & Ht & Hq). unfold enum_windows_callback. rewrite Hv. cbn [negb].
  destruct (String.eqb_spec (GetWindowText h σ) "") as [E|_]; [contradiction|].
  unfold mbind, result_bind.
  destruct Hq as [->|(-> & Hq)]; cbn [rbind Z.eqb negb]; [reflexivity|].
  destruct Hq as [->|(tid & p & -> & Hs & Hq)]; cbn [rbind snd]; [reflexivity|].
  destruct (Z.eqb_spec p (getpid σ)) as [E|_]; [contradiction|].
  destruct Hq as [->|(pr & -> & Hc)]; cbn [rbind]; [reflexivity|].
  rewrite Hc. reflexivity.
Qed.

Lemma run_callbacks_raises (σ : Σ) (hs : list Z) (acc : list Window) h e :
  h ∈ hs -> query_raised σ h e -> exists e', run_callbacks σ hs acc = Raise e'.
Proof.
  revert acc. induction hs as [|h0 hs IH]; intros acc Hin Hq.
  { apply elem_of_nil in Hin. contradiction. }
  cbn [run_callbacks]. unfold mbind, result_bind.
  destruct (enum_windows_callback σ h0 acc) as [acc1|e'] eqn:Ec; cbn [rbind];
    [|exists e'; reflexivity].
  apply elem_of_cons in Hin as [->|Hin].
  - rewrite (query_raised_callback σ h0 acc e Hq) in Ec. discriminate.
  - apply IH; assumption.
Qed.

Lemma run_callbacks_no_cause (σ : Σ) (hs : list Z) (acc : list Window) :
  (forall h e, h ∈ hs -> ~ query_raised σ h e) ->
  exists ws, run_callbacks σ hs acc = Ok ws.
Proof.
  intros Hno. destruct (run_callbacks σ hs acc) as [ws|e] eqn:Er; [eauto|].
  destruct (run_callbacks_raise σ hs acc e Er) as (h & Hin & Hq).
  exfalso. exact (Hno h e Hin Hq).
Qed.

(** X2: a poll fails exactly when the enumeration call fails or a query
    on a visible, titled window fails: the enumeration call's error is
    the poll's; otherwise the error is that of the first window with a
    failing query; without either the poll succeeds.  [_run] passes
    the failure on and publishes nothing.  Hidden and untitled windows
    are never asked anything that could fail. *)
Theorem poll_fails_for_a_cause (σ : Σ) :
  (forall e, EnumWindows_handles σ = Raise e -> EnumWindows σ = Raise e)
  /\ (forall pre h post e,
        EnumWindows_handles σ = Ok (pre ++ h :: post) ->
        (forall h' e', h' ∈ pre -> ~ query_raised σ h' e') ->
        query_raised σ h e ->
        EnumWindows σ = Raise e)
  /\ (forall e, EnumWindows σ = Raise e ->
        EnumWindows_handles σ = Raise e
        \/ exists hs h, EnumWindows_handles σ = Ok hs /\ h ∈ hs
                        /\ query_raised σ h e)
  /\ (forall hs h e, EnumWindows_handles σ = Ok hs -> h ∈ hs ->
        query_raised σ h e -> exists e', EnumWindows σ = Raise e')
  /\ (forall hs, EnumWindows_handles σ = Ok hs ->
        (forall h e, h ∈ hs -> ~ query_raised σ h e) ->
        exists ws, EnumWindows σ = Ok ws)
  /\ (forall waited self e,
        EnumWindows σ = Raise e -> _run σ waited self = (Raise e, self)).
Proof.
  assert (Hcause : forall e, EnumWindows σ = Raise e ->
     EnumWindows_handles σ = Raise e
     \/ exists hs h, EnumWindows_handles σ = Ok hs /\ h ∈ hs
                     /\ query_raised σ h e).
  { intros e. unfold EnumWindows. unfold mbind, result_bind.
    destruct (EnumWindows_handles σ) as [hs|e'] eqn:Eh; cbn [rbind].
    - intros Hr. right.
      destruct (run_callbacks_raise σ hs [] e Hr) as (h & Hin & Hq).
      exists hs, h. done.
    - intros [= ->]. left. reflexivity. }
  split; [|split; [|split; [|split; [|split]]]].
  - intros e Eh. unfold EnumWindows. rewrite Eh. reflexivity.
  - intros pre h post e Eh Hno Hq. unfold EnumWindows. rewrite Eh.
    unfold mbind at 1. unfold result_bind. cbn [rbind].
    rewrite run_callbacks_app.
    destruct (run_callbacks_no_cause σ pre [] Hno) as (acc & ->).
    unfold mbind, result_bind. cbn [rbind run_callbacks].
    rewrite (query_raised_callback σ h acc e Hq). reflexivity.
  - exact Hcause.
  - intros hs h e Eh Hin Hq. unfold EnumWindows. rewrite Eh.
    unfold mbind, result_bind. cbn [rbind].
    eapply run_callbacks_raises; eassumption.
  - intros hs Eh Hno. unfold EnumWindows. rewrite Eh.
    unfold mbind, result_bind. cbn [rbind].
    apply run_callbacks_no_cause. exact Hno.
  - intros waited self e Er. apply _run_raise. exact Er.
Qed.
End DiscoveryFacts.

(** * The worker loop: cancellation and the last published list *)

Section LoopFacts.
Context {Σ : Type} `{Host Σ}.

Lemma _loop_quiet (c : Cycle) (rest : list Cycle) (self : Service) :
  quiet c ->
  exists ws, EnumWindows (host c) = Ok ws
             /\ _loop (c :: rest) self = _loop rest (mkService ws).
Proof.
  intros (Hs & Ho & Hw). cbn [_loop]. rewrite Hs.
  destruct (EnumWindows (host c)) as [ws|e] eqn:Ee; [|discriminate].
  exists ws. split; [reflexivity|].
  rewrite (_run_ok _ _ _ ws Ee), Hw. reflexivity.
Qed.

(** X3: a cycle that observes the flag, at the test or during the wait,
    is the last one: the loop has ended by then, whatever cycles would
    follow, and when the flag is seen at the test no poll is made in
    that cycle. *)
Theorem cancellation_is_honoured
    (pre post : list Cycle) (c : Cycle) (self : Service) :
  is_set c = true \/ wait_1 c = true ->
  (_loop (pre ++ c :: post) self).1 <> Polling
  /\ _loop (pre ++ c :: post) self = _loop (pre ++ [c]) self
  /\ (is_set c = true -> Forall quiet pre ->
      _loop (pre ++ c :: post) self = (Returned, (_loop pre self).2)).
Proof.
  intros Hc. revert self. induction pre as [|c0 pre IH]; intros self.
  - cbn [app _loop]. destruct (is_set c) eqn:Es.
    { split; [cbn; discriminate|]. split; [reflexivity|]. reflexivity. }
    destruct Hc as [Hc|Hc]; [discriminate|].
    destruct (EnumWindows (host c)) as [ws|e] eqn:Ee.
    + rewrite (_run_ok _ _ _ ws Ee), Hc.
      split; [cbn; discriminate|]. split; [reflexivity|]. discriminate.
    + rewrite (_run_raise _ _ _ e Ee).
      split; [cbn; discriminate|]. split; [reflexivity|]. discriminate.
  - cbn [app _loop]. destruct (is_set c0) eqn:Es0.
    { split; [cbn; discriminate|]. split; [reflexivity|].
      intros _ Hq. apply Forall_cons in Hq as [(Hq & _) _]. congruence. }
    destruct (_run (host c0) (wait_1 c0) self) as [[[]|e] self'] eqn:Er.
    + split; [cbn; discriminate|]. split; [reflexivity|].
      intros _ Hq. apply Forall_cons in Hq as [(_ & Ho & Hw) _].
      destruct (EnumWindows (host c0)) as [ws|e] eqn:Ee; [|discriminate].
      rewrite (_run_ok _ _ _ ws Ee), Hw in Er. discriminate.
    + destruct (IH self') as (H1 & H2 & H3). split; [exact H1|].
      split; [exact H2|]. intros Hs Hq. apply Forall_cons in Hq as [_ Hq].
      apply H3; assumption.
    + split; [cbn; discriminate|]. split; [reflexivity|].
      intros _ Hq. apply Forall_cons in Hq as [(_ & Ho & _) _].
      destruct (EnumWindows (host c0)) as [ws|e'] eqn:Ee; [|discriminate].
      rewrite (_run_ok _ _ _ ws Ee) in Er. discriminate.
Qed.

(** X4: when the loop ends in a cycle that publishes nothing (the flag is
    set at the test, or the poll raises), the list left for the
    consumer is the one of the last poll before it; with no poll
    before, the list is untouched.  A failed poll never leaves a
    partial list. *)
Theorem worker_leaves_last_poll
    (pre post : list Cycle) (c : Cycle) (self : Service) :
  Forall quiet pre ->
  is_set c = true \/ (exists e, EnumWindows (host c) = Raise e) ->
  match last pre with
  | None => (_loop (pre ++ c :: post) self).2 = self
  | Some c0 =>
      EnumWindows (host c0) = Ok (windows (_loop (pre ++ c :: post) self).2)
  end.
Proof.
  intros Hq Hc. revert self. induction Hq as [|c1 pre Hq1 Hq IH]; intros self.
  - cbn [last app _loop]. destruct (is_set c) eqn:Es; [reflexivity|].
    destruct Hc as [Hc|(e & Hc)]; [discriminate|].
    rewrite (_run_raise _ _ _ e Hc). reflexivity.
  - destruct (_loop_quiet c1 (pre ++ c :: post) self Hq1) as (ws & Ee & El).
    change ((c1 :: pre) ++ c :: post) with (c1 :: (pre ++ c :: post)).
    rewrite El. specialize (IH (mkService ws)).
    destruct pre as [|c2 pre'].
    + cbn [last] in *. rewrite IH. exact Ee.
    + change (last (c1 :: c2 :: pre')) with (last (c2 :: pre')).
      destruct (last (c2 :: pre')) eqn:El2; [exact IH|].
      apply last_None in El2. discriminate.
Qed.
End LoopFacts.

(** * The state store: invariants, independence, purge *)

Lemma getitem_keyed S h key :
  store_keyed S -> store_keyed (WindowStateStore___getitem__ S key h).1.2.
Proof.
  intros Hk. destruct (store S !! hwnd key) as [[w r]|] eqn:E.
  - rewrite (getitem_present S h key w r E). exact Hk.
  - rewrite (getitem_absent S h key E). cbn [fst snd]. intros k w r. cbn [store].
    destruct (decide (k = hwnd key)) as [->|Hne].
    + rewrite lookup_insert_eq. intros [= <- <-]. reflexivity.
    + rewrite lookup_insert_ne by congruence. apply Hk.
Qed.

Lemma getitem_unaliased S h key :
  store_wf S h -> store_unaliased S ->
  store_unaliased (WindowStateStore___getitem__ S key h).1.2.
Proof.
  intros Hwf Hu. destruct (store S !! hwnd key) as [[w r]|] eqn:E.
  - rewrite (getitem_present S h key w r E). exact Hu.
  - rewrite (getitem_absent S h key E). cbn [fst snd].
    assert (Hfresh : forall k w r, store S !! k = Some (w, r) -> r <> fresh (dom h)).
    { intros k w r Hk ->. destruct (Hwf k w _ Hk) as [st Hst].
      rewrite fresh_not_in_heap in Hst. discriminate. }
    intros k1 k2 w1 w2 r. cbn [store].
    destruct (decide (k1 = hwnd key)) as [->|H1];
      destruct (decide (k2 = hwnd key)) as [->|H2]; [reflexivity| | |].
    + rewrite lookup_insert_eq, lookup_insert_ne by congruence.
      intros [= <- <-] Hk. exfalso. exact (Hfresh _ _ _ Hk eq_refl).
    + rewrite lookup_insert_eq, lookup_insert_ne by congruence.
      intros Hk [= <- <-]. exfalso. exact (Hfresh _ _ _ Hk eq_refl).
    + rewrite !lookup_insert_ne by congruence. apply Hu.
Qed.

Lemma pin_lookup_ne r r' now (h : gmap positive WindowState) :
  r' <> r -> pin r now h !! r' = h !! r'.
Proof. intros Hne. unfold pin. apply lookup_alter_ne. congruence. Qed.

Lemma unpin_lookup_ne r r' (h : gmap positive WindowState) :
  r' <> r -> unpin r h !! r' = h !! r'.
Proof. intros Hne. unfold unpin. apply lookup_alter_ne. congruence. Qed.

Lemma pin_wf S h r now : store_wf S h -> store_wf S (pin r now h).
Proof.
  intros Hwf k w r0 Hk. destruct (Hwf k w r0 Hk) as [st Hst]. unfold pin.
  destruct (decide (r0 = r)) as [->|Hne].
  - rewrite lookup_alter_eq, Hst. eauto.
  - rewrite lookup_alter_ne by congruence. eauto.
Qed.

Lemma unpin_wf S h r : store_wf S h -> store_wf S (unpin r h).
Proof.
  intros Hwf k w r0 Hk. destruct (Hwf k w r0 Hk) as [st Hst]. unfold unpin.
  destruct (decide (r0 = r)) as [->|Hne].
  - rewrite lookup_alter_eq, Hst. eauto.
  - rewrite lookup_alter_ne by congruence. eauto.
Qed.

Lemma purge_sub S L k w r :
  store (purge S L) !! k = Some (w, r) -> store S !! k = Some (w, r).
Proof. intros Hk. apply purge_lookup in Hk as [Hk _]. exact Hk. Qed.

(** X5: the store's invariants: every reference it holds is live, every
    entry sits under its key's handle, and no two entries share a state
    object.  They hold of the empty store and survive lookups, [purge]
    and pinning. *)
Theorem store_invariants_kept :
  (store_wf (mkStore ∅) ∅ /\ store_keyed (mkStore ∅) /\ store_unaliased (mkStore ∅))
  /\ (forall S h key,
        store_wf S h -> store_keyed S -> store_unaliased S ->
        let '(r, S', h') := WindowStateStore___getitem__ S key h in
        store_wf S' h' /\ store_keyed S' /\ store_unaliased S'
        /\ (forall r0 st, h !! r0 = Some st -> h' !! r0 = Some st))
  /\ (forall S h L,
        store_wf S h -> store_keyed S -> store_unaliased S ->
        store_wf (purge S L) h /\ store_keyed (purge S L)
        /\ store_unaliased (purge S L))
  /\ (forall S h r now,
        store_wf S h -> store_wf S (pin r now h) /\ store_wf S (unpin r h)).
Proof.
  split; [|split; [|split]].
  - split; [|split].
    + intros k w r. cbn [store]. rewrite lookup_empty. discriminate.
    + intros k w r. cbn [store]. rewrite lookup_empty. discriminate.
    + intros k1 k2 w1 w2 r. cbn [store]. rewrite lookup_empty. discriminate.
  - intros S h key Hwf Hk Hu.
    pose proof (getitem_live S h key Hwf) as Hl.
    pose proof (getitem_keyed S h key Hk) as Hk'.
    pose proof (getitem_unaliased S h key Hwf Hu) as Hu'.
    assert (Hmono : forall r0 st, h !! r0 = Some st ->
              (WindowStateStore___getitem__ S key h).2 !! r0 = Some st).
    { intros r0 st Hr. unfold WindowStateStore___getitem__.
      destruct (store S !! hwnd key) as [[w r]|]; cbn [snd]; [exact Hr|].
      rewrite lookup_insert_ne; [exact Hr|]. intros <-.
      rewrite fresh_not_in_heap in Hr. discriminate. }
    destruct (WindowStateStore___getitem__ S key h) as [[r S'] h'].
    cbn [fst snd] in *. destruct Hl as [_ Hwf']. done.
  - intros S h L Hwf Hk Hu. split; [|split].
    + intros k w r Hp. eapply Hwf. eapply purge_sub. exact Hp.
    + intros k w r Hp. eapply Hk. eapply purge_sub. exact Hp.
    + intros k1 k2 w1 w2 r H1 H2. eapply Hu; eapply purge_sub; eassumption.
  - intros S h r now Hwf. split; [apply pin_wf|apply unpin_wf]; exact Hwf.
Qed.

(** X6: pinning or unpinning the state looked up for one window leaves the
    state of every window with another handle as it was. *)
Theorem states_are_independent
    (S : WindowStateStore) (h : gmap positive WindowState) (a b : Window) :
  store_wf S h -> store_unaliased S -> hwnd a <> hwnd b ->
  let '(ra, S1, h1) := WindowStateStore___getitem__ S a h in
  forall now,
    state_of S1 (pin ra now h1) (hwnd b) = state_of S h (hwnd b)
    /\ state_of S1 (unpin ra h1) (hwnd b) = state_of S h (hwnd b).
Proof.
  intros Hwf Hu Hab. unfold state_of.
  destruct (store S !! hwnd a) as [[wa ra]|] eqn:Ea.
  - rewrite (getitem_present S h a wa ra Ea). intros now.
    destruct (store S !! hwnd b) as [[wb rb]|] eqn:Eb; cbn [mbind option_bind snd];
      [|done].
    assert (rb <> ra).
    { intros ->. apply Hab. eapply Hu; eassumption. }
    rewrite pin_lookup_ne, unpin_lookup_ne by assumption. done.
  - rewrite (getitem_absent S h a Ea). intros now. cbn [store].
    rewrite lookup_insert_ne by congruence.
    destruct (store S !! hwnd b) as [[wb rb]|] eqn:Eb; cbn [mbind option_bind snd];
      [|done].
    assert (rb <> fresh (dom h)).
    { intros ->. destruct (Hwf _ _ _ Eb) as [st Hst].
      rewrite fresh_not_in_heap in Hst. discriminate. }
    rewrite pin_lookup_ne, unpin_lookup_ne by assumption.
    rewrite lookup_insert_ne by congruence. done.
Qed.

Lemma store_ext (S1 S2 : WindowStateStore) :
  (forall k w r, store S1 !! k = Some (w, r) <-> store S2 !! k = Some (w, r)) ->
  S1 = S2.
Proof.
  intros Hext. destruct S1 as [m1], S2 as [m2]. f_equal. apply map_eq. intros k.
  apply option_eq. intros [w r]. apply Hext.
Qed.

(** X7: [purge] as an operation: an empty live list empties the store; a
    live list covering every entry changes nothing; purging twice with
    the same list is purging once; two purges commute; and only the
    handles occurring in the list matter, not their order, multiplicity
    or the other fields of the windows. *)
Theorem purge_algebra (S : WindowStateStore) :
  purge S [] = mkStore ∅
  /\ (forall L,
        (forall k w r, store S !! k = Some (w, r) ->
                       exists x, x ∈ L /\ hwnd x = hwnd w) ->
        purge S L = S)
  /\ (forall L, purge (purge S L) L = purge S L)
  /\ (forall L1 L2, purge (purge S L1) L2 = purge (purge S L2) L1)
  /\ (forall L1 L2,
        (forall k, k ∈ hwnd <$> L1 <-> k ∈ hwnd <$> L2) ->
        purge S L1 = purge S L2).
Proof.
  split; [|split; [|split; [|split]]].
  - apply store_ext. intros k w r. rewrite purge_lookup. cbn [list_contains store].
    rewrite lookup_empty. split; [intros [_ [=]]|discriminate].
  - intros L Hall. apply store_ext. intros k w r. rewrite purge_lookup.
    split; [intros [Hk _]; exact Hk|]. intros Hk. split; [exact Hk|].
    apply list_contains_true. eapply Hall. exact Hk.
  - intros L. apply store_ext. intros k w r. rewrite !purge_lookup. tauto.
  - intros L1 L2. apply store_ext. intros k w r. rewrite !purge_lookup. tauto.
  - intros L1 L2 Hsame. apply store_ext. intros k w r. rewrite !purge_lookup.
    assert (Hc : list_contains L1 w = Ok true <-> list_contains L2 w = Ok true).
    { rewrite !list_contains_true. split.
      - intros (x & Hin & Hx).
        assert (Hk2 : hwnd w ∈ hwnd <$> L2).
        { apply Hsame. apply list_elem_of_fmap. exists x. done. }
        apply list_elem_of_fmap in Hk2 as (y & Hy & Hin2). exists y. done.
      - intros (x & Hin & Hx).
        assert (Hk1 : hwnd w ∈ hwnd <$> L1).
        { apply Hsame. apply list_elem_of_fmap. exists x. done. }
        apply list_elem_of_fmap in Hk1 as (y & Hy & Hin1). exists y. done. }
    tauto.
Qed.

(** X8: after a purge, a window whose handle was not in the live list
    starts afresh: its next lookup creates a default state, and the old
    state object (with its pin) is no longer reachable from the store.
    A window whose handle was in the list keeps its state object. *)
Theorem purge_then_lookup
    (S : WindowStateStore) (h : gmap positive WindowState)
    (L : list Window) (w : Window) :
  store_wf S h -> store_keyed S ->
  ((forall x, x ∈ L -> hwnd x <> hwnd w) ->
   let '(r, S', h') := WindowStateStore___getitem__ (purge S L) w h in
   h' !! r = Some WindowState_new
   /\ h !! r = None
   /\ (forall k w0 r0, store S !! k = Some (w0, r0) -> r0 <> r)
   /\ store S' !! hwnd w = Some (w, r))
  /\ (forall x w0 r0, x ∈ L -> hwnd x = hwnd w ->
        store S !! hwnd w = Some (w0, r0) ->
        WindowStateStore___getitem__ (purge S L) w h = (r0, purge S L, h)).
Proof.
  intros Hwf Hk. split.
  - intros Hout.
    assert (Habs : store (purge S L) !! hwnd w = None).
    { destruct (store (purge S L) !! hwnd w) as [[w0 r0]|] eqn:E; [|reflexivity].
      apply purge_lookup in E as [E Hc]. exfalso.
      apply list_contains_true in Hc as (x & Hin & Hx).
      apply (Hout x Hin). rewrite Hx. eapply Hk. exact E. }
    rewrite (getitem_absent _ h w Habs). cbn [store].
    split; [apply lookup_insert_eq|]. split; [apply fresh_not_in_heap|].
    split; [|apply lookup_insert_eq].
    intros k w0 r0 Hs ->. destruct (Hwf _ _ _ Hs) as [st Hst].
    rewrite fresh_not_in_heap in Hst. discriminate.
  - intros x w0 r0 Hin Hx Hs. apply (getitem_present _ h w w0 r0).
    apply purge_lookup. split; [exact Hs|]. apply list_contains_true.
    exists x. split; [exact Hin|]. rewrite Hx. symmetry. eapply Hk. exact Hs.
Qed.

(** * The frame: what [main] does with clicks *)

Section ConsumerFacts.
Context {Σ : Type} `{Host Σ}.

Lemma getitem_store_mono S h key k w r :
  store S !! k = Some (w, r) ->
  store (WindowStateStore___getitem__ S key h).1.2 !! k = Some (w, r).
Proof.
  intros Hk. unfold WindowStateStore___getitem__.
  destruct (store S !! hwnd key) as [[w0 r0]|] eqn:E; cbn [fst snd]; [exact Hk|].
  cbn [store]. rewrite lookup_insert_ne; [exact Hk|]. intros <-. congruence.
Qed.

Lemma getitem_heap_mono S (h : gmap positive WindowState) key r st :
  h !! r = Some st -> (WindowStateStore___getitem__ S key h).2 !! r = Some st.
Proof.
  intros Hr. unfold WindowStateStore___getitem__.
  destruct (store S !! hwnd key) as [[w0 r0]|]; cbn [snd]; [exact Hr|].
  rewrite lookup_insert_ne; [exact Hr|]. intros <-.
  rewrite fresh_not_in_heap in Hr. discriminate.
Qed.

Lemma getitem_entry S h key :
  exists w, store (WindowStateStore___getitem__ S key h).1.2 !! hwnd key
            = Some (w, (WindowStateStore___getitem__ S key h).1.1).
Proof.
  unfold WindowStateStore___getitem__.
  destruct (store S !! hwnd key) as [[w0 r0]|] eqn:E; cbn [fst snd].
  - exists w0. exact E.
  - exists key. cbn [store]. apply lookup_insert_eq.
Qed.

(** What one turn of the loop leaves behind, whatever was clicked and
    whether or not it raised. *)
Lemma main_window_extends clicked win (world : World Σ) :
  store_wf (w_store world) (w_heap world) ->
  let world' := (main_window clicked win world).2 in
  store_wf (w_store world') (w_heap world')
  /\ (forall k w r, store (w_store world) !! k = Some (w, r) ->
                    store (w_store world') !! k = Some (w, r))
  /\ (forall r st, w_heap world !! r = Some st ->
        exists st', w_heap world' !! r = Some st' /\ selected st' = selected st)
  /\ is_Some (store (w_store world') !! hwnd win).
Proof.
  intros Hwf. rewrite main_window_eq.
  pose proof (getitem_live (w_store world) (w_heap world) win Hwf) as Hl.
  pose proof (getitem_store_mono (w_store world) (w_heap world) win) as Hs.
  pose proof (getitem_heap_mono (w_store world) (w_heap world) win) as Hh.
  pose proof (getitem_entry (w_store world) (w_heap world) win) as He.
  destruct (WindowStateStore___getitem__ (w_store world) win (w_heap world))
    as [[r S'] h']. cbn [fst snd] in *. destruct Hl as [_ Hwf'].
  cbv zeta.
  match goal with |- context [(?c (w_host world))] =>
    destruct (c (w_host world)) as [res σ'] end.
  cbn [snd w_store w_heap w_host].
  set (h'' := if pinned_truthy _ r then _ else _).
  assert (Hsel : forall r0 st, h' !! r0 = Some st ->
            exists st', h'' !! r0 = Some st' /\ selected st' = selected st).
  { intros r0 st Hr. unfold h''.
    destruct (pinned_truthy _ r);
      [destruct (clicked (hwnd win) BtnUnpin)|destruct (clicked (hwnd win) BtnPin)];
      try (exists st; done); unfold pin, unpin;
      (destruct (decide (r0 = r)) as [->|Hne];
       [rewrite lookup_alter_eq, Hr; eexists; split; reflexivity
       |rewrite lookup_alter_ne by congruence; exists st; done]). }
  assert (Hwf'' : store_wf S' h'').
  { intros k w r0 Hk. destruct (Hwf' k w r0 Hk) as [st Hst].
    destruct (Hsel r0 st Hst) as (st' & Hst' & _). eauto. }
  split; [exact Hwf''|]. split; [exact Hs|]. split.
  - intros r0 st Hr. apply Hsel. apply Hh. exact Hr.
  - destruct He as [w He]. eauto.
Qed.

(** X9: a frame only ever adds to the store: whatever is clicked and even
    when the frame raises, every entry present before is still there
    with the same state object, no state's [selected] flag changes,
    and after a frame that completes every listed window has an
    entry.  Nothing in [main] removes an entry. *)
Theorem frame_never_forgets
    (service : Service) (clicked : Z -> Button -> bool) (world : World Σ) :
  store_wf (w_store world) (w_heap world) ->
  let '(res, world') := main service clicked world in
  store_wf (w_store world') (w_heap world')
  /\ (forall k w r, store (w_store world) !! k = Some (w, r) ->
                    store (w_store world') !! k = Some (w, r))
  /\ (forall r st, w_heap world !! r = Some st ->
        exists st', w_heap world' !! r = Some st' /\ selected st' = selected st)
  /\ (res = Ok () -> forall w, w ∈ windows service ->
        is_Some (store (w_store world') !! hwnd w)).
Proof.
  unfold main. generalize (windows service) as ws. intros ws. revert world.
  induction ws as [|win ws IH]; intros world Hwf.
  - cbn [main_windows]. unfold mret, M_ret. split; [exact Hwf|].
    split; [done|]. split; [eauto|]. intros _ w Hin.
    apply elem_of_nil in Hin. contradiction.
  - cbn [main_windows]. unfold mbind, M_bind.
    pose proof (main_window_extends clicked win world Hwf) as Hstep.
    destruct (main_window clicked win world) as [[[]|e] w1]; cbn [snd] in Hstep;
      destruct Hstep as (Hwf1 & Hs1 & Hh1 & He1).
    + specialize (IH w1 Hwf1).
      destruct (main_windows clicked ws w1) as [res w2].
      destruct IH as (Hwf2 & Hs2 & Hh2 & He2).
      split; [exact Hwf2|]. split; [auto|]. split.
      * intros r st Hr. destruct (Hh1 r st Hr) as (st1 & Hr1 & E1).
        destruct (Hh2 r st1 Hr1) as (st2 & Hr2 & E2). exists st2.
        split; [exact Hr2|congruence].
      * intros Hres w Hin. apply elem_of_cons in Hin as [->|Hin];
          [|apply He2; assumption].
        destruct He1 as [[w0 r0] He1]. rewrite (Hs2 _ _ _ He1). eauto.
    + split; [exact Hwf1|]. split; [exact Hs1|]. split; [exact Hh1|].
      discriminate.
Qed.

Lemma main_window_quiet clicked win (world : World Σ) :
  (forall b, clicked (hwnd win) b = false) ->
  main_window clicked win world
  = (proc_exe (proc win) ≫= λ _, Ok (),
     mkWorld (w_host world)
       (WindowStateStore___getitem__ (w_store world) win (w_heap world)).2
       (WindowStateStore___getitem__ (w_store world) win (w_heap world)).1.2).
Proof.
  intros Hc. rewrite main_window_eq.
  destruct (WindowStateStore___getitem__ (w_store world) win (w_heap world))
    as [[r S'] h']. cbn [fst snd]. rewrite !Hc. unfold lift. run_M.
  destruct (pinned_truthy _ r); reflexivity.
Qed.

Lemma main_windows_quiet clicked ws (world : World Σ) :
  (forall w b, w ∈ ws -> clicked (hwnd w) b = false) ->
  let '(res, world') := main_windows clicked ws world in
  res = foldr (λ w acc, proc_exe (proc w) ≫= λ _, acc) (Ok ()) ws
  /\ w_host world' = w_host world
  /\ (forall r st, w_heap world !! r = Some st -> w_heap world' !! r = Some st).
Proof.
  revert world. induction ws as [|win ws IH]; intros world Hc.
  - cbn [main_windows foldr]. unfold mret, M_ret. done.
  - cbn [main_windows foldr]. unfold mbind at 1. unfold M_bind.
    rewrite main_window_quiet
      by (intros b; apply Hc; apply elem_of_cons; left; reflexivity).
    unfold mbind, result_bind.
    destruct (proc_exe (proc win)) as [s|e]; cbn [rbind].
    + match goal with |- context [main_windows clicked ws ?w1] =>
        specialize (IH w1); destruct (main_windows clicked ws w1) as [res w2]
      end.
      destruct IH as (Hr & Hh & Hm).
      { intros w b Hin. apply Hc. apply elem_of_cons. right. exact Hin. }
      cbn [w_host w_heap] in *. split; [exact Hr|]. split; [exact Hh|].
      intros r st Hst. apply Hm. apply getitem_heap_mono. exact Hst.
    + cbn [w_host w_heap]. split; [reflexivity|]. split; [reflexivity|].
      intros r st Hst. apply getitem_heap_mono. exact Hst.
Qed.

(** X10: a frame in which nothing is clicked touches neither the host nor
    any existing state, and its outcome is that of calling [exe()] on
    each listed window in turn: one window whose [exe()] raises makes
    the whole frame raise. *)
Theorem quiet_frame_reads_exe
    (service : Service) (clicked : Z -> Button -> bool) (world : World Σ) :
  (forall h b, clicked h b = false) ->
  let '(res, world') := main service clicked world in
  res = foldr (λ w acc, proc_exe (proc w) ≫= λ _, acc) (Ok ()) (windows service)
  /\ w_host world' = w_host world
  /\ (forall r st, w_heap world !! r = Some st -> w_heap world' !! r = Some st)
  /\ (forall pre w post e,
        windows service = pre ++ w :: post ->
        Forall (λ x, is_Ok (proc_exe (proc x)) = true) pre ->
        proc_exe (proc w) = Raise e -> res = Raise e).
Proof.
  intros Hc. unfold main.
  pose proof (main_windows_quiet clicked (windows service) world
                ltac:(intros; apply Hc)) as Hq.
  destruct (main_windows clicked (windows service) world) as [res world'].
  destruct Hq as (Hr & Hh & Hm). split; [exact Hr|]. split; [exact Hh|].
  split; [exact Hm|]. intros pre w post e Hws Hpre He. rewrite Hr, Hws. clear Hr Hws.
  induction Hpre as [|x pre Hx Hpre IH]; cbn [app foldr].
  - rewrite He. reflexivity.
  - destruct (proc_exe (proc x)); [|discriminate]. exact IH.
Qed.

(** X11: what a frame does to a window's pin, when none of its geometry
    buttons is clicked and [exe()] answers: an unpinned window is
    pinned at the host's clock by a click on pin; a pinned one is
    unpinned by a click on unpin; [selected] is kept.  The test is
    [if state.pinned_at], so a pin made when the clock read 0.0 shows
    as unpinned: the unpin click is not seen and a pin click pins
    again. *)
Theorem pin_button_toggles
    (clicked : Z -> Button -> bool) (win : Window) (world : World Σ) s :
  store_wf (w_store world) (w_heap world) ->
  clicked (hwnd win) BtnCenter = false ->
  clicked (hwnd win) BtnBigger = false ->
  clicked (hwnd win) BtnSmaller = false ->
  proc_exe (proc win) = Ok s ->
  exists st world',
    st = default WindowState_new
           (state_of (w_store world) (w_heap world) (hwnd win))
    /\ main_window clicked win world = (Ok (), world')
    /\ w_host world' = w_host world
    /\ state_of (w_store world') (w_heap world') (hwnd win)
       = Some {| selected := selected st;
                 pinned_at :=
                   match pinned_at st with
                   | Some t =>
                       if PyFloat.truthy t
                       then if clicked (hwnd win) BtnUnpin
                            then None else Some t
                       else if clicked (hwnd win) BtnPin
                            then Some (time_time (w_host world)) else Some t
                   | None =>
                       if clicked (hwnd win) BtnPin
                       then Some (time_time (w_host world)) else None
                   end |}.
Proof.
  intros Hwf Hc Hb Hs He. rewrite main_window_eq. unfold state_of at 1.
  destruct (store (w_store world) !! hwnd win) as [[w0 r]|] eqn:E.
  - rewrite (getitem_present _ _ _ w0 r E). cbv zeta. rewrite Hc, Hb, Hs, He.
    unfold lift. run_M. cbn [mbind option_bind snd].
    destruct (Hwf _ _ _ E) as [st Hst]. rewrite Hst. cbn [default].
    exists st. eexists. split; [reflexivity|]. split; [reflexivity|].
    cbn [w_host w_store w_heap]. split; [reflexivity|].
    unfold state_of. rewrite E. cbn [mbind option_bind snd].
    unfold pinned_truthy. cbn [w_heap]. rewrite Hst.
    destruct st as [sel [t|]]; cbn [pinned_at selected].
    + destruct (PyFloat.truthy t);
        [destruct (clicked (hwnd win) BtnUnpin)
        |destruct (clicked (hwnd win) BtnPin)];
        unfold pin, unpin; rewrite ?lookup_alter_eq, ?Hst; reflexivity.
    + destruct (clicked (hwnd win) BtnPin);
        unfold pin; rewrite ?lookup_alter_eq, ?Hst; reflexivity.
  - rewrite (getitem_absent _ _ _ E). cbv zeta. rewrite Hc, Hb, Hs, He.
    unfold lift. run_M. cbn [mbind option_bind default].
    exists WindowState_new. eexists. split; [reflexivity|]. split; [reflexivity|].
    cbn [w_host w_store w_heap]. split; [reflexivity|].
    unfold state_of. cbn [store]. rewrite lookup_insert_eq.
    cbn [mbind option_bind snd].
    unfold pinned_truthy. cbn [w_heap]. rewrite lookup_insert_eq.
    cbn [WindowState_new pinned_at selected].
    destruct (clicked (hwnd win) BtnPin);
      unfold pin; rewrite ?lookup_alter_eq, ?lookup_insert_eq; reflexivity.
Qed.

(** What the one clicked button does on the host. *)
Lemma main_window_click clicked win (world : World Σ) b s :
  (forall b', clicked (hwnd win) b' = true <-> b' = b) ->
  proc_exe (proc win) = Ok s ->
  let '(res, world') := main_window clicked win world in
  (res, w_host world')
  = match b with
    | BtnCenter => center win PyFloat.lit_0_8
    | BtnBigger => resize win 10
    | BtnSmaller => resize win (-10)
    | BtnPin | BtnUnpin => mret ()
    end (w_host world).
Proof.
  intros Hc He. rewrite main_window_eq.
  destruct (WindowStateStore___getitem__ (w_store world) win (w_heap world))
    as [[r S'] h']. cbv zeta. rewrite He. unfold lift. run_M.
  pose proof (proj2 (Hc b) eq_refl) as Hb.
  destruct b; rewrite ?Hb;
    repeat match goal with
    | |- context [clicked (hwnd win) ?b'] =>
        let E := fresh "E" in
        destruct (clicked (hwnd win) b') eqn:E;
        [apply Hc in E; discriminate E|]
    end;
    cbv beta iota zeta;
    try reflexivity;
    match goal with
    | |- context [center win ?x ?σ] =>
        destruct (center win x σ) as [[[]|?] ?]; reflexivity
    | |- context [resize win ?x ?σ] =>
        destruct (resize win x σ) as [[[]|?] ?]; reflexivity
    end.
Qed.

Lemma main_windows_idle clicked ws (world : World Σ) :
  (forall w b, w ∈ ws -> clicked (hwnd w) b = false) ->
  Forall (λ x, is_Ok (proc_exe (proc x)) = true) ws ->
  let '(res, world') := main_windows clicked ws world in
  res = Ok () /\ w_host world' = w_host world.
Proof.
  intros Hc Hex.
  pose proof (main_windows_quiet clicked ws world Hc) as Hq.
  destruct (main_windows clicked ws world) as [res world'].
  destruct Hq as (-> & Hh & _). split; [|exact Hh]. clear Hc.
  induction Hex as [|x ws Hx Hex IH]; cbn [foldr]; [reflexivity|].
  destruct (proc_exe (proc x)); [exact IH|discriminate].
Qed.

(** X12: a click reaches the host as exactly one call for the clicked
    window, with the arguments fixed in [main]: [center] at ratio 0.8,
    [resize] by 10 or by -10.  Other windows are not touched, and the
    frame's outcome is that of this call. *)
Theorem click_is_one_call
    (clicked : Z -> Button -> bool) (pre post : list Window) (win : Window)
    (b : Button) (world : World Σ) :
  (forall h b', clicked h b' = true <-> h = hwnd win /\ b' = b) ->
  Forall (λ x, hwnd x <> hwnd win) (pre ++ post) ->
  Forall (λ x, is_Ok (proc_exe (proc x)) = true) (pre ++ win :: post) ->
  let '(res, world') := main (mkService (pre ++ win :: post)) clicked world in
  (res, w_host world')
  = match b with
    | BtnCenter => center win PyFloat.lit_0_8
    | BtnBigger => resize win 10
    | BtnSmaller => resize win (-10)
    | BtnPin | BtnUnpin => mret ()
    end (w_host world).
Proof.
  intros Hc Hne Hex. unfold main. cbn [windows].
  apply Forall_app in Hne as [Hpre Hpost].
  apply Forall_app in Hex as [Hepre Hex]. apply Forall_cons in Hex as [Hew Hepost].
  assert (Hidle : forall ws, Forall (λ x, hwnd x <> hwnd win) ws ->
            forall w b', w ∈ ws -> clicked (hwnd w) b' = false).
  { intros ws Hws w b' Hin. rewrite Forall_forall in Hws.
    destruct (clicked (hwnd w) b') eqn:E; [|reflexivity].
    apply Hc in E as [E _]. exfalso. exact (Hws w Hin E). }
  revert world. induction Hepre as [|x pre Hx Hepre IH]; intros world.
  - cbn [app main_windows]. unfold mbind, M_bind.
    destruct (proc_exe (proc win)) as [s|] eqn:Es; [|discriminate].
    pose proof (main_window_click clicked win world b s
                  ltac:(intros b'; rewrite Hc; tauto) Es) as Hw.
    destruct (main_window clicked win world) as [[[]|e] w1].
    + pose proof (main_windows_idle clicked post w1 (Hidle post Hpost) Hepost) as Hi.
      destruct (main_windows clicked post w1) as [res w2].
      destruct Hi as [-> ->]. exact Hw.
    + exact Hw.
  - apply Forall_cons in Hpre as [Hxw Hpre]. cbn [app main_windows].
    unfold mbind at 1. unfold M_bind.
    rewrite main_window_quiet.
    2:{ intros b'. apply (Hidle [x]); [constructor; [exact Hxw|constructor]|].
        apply elem_of_cons. left. reflexivity. }
    destruct (proc_exe (proc x)); [|discriminate].
    unfold mbind at 1, result_bind. cbn [rbind].
    match goal with |- context [main_windows clicked _ ?w1] =>
      exact (IH Hpre w1) end.
Qed.
End ConsumerFacts.

(** * Geometry: aspect ratio, gaps, limits of the ratio *)

Lemma trunc_half_double n :
  Z.abs (2 * trunc_half n - n) <= 1
  /\ (Z.even n = true -> 2 * trunc_half n = n)
  /\ (0 <= n -> 2 * trunc_half n <= n)
  /\ (n <= 0 -> n <= 2 * trunc_half n).
Proof.
  unfold trunc_half.
  pose proof (Z.quot_rem' n 2) as Hqr.
  pose proof (Z.rem_bound_abs n 2 ltac:(lia)) as Hr.
  split; [lia|]. split; [|split].
  - intros He. rewrite Z.even_spec in He. destruct He as [k ->].
    rewrite (Z.mul_comm 2 k), Z.quot_mul by lia. lia.
  - intros Hn. pose proof (Z.rem_nonneg n 2 ltac:(lia) Hn). lia.
  - intros Hn. pose proof (Z.rem_nonpos n 2 ltac:(lia) Hn). lia.
Qed.

(** X13: [Rect.wh_ratio] case by case: a height of 0 raises; a width of 0
    gives a zero (negative for a negative height); otherwise the ratio
    is a finite non-zero float with the sign of width times height. *)
Theorem wh_ratio_cases (r : Rect) :
  win32_rect r ->
  (height r = 0 -> wh_ratio r = Raise ZeroDivisionError)
  /\ (height r <> 0 -> width r = 0 ->
      wh_ratio r = Ok (S754_zero (height r <? 0)))
  /\ (height r <> 0 -> width r <> 0 ->
      exists q, wh_ratio r = Ok q /\ PyFloat.finite q
        /\ PyFloat.is_zero q = false
        /\ PyFloat.sign_of q = xorb (width r <? 0) (height r <? 0)).
Proof.
  intros Hr. pose proof (win32_width r Hr). pose proof (win32_height r Hr).
  unfold wh_ratio. split; [|split].
  - intros ->. reflexivity.
  - intros Hh ->. apply int_truediv_zero_num. exact Hh.
  - intros Hh Hw.
    destruct (int_truediv_signed (width r) (height r)) as (q & Hq & Hf & Hs & Hlo & _);
      [lia|lia|].
    exists q. split; [exact Hq|]. split; [exact Hf|]. split; [|exact Hs].
    destruct q; try reflexivity. cbn [PyFloat.units Z.abs] in Hlo.
    pose proof (pow2_pos (-32 + 1074) ltac:(lia)). lia.
Qed.

Lemma height_delta_zero_width r wd :
  Z.abs wd < 2 ^ 53 -> width r = 0 -> height r <> 0 ->
  height_delta_of r wd = Raise ZeroDivisionError.
Proof.
  intros Hwd Hw Hh. unfold height_delta_of, wh_ratio. rewrite Hw.
  rewrite (int_truediv_zero_num _ Hh). unfold mbind, result_bind. cbn [rbind].
  destruct (of_int_exact wd Hwd) as (fl & Hfl & _).
  unfold PyFloat.int_truediv_float. rewrite Hfl. reflexivity.
Qed.

Section GeometryFacts2.
Context {Σ : Type} `{Host Σ}.

(** X14: [_resize_move_to_center_of_rect] leaves even gaps: the gap left of
    the window and the gap right of it differ by at most one pixel,
    and are equal when the spare width is even; likewise above and
    below.  Truncation is toward zero, so the odd pixel goes right of
    (below) the window when the doubled coordinate is non-negative and
    left of (above) it when it is negative. *)
Theorem placement_leaves_even_gaps
    (self : Window) (w' h' : Z) (wk : Rect) (σ : Σ) :
  win32_rect wk -> Z.abs w' <= 2 ^ 49 -> Z.abs h' <= 2 ^ 49 ->
  exists l t,
    _resize_move_to_center_of_rect self w' h' wk σ = place self l t w' h' σ
    /\ Z.abs ((l - left wk) - (right wk - (l + w'))) <= 1
    /\ Z.abs ((t - top wk) - (bottom wk - (t + h'))) <= 1
    /\ (Z.even (width wk - w') = true -> l - left wk = right wk - (l + w'))
    /\ (Z.even (height wk - h') = true -> t - top wk = bottom wk - (t + h'))
    /\ (0 <= left wk + right wk - w' -> l - left wk <= right wk - (l + w'))
    /\ (left wk + right wk - w' <= 0 -> right wk - (l + w') <= l - left wk)
    /\ (0 <= top wk + bottom wk - h' -> t - top wk <= bottom wk - (t + h'))
    /\ (top wk + bottom wk - h' <= 0 -> bottom wk - (t + h') <= t - top wk).
Proof.
  intros Hwk Hw Hh.
  exists (centered_left wk w'), (centered_top wk h').
  split; [apply resize_move_exact; assumption|].
  unfold centered_left, centered_top.
  destruct (trunc_half_double (2 * left wk + (width wk - w')))
    as (Hl1 & Hl2 & Hl3 & Hl4).
  destruct (trunc_half_double (2 * top wk + (height wk - h')))
    as (Ht1 & Ht2 & Ht3 & Ht4).
  rewrite Z.even_add, Z.even_mul in Hl2, Ht2. cbn [Z.even orb] in Hl2, Ht2.
  unfold width, height in *.
  repeat split; try lia.
  - intros He. rewrite He in Hl2. specialize (Hl2 eq_refl). lia.
  - intros He. rewrite He in Ht2. specialize (Ht2 eq_refl). lia.
Qed.

(** X15: [resize] needs a window with both a width and a height: with
    either at 0 the height delta is a division by zero, [resize]
    raises [ZeroDivisionError] and the window is not moved; with both
    non-zero the height delta is defined. *)
Theorem resize_needs_width_and_height (r : Rect) (wd : Z) :
  win32_rect r -> Z.abs wd <= 2 ^ 31 ->
  (height_delta_of r wd = Raise ZeroDivisionError
   <-> width r = 0 \/ height r = 0)
  /\ (forall (σ : Σ) (self : Window) mon mrect wrect,
        MonitorFromWindow (hwnd self) σ = Ok mon ->
        GetMonitorInfo_Work mon σ = Ok mrect ->
        GetWindowRect (hwnd self) σ = Ok wrect ->
        from_win32_rect wrect = r ->
        width r = 0 \/ height r = 0 ->
        resize self wd σ = (Raise ZeroDivisionError, σ)).
Proof.
  intros Hr Hwd.
  assert (Hzero : width r = 0 \/ height r = 0 ->
                  height_delta_of r wd = Raise ZeroDivisionError).
  { intros Hz. destruct (Z.eq_dec (height r) 0) as [Hh|Hh].
    - unfold height_delta_of, wh_ratio. rewrite Hh. reflexivity.
    - destruct Hz as [Hw|Hz]; [|contradiction].
      apply height_delta_zero_width; [lia|assumption|assumption]. }
  split.
  - split; [|exact Hzero]. intros Hd.
    destruct (Z.eq_dec (width r) 0) as [Hw|Hw]; [left; exact Hw|].
    destruct (Z.eq_dec (height r) 0) as [Hh|Hh]; [right; exact Hh|].
    destruct (height_delta_total r wd Hr Hw Hh Hwd) as (hd & Hhd & _).
    rewrite Hhd in Hd. discriminate.
  - intros σ self mon mrect wrect E1 E2 E3 <- Hz. unfold resize.
    unfold mbind at 1. unfold M_bind at 1.
    rewrite (Monitor_from_hwnd_ok _ _ _ _ E1 E2).
    unfold query, lift. run_M. rewrite E3. run_M. rewrite (Hzero Hz).
    reflexivity.
Qed.

(** X16: for a window of positive width and height, the height follows the
    width: growing (a non-negative delta) never lowers the height,
    shrinking never raises it, a zero delta leaves the size alone, and
    for a window at least as wide as high the height changes by no
    more than the width. *)
Theorem resize_height_follows_width
    (σ : Σ) (self : Window) (wd : Z) mon mrect wrect :
  MonitorFromWindow (hwnd self) σ = Ok mon ->
  GetMonitorInfo_Work mon σ = Ok mrect ->
  GetWindowRect (hwnd self) σ = Ok wrect ->
  win32_rect (from_win32_rect mrect) ->
  win32_rect (from_win32_rect wrect) ->
  0 < width (from_win32_rect wrect) ->
  0 < height (from_win32_rect wrect) ->
  Z.abs wd <= 2 ^ 31 ->
  exists hd l t,
    height_delta_of (from_win32_rect wrect) wd = Ok hd
    /\ resize self wd σ
       = place self l t (width (from_win32_rect wrect) + wd)
           (height (from_win32_rect wrect) + hd) σ
    /\ (0 <= wd -> 0 <= hd)
    /\ (wd <= 0 -> hd <= 0)
    /\ (wd = 0 -> hd = 0)
    /\ (height (from_win32_rect wrect) <= width (from_win32_rect wrect) ->
        Z.abs hd <= Z.abs wd).
Proof.
  intros E1 E2 E3 Hm Hc Hw Hh Hwd. set (cur := from_win32_rect wrect) in *.
  pose proof (win32_width _ Hc). pose proof (win32_height _ Hc).
  destruct (int_truediv_signed (width cur) (height cur))
    as (r & Hr & Hfr & Hsr & Hlo & Hone); [lia|lia|].
  assert (Hs : PyFloat.sign_of r = false).
  { rewrite Hsr. rewrite (proj2 (Z.ltb_ge (width cur) 0)) by lia.
    rewrite (proj2 (Z.ltb_ge (height cur) 0)) by lia. reflexivity. }
  destruct (int_truediv_float_signed wd r Hwd Hfr Hs Hlo)
    as (hd & Hhd & Hp & Hn & Hb).
  assert (Hd : height_delta_of cur wd = Ok hd).
  { unfold height_delta_of, wh_ratio. rewrite Hr.
    unfold mbind, result_bind in *. cbn [rbind]. exact Hhd. }
  assert (Hhd63 : Z.abs hd <= 2 ^ 63).
  { destruct (height_delta_total cur wd Hc ltac:(lia) ltac:(lia) Hwd)
      as (hd' & Hhd' & Hb' & _). rewrite Hd in Hhd'. injection Hhd' as <-.
    exact Hb'. }
  destruct (resize_move_total self (width cur + wd) (height cur + hd)
              (from_win32_rect mrect) σ Hm) as (l & t & Hpl); [lia|lia|].
  exists hd, l, t. split; [exact Hd|]. split.
  { rewrite (resize_unfold self wd σ mon mrect wrect hd E1 E2 E3 Hd). exact Hpl. }
  split; [exact Hp|]. split; [exact Hn|]. split; [lia|].
  intros Hland. apply Hb. apply Hone. lia.
Qed.

(** X17: the ends of the ratio range: [center(1.0)] puts the window exactly
    on the work area, [center(0.0)] shrinks it to nothing at the
    centre of the work area. *)
Theorem center_at_ratio_bounds (σ : Σ) (self : Window) mon rect :
  MonitorFromWindow (hwnd self) σ = Ok mon ->
  GetMonitorInfo_Work mon σ = Ok rect ->
  win32_rect (from_win32_rect rect) ->
  center self PyFloat.one σ
  = place self (left (from_win32_rect rect)) (top (from_win32_rect rect))
      (width (from_win32_rect rect)) (height (from_win32_rect rect)) σ
  /\ center self PyFloat.zero σ
     = place self (centered_left (from_win32_rect rect) 0)
         (centered_top (from_win32_rect rect) 0) 0 0 σ.
Proof.
  intros E1 E2 Hwk. set (wk := from_win32_rect rect) in *.
  pose proof (win32_width wk Hwk) as HW. pose proof (win32_height wk Hwk) as HH.
  assert (Hone : forall n, Z.abs n < 2 ^ 32 ->
            (PyFloat.int_mul_float n PyFloat.one ≫= PyFloat.to_int) = Ok n).
  { intros n Hn. destruct (of_int_exact n) as (fl & Hfl & Hffl & _ & Hufl); [lia|].
    unfold PyFloat.int_mul_float. rewrite Hfl. cbn [mbind result_bind rbind].
    destruct (mul_one_exact fl Hffl) as (Hf & Hu).
    rewrite to_int_units by exact Hf. rewrite Hu, Hufl.
    pose proof unity_pos. rewrite Z.quot_mul by lia. reflexivity. }
  assert (Hzero : forall n, Z.abs n < 2 ^ 32 ->
            (PyFloat.int_mul_float n PyFloat.zero ≫= PyFloat.to_int) = Ok 0).
  { intros n Hn. destruct (of_int_exact n) as (fl & Hfl & Hffl & _ & _); [lia|].
    unfold PyFloat.int_mul_float. rewrite Hfl. cbn [mbind result_bind rbind].
    destruct (mul_zero_r fl false Hffl) as (s' & Hz). unfold PyFloat.zero.
    rewrite Hz. reflexivity. }
  split.
  - rewrite (center_unfold self PyFloat.one σ mon rect (width wk) (height wk)
               E1 E2 (Hone _ HW) (Hone _ HH)).
    fold wk. rewrite resize_move_exact by (try assumption; lia).
    unfold centered_left, centered_top, trunc_half.
    replace (2 * left wk + (width wk - width wk)) with (left wk * 2) by lia.
    replace (2 * top wk + (height wk - height wk)) with (top wk * 2) by lia.
    rewrite !Z.quot_mul by lia. reflexivity.
  - rewrite (center_unfold self PyFloat.zero σ mon rect 0 0
               E1 E2 (Hzero _ HW) (Hzero _ HH)).
    fold wk. apply resize_move_exact; [assumption|cbn; lia|cbn; lia].
Qed.

(** X18: [center] with a ratio that is not a finite number moves nothing:
    a NaN ratio raises [ValueError] at [int()], an infinite ratio
    raises [OverflowError], or [ValueError] when the work area has
    width 0 (0 times infinity is NaN). *)
Theorem center_rejects_non_finite_ratio (σ : Σ) (self : Window) mon rect :
  MonitorFromWindow (hwnd self) σ = Ok mon ->
  GetMonitorInfo_Work mon σ = Ok rect ->
  win32_rect (from_win32_rect rect) ->
  center self S754_nan σ = (Raise ValueError, σ)
  /\ (forall s, width (from_win32_rect rect) <> 0 ->
        center self (S754_infinity s) σ = (Raise OverflowError, σ))
  /\ (forall s, width (from_win32_rect rect) = 0 ->
        center self (S754_infinity s) σ = (Raise ValueError, σ)).
Proof.
  intros E1 E2 Hwk. set (wk := from_win32_rect rect) in *.
  pose proof (win32_width wk Hwk) as HW.
  destruct (of_int_exact (width wk)) as (fl & Hfl & Hffl & _ & Hufl); [lia|].
  assert (Hstep : forall ratio e,
            PyFloat.to_int (PyFloat.mul fl ratio) = Raise e ->
            center self ratio σ = (Raise e, σ)).
  { intros ratio e Hr. unfold center.
    unfold mbind at 1. unfold M_bind at 1.
    rewrite (Monitor_from_hwnd_ok _ _ _ _ E1 E2). cbn [work]. fold wk.
    unfold lift, PyFloat.int_mul_float. rewrite Hfl. run_M. rewrite Hr.
    reflexivity. }
  split; [|split].
  - apply Hstep. unfold PyFloat.mul. destruct fl; reflexivity.
  - intros s Hw. apply Hstep. unfold PyFloat.mul.
    destruct fl as [s0|s0| |s0 m e]; try contradiction; [|reflexivity].
    cbn [PyFloat.units] in Hufl. pose proof unity_pos. nia.
  - intros s Hw. apply Hstep. unfold PyFloat.mul. rewrite Hw in Hufl.
    destruct fl as [s0|s0| |s0 m e]; try contradiction; [reflexivity|].
    exfalso. rewrite Z.mul_0_l in Hufl.
    pose proof (units_abs_finite s0 m e) as Ha. rewrite Hufl in Ha.
    destruct Hffl as [_ [He _]].
    pose proof (pow2_pos (e + 1074) ltac:(unfold PyFloat.emin in He; lia)).
    cbn [Z.abs] in Ha. pose proof (Pos2Z.is_pos m). nia.
Qed.
End GeometryFacts2.

(** * The code on concrete inputs *)

Import Demo.

(** The hash model agrees with CPython on sample handles. *)
Example hash_tuple1_5 : PyHash.hash_tuple1 5 = -7813438383599366905.
Proof. vm_compute. reflexivity. Qed.
Example hash_tuple1_m1 : PyHash.hash_tuple1 (-1) = 8078679518589016365.
Proof. vm_compute. reflexivity. Qed.
Example hash_tuple1_65552 : PyHash.hash_tuple1 65552 = -8767886173028599772.
Proof. vm_compute. reflexivity. Qed.
Example hash_tuple1_big :
  PyHash.hash_tuple1 18446744073709551619 = -7368095585195828856.
Proof. vm_compute. reflexivity. Qed.

(** The float model on the literals of the code. *)
Example one_is_float_1 : PyFloat.of_int 1 = Ok PyFloat.one.
Proof. vm_compute. reflexivity. Qed.
Example lit_0_8_well_formed : PyFloat.well_formed PyFloat.lit_0_8.
Proof. reflexivity. Qed.
Example third_times_three :
  (r ← PyFloat.int_truediv 1 3; x ← PyFloat.int_mul_float 3 r; PyFloat.to_int x)
  = Ok 1.
Proof. vm_compute. reflexivity. Qed.

(** Running the code on the concrete host. *)
Example center_editor :
  (center editor PyFloat.lit_0_8 host).2
  = host_with [sim_editor (192, 120, 1728, 1080)] true.
Proof. vm_compute. reflexivity. Qed.

Example resize_editor_bigger :
  (resize editor 10 host).2 = host_with [sim_editor (455, 347, 1465, 852)] true.
Proof. vm_compute. reflexivity. Qed.

Example poll_editor :
  _run host false (mkService []) = (Ok false, mkService [editor]).
Proof. vm_compute. reflexivity. Qed.

(** *** C1 *)
Lemma window_identity_by_hwnd_witness :
  hwnd editor = hwnd editor_later
  /\ Window___eq__ editor (PyWindow editor_later) = Ok true
  /\ Window___hash__ editor = Window___hash__ editor_later.
Proof.
  split; [reflexivity|]. split.
  - apply (proj1 (window_identity_by_hwnd editor editor_later)). reflexivity.
  - apply (proj2 (proj2 (window_identity_by_hwnd editor editor_later))). reflexivity.
Defined.

(** *** C9 *)
Lemma eq_non_window_raises_witness :
  isinstance_Window (PyInt 42) = false
  /\ Window___eq__ editor (PyInt 42) = Raise NotImplementedError.
Proof.
  split; [reflexivity|]. apply (eq_non_window_raises editor (PyInt 42)). reflexivity.
Defined.

(** *** C2 *)
Lemma empty_store_wf : store_wf empty_store ∅.
Proof. intros k w r Hk. unfold empty_store in Hk. cbn [store] in Hk.
  rewrite lookup_empty in Hk. discriminate. Qed.


(** *** C3 *)
Lemma purge_subset_and_retain_witness :
  store store_editor !! 42 = Some (editor, 1%positive)
  /\ list_contains [editor_later] editor = Ok true
  /\ store (purge store_editor [editor_later]) !! 42 = Some (editor, 1%positive).
Proof.
  assert (Hk : store store_editor !! 42 = Some (editor, 1%positive))
    by apply lookup_singleton_eq.
  split; [exact Hk|]. split; [reflexivity|].
  apply (proj1 (proj2 (purge_subset_and_retain store_editor [editor_later]))
           42 editor 1%positive Hk). reflexivity.
Defined.

(** *** C4 *)
Lemma center_target_formula_witness :
  MonitorFromWindow (hwnd editor) host = Ok 1
  /\ GetMonitorInfo_Work 1 host = Ok (0, 0, 1920, 1200)
  /\ (PyFloat.int_mul_float 1920 PyFloat.lit_0_8 ≫= PyFloat.to_int) = Ok 1536
  /\ (PyFloat.int_mul_float 1200 PyFloat.lit_0_8 ≫= PyFloat.to_int) = Ok 960
  /\ center editor PyFloat.lit_0_8 host = place editor 192 120 1536 960 host.
Proof.
  split; [reflexivity|]. split; [reflexivity|].
  split; [vm_compute; reflexivity|]. split; [vm_compute; reflexivity|].
  apply (proj1 center_target_formula host editor PyFloat.lit_0_8 1
           (0, 0, 1920, 1200) 1536 960).
  - reflexivity.
  - reflexivity.
  - unfold win32_rect, win32_long. cbn. lia.
  - vm_compute. reflexivity.
  - vm_compute. reflexivity.
  - cbn. lia.
  - cbn. lia.
Defined.

(** *** C10 *)
Lemma center_within_work_witness :
  PyFloat.well_formed PyFloat.lit_0_8
  /\ PyFloat.leb PyFloat.zero PyFloat.lit_0_8 = true
  /\ PyFloat.leb PyFloat.lit_0_8 PyFloat.one = true
  /\ exists l t w h,
       center editor PyFloat.lit_0_8 host = place editor l t w h host
       /\ 0 <= w /\ 0 <= h /\ 0 <= l /\ 0 <= t /\ l + w <= 1920 /\ t + h <= 1200.
Proof.
  split; [reflexivity|]. split; [reflexivity|]. split; [reflexivity|].
  apply (center_within_work host editor PyFloat.lit_0_8 1 (0, 0, 1920, 1200)).
  - reflexivity.
  - reflexivity.
  - unfold win32_rect, win32_long. cbn. lia.
  - vm_compute. discriminate.
  - vm_compute. discriminate.
  - reflexivity.
  - reflexivity.
  - reflexivity.
Defined.

(** *** C5 *)
Lemma resize_floor_counterexample :
  height (mkRect 0 0 300 200) <> 0
  /\ height_delta_of (mkRect 0 0 300 200) (-10) = Ok (-6)
  /\ height_delta_floor (mkRect 0 0 300 200) (-10) = Ok (-7)
  /\ (-10 * 200) / 300 = -7
  /\ (resize editor (-10) host_300x200).2
     = host_with [sim_editor (815, 503, 815 + 290, 503 + 194)] true
  /\ height (mkRect 0 0 0 200) <> 0
  /\ height_delta_of (mkRect 0 0 0 200) 10 = Raise ZeroDivisionError
  /\ height_delta_of (mkRect 0 0 1000 500) (2 ^ 1024) = Raise OverflowError.
Proof. vm_compute. repeat split; congruence. Qed.

Lemma resize_height_delta_truncates_witness :
  GetWindowRect (hwnd editor) host_300x200 = Ok (0, 0, 300, 200)
  /\ Z.abs (-10) <= 2 ^ 31
  /\ exists q hd l t,
       height_delta_of (mkRect 0 0 300 200) (-10) = Ok hd
       /\ hd = PyFloat.units q ÷ PyFloat.unity
       /\ height_delta_floor (mkRect 0 0 300 200) (-10)
          = Ok (PyFloat.units q / PyFloat.unity)
       /\ resize editor (-10) host_300x200
          = place editor l t (300 + -10) (200 + hd) host_300x200.
Proof.
  split; [reflexivity|]. split; [cbn; lia|].
  destruct (proj1 resize_height_delta_truncates host_300x200 editor (-10) 1
              (0, 0, 1920, 1200) (0, 0, 300, 200))
    as (r & q & hd & l & t & _ & _ & _ & Hhd & Hq & _ & _ & _ & Hfl & _ & _ & Hres).
  - reflexivity.
  - reflexivity.
  - reflexivity.
  - unfold win32_rect, win32_long. cbn. lia.
  - unfold win32_rect, win32_long. cbn. lia.
  - vm_compute. discriminate.
  - vm_compute. discriminate.
  - vm_compute. discriminate.
  - exists q, hd, l, t. split; [exact Hhd|]. split; [exact Hq|].
    split; [exact Hfl|exact Hres].
Defined.

(** *** C6 *)
Lemma unresolved_window_aborts_poll :
  EnumWindows_handles host_orphan = Ok [7; 42]
  /\ psutil_Process 200 host_orphan = Raise NoSuchProcess
  /\ enum_windows_callback host_orphan 42 [] = Ok [editor]
  /\ _run host_orphan false (mkService []) = (Raise NoSuchProcess, mkService []).
Proof. vm_compute. repeat split; reflexivity. Qed.

Lemma poll_aborts_on_unresolved_witness :
  EnumWindows_handles host_orphan = Ok ([] ++ 7 :: [42])
  /\ run_callbacks host_orphan [] [] = Ok []
  /\ enum_windows_callback host_orphan 7 [] = Raise NoSuchProcess
  /\ _run host_orphan true (mkService [editor])
     = (Raise NoSuchProcess, mkService [editor]).
Proof.
  split; [reflexivity|]. split; [reflexivity|]. split; [reflexivity|].
  apply (proj1 (proj2 (poll_aborts_on_unresolved host_orphan true (mkService [editor])))
           [7; 42] [] 7 [42] [] NoSuchProcess); reflexivity.
Defined.

(** *** C7 *)
Lemma flat_window_crashes_frame :
  GetWindowRect (hwnd editor) host_flat = Ok (100, 100, 1100, 100)
  /\ resize editor 10 host_flat = (Raise ZeroDivisionError, host_flat)
  /\ (main (mkService [editor]) click_bigger (world_of host_flat)).1
     = Raise ZeroDivisionError
  /\ center editor PyFloat.lit_0_8 (host_with [] true)
     = (Raise Win32Error, host_with [] true).
Proof. vm_compute. repeat split; reflexivity. Qed.

Lemma geometry_failure_propagates_witness :
  (Monitor_from_hwnd (hwnd editor) host_flat).1
    = Ok (mkMonitor (mkRect 0 0 1920 1200))
  /\ GetWindowRect (hwnd editor) host_flat = Ok (100, 100, 1100, 100)
  /\ height (from_win32_rect (100, 100, 1100, 100)) = 0
  /\ click_bigger (hwnd editor) BtnCenter = false
  /\ click_bigger (hwnd editor) BtnBigger = true
  /\ exists world',
       main (mkService ([] ++ editor :: [])) click_bigger (world_of host_flat)
       = (Raise ZeroDivisionError, world')
       /\ w_host world' = host_flat.
Proof.
  split; [reflexivity|]. split; [reflexivity|]. split; [reflexivity|].
  split; [reflexivity|]. split; [reflexivity|].
  apply (proj2 (proj2 (proj2 (proj2 (proj2
           (geometry_failure_propagates host_flat editor)))))
           click_bigger [] [] (world_of host_flat) (world_of host_flat)
           (mkMonitor (mkRect 0 0 1920 1200)) ZeroDivisionError).
  - reflexivity.
  - reflexivity.
  - reflexivity.
  - right. exists (100, 100, 1100, 100). split; [reflexivity|].
    split; reflexivity.
  - reflexivity.
  - left. reflexivity.
Defined.

(** *** C8 *)
Lemma enumeration_error_ends_loop :
  let cycles := [mkCycle false host_enum_fails false; mkCycle false host false] in
  Forall (fun c => is_set c = false /\ wait_1 c = false) cycles
  /\ _loop cycles (mkService []) = (Propagated Win32Error, mkService []).
Proof.
  cbv zeta. split; [|vm_compute; reflexivity].
  repeat constructor.
Qed.

(** * Further runs on concrete inputs *)

Import Demo Scenes.

(** *** Discovery *)
Example poll_desk : EnumWindows desk = Ok [editor].
Proof. vm_compute. reflexivity. Qed.

Lemma poll_publishes_candidates_witness :
  EnumWindows_handles desk = Ok [1; 2; 3; 4; 42]
  /\ EnumWindows desk = Ok [editor]
  /\ Forall (discovered desk) [editor]
  /\ (candidate desk 42 <-> 42 ∈ hwnd <$> [editor])
  /\ ~ candidate desk 1.
Proof.
  split; [reflexivity|]. split; [vm_compute; reflexivity|].
  pose proof (poll_publishes_candidates desk [1; 2; 3; 4; 42] [editor]
                eq_refl ltac:(vm_compute; reflexivity)) as (Hd & _ & Hc & _).
  split; [exact Hd|]. split.
  - apply Hc. do 4 (apply elem_of_cons; right). apply elem_of_cons. left.
    reflexivity.
  - intros Hc1. apply Hc in Hc1.
    + apply elem_of_cons in Hc1 as [Hc1|Hc1]; [discriminate|].
      apply elem_of_nil in Hc1. exact Hc1.
    + apply elem_of_cons. left. reflexivity.
Defined.

Lemma poll_fails_for_a_cause_witness :
  EnumWindows_handles host_enum_fails = Raise Win32Error
  /\ EnumWindows host_enum_fails = Raise Win32Error
  /\ EnumWindows host_orphan = Raise NoSuchProcess
  /\ (EnumWindows_handles host_orphan = Raise NoSuchProcess
      \/ exists hs h, EnumWindows_handles host_orphan = Ok hs /\ h ∈ hs
                      /\ query_raised host_orphan h NoSuchProcess).
Proof.
  split; [reflexivity|]. split.
  { apply (proj1 (poll_fails_for_a_cause host_enum_fails) Win32Error).
    reflexivity. }
  split; [vm_compute; reflexivity|].
  apply (proj1 (proj2 (proj2 (poll_fails_for_a_cause host_orphan)))
           NoSuchProcess).
  vm_compute. reflexivity.
Defined.

(** *** The worker *)
Lemma cancellation_is_honoured_witness :
  (is_set turn_cancelled = true \/ wait_1 turn_cancelled = true)
  /\ (_loop ([turn_quiet] ++ turn_cancelled :: [turn_quiet]) (mkService [])).1
     <> Polling.
Proof.
  split; [left; reflexivity|].
  apply (cancellation_is_honoured [turn_quiet] [turn_quiet] turn_cancelled
           (mkService [])).
  left. reflexivity.
Defined.

Lemma turn_quiet_is_quiet : Forall quiet [turn_quiet].
Proof.
  constructor; [|constructor]. split; [reflexivity|].
  split; [vm_compute; reflexivity|reflexivity].
Qed.

Lemma worker_leaves_last_poll_witness :
  Forall quiet [turn_quiet]
  /\ EnumWindows host_enum_fails = Raise Win32Error
  /\ EnumWindows host
     = Ok (windows (_loop ([turn_quiet] ++ turn_failing :: [turn_quiet])
                      (mkService [])).2).
Proof.
  split; [exact turn_quiet_is_quiet|]. split; [vm_compute; reflexivity|].
  apply (worker_leaves_last_poll [turn_quiet] [turn_quiet] turn_failing
           (mkService []) turn_quiet_is_quiet).
  right. exists Win32Error. vm_compute. reflexivity.
Defined.

(** *** The store *)
Lemma store_editor_wf : store_wf store_editor heap_editor.
Proof.
  intros k w r Hk. unfold store_editor in Hk. cbn [store] in Hk.
  apply lookup_singleton_Some in Hk as [_ [= _ <-]].
  unfold heap_editor. rewrite lookup_singleton_eq. eauto.
Qed.

Lemma store_editor_keyed : store_keyed store_editor.
Proof.
  intros k w r Hk. unfold store_editor in Hk. cbn [store] in Hk.
  apply lookup_singleton_Some in Hk as [<- [= <- _]]. reflexivity.
Qed.

Lemma store_editor_unaliased : store_unaliased store_editor.
Proof.
  intros k1 k2 w1 w2 r H1 H2. unfold store_editor in *. cbn [store] in *.
  apply lookup_singleton_Some in H1 as [<- _].
  apply lookup_singleton_Some in H2 as [<- _]. reflexivity.
Qed.

Lemma store_invariants_kept_witness :
  store_wf store_editor heap_editor
  /\ let '(r, S', h') :=
       WindowStateStore___getitem__ store_editor installer heap_editor in
     store_wf S' h' /\ store_keyed S' /\ store_unaliased S'.
Proof.
  split; [exact store_editor_wf|].
  pose proof (proj1 (proj2 store_invariants_kept) store_editor heap_editor
                installer store_editor_wf store_editor_keyed
                store_editor_unaliased) as Hthm.
  destruct (WindowStateStore___getitem__ store_editor installer heap_editor)
    as [[r S'] h'].
  destruct Hthm as (H1 & H2 & H3 & _). done.
Defined.

Lemma states_are_independent_witness :
  hwnd installer <> hwnd editor
  /\ let '(ra, S1, h1) :=
       WindowStateStore___getitem__ store_editor installer heap_editor in
     state_of S1 (pin ra t0 h1) (hwnd editor)
     = state_of store_editor heap_editor (hwnd editor).
Proof.
  split; [discriminate|].
  pose proof (states_are_independent store_editor heap_editor installer editor
                store_editor_wf store_editor_unaliased ltac:(discriminate))
    as Hthm.
  destruct (WindowStateStore___getitem__ store_editor installer heap_editor)
    as [[ra S1] h1].
  apply (Hthm t0).
Defined.

Lemma purge_algebra_witness :
  purge store_editor [] = mkStore ∅
  /\ purge store_editor [editor; editor_later] = purge store_editor [editor_later].
Proof.
  split; [apply (proj1 (purge_algebra store_editor))|].
  apply (proj2 (proj2 (proj2 (proj2 (purge_algebra store_editor))))).
  intros k. cbn. rewrite !elem_of_cons. tauto.
Defined.

Lemma purge_then_lookup_witness :
  store_wf store_editor heap_editor
  /\ store_keyed store_editor
  /\ let '(r, S', h') :=
       WindowStateStore___getitem__ (purge store_editor [installer]) editor
         heap_editor in
     h' !! r = Some WindowState_new /\ heap_editor !! r = None.
Proof.
  split; [exact store_editor_wf|]. split; [exact store_editor_keyed|].
  pose proof (proj1 (purge_then_lookup store_editor heap_editor [installer] editor
                       store_editor_wf store_editor_keyed)) as Hthm.
  assert (Hout : forall x, x ∈ [installer] -> hwnd x <> hwnd editor).
  { intros x Hin. apply elem_of_cons in Hin as [->|Hin]; [discriminate|].
    apply elem_of_nil in Hin. contradiction. }
  specialize (Hthm Hout).
  destruct (WindowStateStore___getitem__ (purge store_editor [installer]) editor
              heap_editor) as [[r S'] h'].
  destruct Hthm as (H1 & H2 & _). done.
Defined.

(** *** The frame *)
Lemma frame_never_forgets_witness :
  store_wf store_editor heap_editor
  /\ let '(res, world') :=
       main (mkService [installer; editor]) no_clicks
         (mkWorld host heap_editor store_editor) in
     store (w_store world') !! 42 = Some (editor, 1%positive).
Proof.
  split; [exact store_editor_wf|].
  pose proof (frame_never_forgets (mkService [installer; editor]) no_clicks
                (mkWorld host heap_editor store_editor) store_editor_wf) as Hthm.
  destruct (main (mkService [installer; editor]) no_clicks
              (mkWorld host heap_editor store_editor)) as [res world'].
  destruct Hthm as (_ & Hkeep & _). apply Hkeep. apply lookup_singleton_eq.
Defined.

Lemma quiet_frame_reads_exe_witness :
  (forall h b, no_clicks h b = false)
  /\ let '(res, world') :=
       main (mkService [editor; installer; editor]) no_clicks (world_of host) in
     res = Raise NoSuchProcess /\ w_host world' = host.
Proof.
  split; [reflexivity|].
  pose proof (quiet_frame_reads_exe (mkService [editor; installer; editor])
                no_clicks (world_of host) ltac:(reflexivity)) as Hthm.
  destruct (main (mkService [editor; installer; editor]) no_clicks
              (world_of host)) as [res world'].
  destruct Hthm as (Hr & Hh & _ & _). split; [exact Hr|exact Hh].
Defined.

Lemma pin_button_toggles_witness :
  store_wf empty_store ∅
  /\ proc_exe (proc editor) = Ok "C:\editor.exe"%string
  /\ exists world',
       main_window click_pin editor (world_of host) = (Ok (), world')
       /\ state_of (w_store world') (w_heap world') (hwnd editor)
          = Some {| selected := false; pinned_at := Some t0 |}.
Proof.
  split; [exact empty_store_wf|]. split; [reflexivity|].
  destruct (pin_button_toggles click_pin editor (world_of host)
              "C:\editor.exe"%string empty_store_wf eq_refl eq_refl eq_refl eq_refl)
    as (st & world' & Hst & Hrun & _ & Hstate).
  exists world'. split; [exact Hrun|].
  rewrite Hstate. rewrite Hst. reflexivity.
Defined.

Lemma click_bigger_spec :
  forall h b', click_bigger h b' = true <-> h = hwnd editor /\ b' = BtnBigger.
Proof.
  intros h b'. unfold click_bigger. cbn [hwnd editor].
  destruct b'; try (split; [discriminate|intros [_ [=]]]).
  rewrite Z.eqb_eq. tauto.
Qed.

Lemma click_is_one_call_witness :
  Forall (λ x, hwnd x <> hwnd editor) ([] ++ [])
  /\ Forall (λ x, is_Ok (proc_exe (proc x)) = true) ([] ++ editor :: [])
  /\ let '(res, world') :=
       main (mkService ([] ++ editor :: [])) click_bigger (world_of host) in
     (res, w_host world') = resize editor 10 host.
Proof.
  assert (H1 : Forall (λ x, hwnd x <> hwnd editor) ([] ++ [])) by constructor.
  assert (H2 : Forall (λ x, is_Ok (proc_exe (proc x)) = true) ([] ++ editor :: []))
    by (constructor; [reflexivity|constructor]).
  split; [exact H1|]. split; [exact H2|].
  exact (click_is_one_call click_bigger [] [] editor BtnBigger (world_of host)
           click_bigger_spec H1 H2).
Defined.

(** *** Geometry *)
Lemma wh_ratio_cases_witness :
  win32_rect (mkRect 100 100 100 600)
  /\ wh_ratio (mkRect 100 100 100 600) = Ok (S754_zero false).
Proof.
  assert (Hr : win32_rect (mkRect 100 100 100 600))
    by (unfold win32_rect, win32_long; cbn; lia).
  split; [exact Hr|].
  apply (proj1 (proj2 (wh_ratio_cases (mkRect 100 100 100 600) Hr))).
  - vm_compute. discriminate.
  - reflexivity.
Defined.

Lemma placement_leaves_even_gaps_witness :
  win32_rect (mkRect 0 0 1921 1200)
  /\ exists l t,
       _resize_move_to_center_of_rect editor 1536 960 (mkRect 0 0 1921 1200) host
       = place editor l t 1536 960 host
       /\ Z.abs ((l - 0) - (1921 - (l + 1536))) <= 1
       /\ t - 0 = 1200 - (t + 960).
Proof.
  assert (Hr : win32_rect (mkRect 0 0 1921 1200))
    by (unfold win32_rect, win32_long; cbn; lia).
  split; [exact Hr|].
  destruct (placement_leaves_even_gaps editor 1536 960 (mkRect 0 0 1921 1200) host
              Hr ltac:(cbn; lia) ltac:(cbn; lia))
    as (l & t & Hp & Hl & _ & _ & Ht & _).
  exists l, t. split; [exact Hp|]. split; [exact Hl|]. apply Ht. reflexivity.
Defined.

Lemma resize_needs_width_and_height_witness :
  win32_rect (mkRect 100 100 100 600)
  /\ Z.abs 10 <= 2 ^ 31
  /\ height_delta_of (mkRect 100 100 100 600) 10 = Raise ZeroDivisionError.
Proof.
  assert (Hr : win32_rect (mkRect 100 100 100 600))
    by (unfold win32_rect, win32_long; cbn; lia).
  split; [exact Hr|]. split; [cbn; lia|].
  apply (proj1 (resize_needs_width_and_height (Σ := SimHost)
                  (mkRect 100 100 100 600) 10 Hr ltac:(cbn; lia))).
  left. reflexivity.
Defined.

Lemma resize_height_follows_width_witness :
  GetWindowRect (hwnd editor) host = Ok (100, 100, 1100, 600)
  /\ exists hd l t,
       resize editor 10 host = place editor l t (1000 + 10) (500 + hd) host
       /\ 0 <= hd <= 10.
Proof.
  split; [reflexivity|].
  destruct (@resize_height_follows_width SimHost SimHost_Host host editor 10 1 (0, 0, 1920, 1200)
              (100, 100, 1100, 600) ltac:(reflexivity) ltac:(reflexivity) ltac:(reflexivity)
              ltac:(unfold win32_rect, win32_long; cbn; lia)
              ltac:(unfold win32_rect, win32_long; cbn; lia)
              ltac:(reflexivity) ltac:(reflexivity)
              ltac:(vm_compute; discriminate))
    as (hd & l & t & _ & Hp & Hpos & _ & _ & Hb).
  exists hd, l, t. split; [exact Hp|].
  specialize (Hpos ltac:(lia)).
  specialize (Hb ltac:(vm_compute; discriminate)).
  cbn [Z.abs] in Hb. lia.
Defined.

Lemma center_at_ratio_bounds_witness :
  GetMonitorInfo_Work 1 host = Ok (0, 0, 1920, 1200)
  /\ center editor PyFloat.one host = place editor 0 0 1920 1200 host.
Proof.
  split; [reflexivity|].
  apply (proj1 (@center_at_ratio_bounds SimHost SimHost_Host host editor 1 (0, 0, 1920, 1200)
                  ltac:(reflexivity) ltac:(reflexivity)
                  ltac:(unfold win32_rect, win32_long; cbn; lia))).
Defined.

Lemma center_rejects_non_finite_ratio_witness :
  GetMonitorInfo_Work 1 host = Ok (0, 0, 1920, 1200)
  /\ center editor S754_nan host = (Raise ValueError, host)
  /\ center editor (S754_infinity false) host = (Raise OverflowError, host).
Proof.
  split; [reflexivity|].
  destruct (@center_rejects_non_finite_ratio SimHost SimHost_Host host editor 1 (0, 0, 1920, 1200)
              ltac:(reflexivity) ltac:(reflexivity) ltac:(unfold win32_rect, win32_long; cbn; lia))
    as (Hn & Hi & _).
  split; [exact Hn|]. apply Hi. vm_compute. discriminate.
Defined.
